(** * Brave Profile Color Manager: color codec, profile resolution and
      preference mutation

    A shallow embedding of [brave_profile_color.py].  Python values are
    modelled as follows.

    - [int] is [Z] (Python integers are unbounded; the 32-bit wrap-around
      of the colour codec is written out as in the source).
    - [str] is [string]; a character is a code point below 256, so that
      [str.lower], [str.split] and [int] are the restrictions of the Python
      built-ins to Latin-1 text.
    - an exception is a value of [exn]; a call that may raise returns a
      [result].  [IOError] stands for [OSError] and its subclasses, which
      is what the name means in Python 3.
    - a JSON document is a [json] tree; a [dict] is an association list in
      insertion order.
    - the file system is a tree of directories and files.  A file holds a
      JSON document, or text that is not JSON, or bytes that are not UTF-8,
      which are the three things [json.load] can make of it.  Directories
      can always be listed and written to, a write either happens in full
      or fails when the file is opened, and there are no links.
    - a function that only reads takes the tree as an argument; a function
      that writes is a state transformer on [world], which also records the
      calls that change the tree, the clock, and the error stream. *)

From Stdlib Require Import ZArith List String Ascii Bool Lia Arith.
From Stdlib Require Import Permutation Sorted.
From Stdlib.Init Require Import Byte.
From Stdlib Require Import Floats.SpecFloat.
Import ListNotations.

Open Scope string_scope.

(** ** Exceptions and results *)

Inductive exn : Set :=
| ValueError
| TypeError
| AttributeError
| IndexError
| KeyError
| IOError
| JSONDecodeError
| UnicodeDecodeError.

Inductive result (A : Type) : Type :=
| Ok (a : A)
| Raise (e : exn).

Arguments Ok {A} a.
Arguments Raise {A} e.

Definition bind {A B : Type} (r : result A) (k : A -> result B) : result B :=
  match r with
  | Ok a => k a
  | Raise e => Raise e
  end.

Declare Scope py_scope.
Delimit Scope py_scope with py.
Notation "x <- r ;; k" := (bind r (fun x => k))
  (at level 61, r at next level, right associativity) : py_scope.

(** ** Python string built-ins *)

Module PyStr.

Definition chars (s : string) : list ascii := list_ascii_of_string s.
Definition str (l : list ascii) : string := string_of_list_ascii l.

Definition code (c : ascii) : Z := Z.of_nat (nat_of_ascii c).

Definition between (lo hi x : Z) : bool := (lo <=? x)%Z && (x <=? hi)%Z.

(** [s.lstrip(c)] for a one-character argument: every leading [c] goes. *)
Fixpoint lstrip (c : ascii) (s : string) : string :=
  match s with
  | String d rest => if Ascii.eqb d c then lstrip c rest else s
  | EmptyString => EmptyString
  end.

(** [s.startswith(p)]. *)
Definition startswith (p s : string) : bool := String.prefix p s.

(** [str.isspace] on one code point below 256. *)
Definition isspace (c : ascii) : bool :=
  let n := code c in
  between 9 13 n || between 28 32 n || (n =? 133)%Z || (n =? 160)%Z.

(** [str.lower] on one code point below 256: A-Z and the Latin-1 capitals
    (all of 192..222 but the multiplication sign 215) move up by 32. *)
Definition lower_char (c : ascii) : ascii :=
  let n := code c in
  if between 65 90 n || (between 192 222 n && negb (n =? 215)%Z)
  then ascii_of_nat (nat_of_ascii c + 32)
  else c.

Fixpoint lower (s : string) : string :=
  match s with
  | String c rest => String (lower_char c) (lower rest)
  | EmptyString => EmptyString
  end.

(** [sub in s] on strings: [sub] occurs in [s] as a contiguous block. *)
Fixpoint contains (sub s : string) : bool :=
  if String.prefix sub s then true
  else match s with
       | String _ rest => contains sub rest
       | EmptyString => false
       end.

(** [s.split()]: the maximal runs of non-space characters, in order.
    [cur] holds the run being read, latest character first. *)
Fixpoint split_go (cs : list ascii) (cur : list ascii) : list string :=
  match cs with
  | [] => match cur with [] => [] | _ => [str (rev cur)] end
  | c :: rest =>
      if isspace c
      then match cur with
           | [] => split_go rest []
           | _ => str (rev cur) :: split_go rest []
           end
      else split_go rest (c :: cur)
  end.

Definition split (s : string) : list string := split_go (chars s) [].

(** *** [int(s, base)]

    The value of a digit character, as CPython's digit table gives it:
    0-9, then a-z and A-Z as 10..35. *)
Definition digit_value (c : ascii) : option Z :=
  let n := code c in
  if between 48 57 n then Some (n - 48)%Z
  else if between 97 122 n then Some (n - 87)%Z
  else if between 65 90 n then Some (n - 55)%Z
  else None.

(** The blanks [int] skips at both ends: the ASCII ones, and the two
    Latin-1 spaces, which CPython first rewrites to an ASCII space. *)
Definition int_space (c : ascii) : bool :=
  let n := code c in
  between 9 13 n || (n =? 32)%Z || (n =? 133)%Z || (n =? 160)%Z.

Fixpoint skip_spaces (cs : list ascii) : list ascii :=
  match cs with
  | c :: rest => if int_space c then skip_spaces rest else cs
  | [] => []
  end.

(** The digit run.  [acc] is the value read so far, [seen] says that a digit
    was read, [prev_us] that the previous character was an underscore.  An
    underscore is accepted between two digits only. *)
Fixpoint scan_digits (base : Z) (cs : list ascii) (acc : Z)
    (seen prev_us : bool) : result Z :=
  match cs with
  | [] => if seen && negb prev_us then Ok acc else Raise ValueError
  | c :: rest =>
      match digit_value c with
      | Some d =>
          if (d <? base)%Z
          then scan_digits base rest (acc * base + d)%Z true false
          else Raise ValueError
      | None =>
          if Ascii.eqb c "_"
          then if seen && negb prev_us
               then scan_digits base rest acc seen true
               else Raise ValueError
          else if seen && negb prev_us
               then match skip_spaces cs with
                    | [] => Ok acc
                    | _ => Raise ValueError
                    end
               else Raise ValueError
      end
  end.

Definition strip_prefix (base : Z) (cs : list ascii) : list ascii :=
  if (base =? 16)%Z
  then match cs with
       | c0 :: cx :: rest =>
           if Ascii.eqb c0 "0" && (Ascii.eqb cx "x" || Ascii.eqb cx "X")
           then match rest with
                | u :: rest' => if Ascii.eqb u "_" then rest' else rest
                | [] => rest
                end
           else cs
       | _ => cs
       end
  else cs.

Definition int_chars (base : Z) (cs : list ascii) : result Z :=
  let cs := skip_spaces cs in
  let '(sign, cs) :=
    match cs with
    | c :: rest =>
        if Ascii.eqb c "+" then (1%Z, rest)
        else if Ascii.eqb c "-" then ((-1)%Z, rest)
        else (1%Z, cs)
    | [] => (1%Z, cs)
    end in
  bind (scan_digits base (strip_prefix base cs) 0 false false)
       (fun v => Ok (sign * v)%Z).

(** [int(s, base)] for [base] 10 or 16. *)
Definition int (base : Z) (s : string) : result Z := int_chars base (chars s).

(** *** [format(n, "06X")]

    Upper-case hexadecimal digits, most significant first. *)
Definition hex_char (d : Z) : ascii :=
  if (d <? 10)%Z then ascii_of_nat (Z.to_nat (48 + d))
  else ascii_of_nat (Z.to_nat (55 + d)).

Fixpoint to_hex (fuel : nat) (n : Z) : list ascii :=
  match fuel with
  | O => []
  | S f =>
      if (n <? 16)%Z then [hex_char n]
      else to_hex f (n / 16) ++ [hex_char (n mod 16)]
  end.

Definition hex_upper (n : Z) : list ascii :=
  to_hex (S (Z.to_nat (Z.log2 n))) n.

Definition zero_fill (width : nat) (ds : list ascii) : list ascii :=
  repeat "0"%char (width - List.length ds) ++ ds.

(** The fill is sign-aware: the minus sign counts in the width and comes
    before the zeros. *)
Definition format_06X (n : Z) : string :=
  if (n <? 0)%Z
  then String "-" (str (zero_fill 5 (hex_upper (- n))))
  else str (zero_fill 6 (hex_upper n)).

End PyStr.

(** ** Color codec *)

(** [hex_to_signed_int], lines 108-136. *)
Definition hex_to_signed_int (hex_color : string) : result Z :=
  let hex_color := PyStr.lstrip "#" hex_color in
  bind (if Nat.eqb (String.length hex_color) 6 then Ok ("FF" ++ hex_color)
        else if negb (Nat.eqb (String.length hex_color) 8)
             then Raise ValueError
             else Ok hex_color)
       (fun hex_color =>
  bind (PyStr.int 16 hex_color) (fun unsigned =>
  if (unsigned >=? Z.shiftl 1 31)%Z
  then Ok (unsigned - Z.shiftl 1 32)%Z
  else Ok unsigned)).

(** [signed_int_to_hex], lines 139-155. *)
Definition signed_int_to_hex (signed_int : Z) : string :=
  let unsigned :=
    if (signed_int <? 0)%Z then (signed_int + Z.shiftl 1 32)%Z
    else signed_int in
  String "#" (PyStr.format_06X (Z.land unsigned 16777215)).


(** ** JSON values and the Python operations the program applies to them *)

(** What [json.load] returns: [None], [bool], [int], [float], [str], [list]
    and [dict].  A [dict] keeps its insertion order, so it is an association
    list; [json.load] never builds one with a repeated key. *)
#[warnings="-register-all"]
Inductive json : Type :=
| JNull
| JBool (b : bool)
| JInt (n : Z)
| JFloat (f : spec_float)
| JStr (s : string)
| JList (l : list json)
| JDict (d : list (string * json)).

Module Dict.

Section Ops.
Context {V : Type}.

Fixpoint get (k : string) (d : list (string * V)) : option V :=
  match d with
  | [] => None
  | (k', v) :: rest => if String.eqb k k' then Some v else get k rest
  end.

Definition mem (k : string) (d : list (string * V)) : bool :=
  match get k d with Some _ => true | None => false end.

(** [d[k] = v]: a key already present keeps its place, a new key goes
    last. *)
Fixpoint set (k : string) (v : V) (d : list (string * V))
    : list (string * V) :=
  match d with
  | [] => [(k, v)]
  | (k', v') :: rest =>
      if String.eqb k k' then (k, v) :: rest else (k', v') :: set k v rest
  end.
End Ops.

End Dict.

(** [bool(v)]. *)
Definition truthy (v : json) : bool :=
  match v with
  | JNull => false
  | JBool b => b
  | JInt n => negb (n =? 0)%Z
  | JFloat (S754_zero _) => false
  | JFloat _ => true
  | JStr s => negb (String.eqb s "")
  | JList l => match l with [] => false | _ => true end
  | JDict d => match d with [] => false | _ => true end
  end.

Definition is_str (k : string) (v : json) : bool :=
  match v with JStr s => String.eqb k s | _ => false end.

(** [k in v] for a string [k]. *)
Definition py_in (k : string) (v : json) : result bool :=
  match v with
  | JDict d => Ok (Dict.mem k d)
  | JList l => Ok (existsb (is_str k) l)
  | JStr s => Ok (PyStr.contains k s)
  | _ => Raise TypeError
  end.

(** [v[k]] for a string [k]. *)
Definition py_getitem (v : json) (k : string) : result json :=
  match v with
  | JDict d => match Dict.get k d with Some x => Ok x | None => Raise KeyError end
  | _ => Raise TypeError
  end.

(** [v[k] = x] for a string [k]; the result is [v] after the assignment. *)
Definition py_setitem (v : json) (k : string) (x : json) : result json :=
  match v with
  | JDict d => Ok (JDict (Dict.set k x d))
  | _ => Raise TypeError
  end.

(** [v.get(k, default)]. *)
Definition py_get (v : json) (k : string) (default : json) : result json :=
  match v with
  | JDict d => match Dict.get k d with Some x => Ok x | None => Ok default end
  | _ => Raise AttributeError
  end.

(** [v.items()]. *)
Definition py_items (v : json) : result (list (string * json)) :=
  match v with
  | JDict d => Ok d
  | _ => Raise AttributeError
  end.

(** [v.lower()]. *)
Definition py_lower (v : json) : result string :=
  match v with
  | JStr s => Ok (PyStr.lower s)
  | _ => Raise AttributeError
  end.

(** [try: r except handled: h]. *)
Definition catch {A : Type} (r : result A) (handled : exn -> bool)
    (h : exn -> result A) : result A :=
  match r with
  | Ok a => Ok a
  | Raise e => if handled e then h e else Raise e
  end.

(** The clause [except (json.JSONDecodeError, IOError)] of every reader. *)
Definition decode_or_io (e : exn) : bool :=
  match e with
  | JSONDecodeError | IOError => true
  | _ => false
  end.

(** The path of a nested field, read the way the theorems state it. *)
Fixpoint field (p : list string) (v : json) : option json :=
  match p with
  | [] => Some v
  | k :: rest =>
      match v with
      | JDict d => match Dict.get k d with
                   | Some x => field rest x
                   | None => None
                   end
      | _ => None
      end
  end.

(** ** The file system

    A path is the list of its components below the root; the paths the
    program builds have no [..] component.  A file records whether it may be
    opened for reading and for writing, and what it holds, up to what
    [json.load] makes of it.

    The tree is kept small.  Directories carry no permissions, so
    [iterdir] and [exists] raise on no directory; [json.load] either returns
    or raises [JSONDecodeError] or [UnicodeDecodeError]; and a write that
    fails changes nothing, where the program would have cut the file short.
    What is proved about listings and failed writes is proved of such
    trees. *)

Definition path : Type := list string.

Inductive content : Type :=
| Json (doc : json)          (* UTF-8 JSON text that [json.load] reads as [doc] *)
| NotJson (text : string)    (* UTF-8 text on which [json.load] raises
                                [JSONDecodeError] *)
| NotUtf8 (raw : list byte). (* bytes that the UTF-8 decoder rejects *)

(** The entries of a directory are in the order the system lists them. *)
#[warnings="-register-all"]
Inductive node : Type :=
| File (readable writable : bool) (data : content)
| Dir (entries : list (string * node)).

Inductive fs_call : Type :=
| Mkdir (p : path)
| Copy (src dst : path)
| Write (p : path).

(** The world a call runs in: the tree, the readings [datetime.now()] will
    give (already formatted), the file-system calls that change the tree, in
    the order they were made, and what went to the error stream. *)
Record world : Type := World {
  root : node;
  clock : list string;
  calls : list fs_call;
  stderr : list exn
}.

Module Path.

Definition name (p : path) : string := last p "".
Definition parent (p : path) : path := removelast p.
Definition join (p : path) (c : string) : path := (p ++ [c])%list.

Fixpoint lookup (p : path) (n : node) : option node :=
  match p with
  | [] => Some n
  | c :: rest =>
      match n with
      | Dir es => match Dict.get c es with
                  | Some m => lookup rest m
                  | None => None
                  end
      | File _ _ _ => None
      end
  end.

Definition exists_ (n : node) (p : path) : bool :=
  match lookup p n with Some _ => true | None => false end.

Definition is_dir (n : node) (p : path) : bool :=
  match lookup p n with Some (Dir _) => true | _ => false end.

(** [p.iterdir()], as the list of entry names. *)
Definition iterdir (n : node) (p : path) : result (list string) :=
  match lookup p n with
  | Some (Dir es) => Ok (map fst es)
  | _ => Raise IOError
  end.

(** [open(p, 'r', encoding='utf-8')] followed by [json.load]. *)
Definition read_json (n : node) (p : path) : result json :=
  match lookup p n with
  | Some (File true _ (Json doc)) => Ok doc
  | Some (File true _ (NotJson _)) => Raise JSONDecodeError
  | Some (File true _ (NotUtf8 _)) => Raise UnicodeDecodeError
  | _ => Raise IOError
  end.

(** The bytes of a file, as [shutil.copy2] reads them, with its mode. *)
Definition read_raw (n : node) (p : path) : result (bool * content) :=
  match lookup p n with
  | Some (File true w data) => Ok (w, data)
  | _ => Raise IOError
  end.

(** Store [data] in the file at [p]: an existing file must be writable and
    keeps its place in its directory, a new file is created in an existing
    directory.  With [mode = Some w] the file takes the mode of a readable
    source with write permission [w], otherwise it keeps its mode. *)
Fixpoint store (p : path) (data : content) (mode : option bool) (n : node)
    : result node :=
  match n with
  | File _ _ _ => Raise IOError
  | Dir es =>
      match p with
      | [] => Raise IOError
      | c :: rest =>
          match rest with
          | [] =>
              match Dict.get c es with
              | Some (File r w _) =>
                  if w
                  then Ok (Dir (Dict.set c
                         (match mode with
                          | Some w' => File true w' data
                          | None => File r w data
                          end) es))
                  else Raise IOError
              | Some (Dir _) => Raise IOError
              | None =>
                  Ok (Dir (Dict.set c
                         (match mode with
                          | Some w' => File true w' data
                          | None => File true true data
                          end) es))
              end
          | _ :: _ =>
              match Dict.get c es with
              | Some m =>
                  match store rest data mode m with
                  | Ok m' => Ok (Dir (Dict.set c m' es))
                  | Raise e => Raise e
                  end
              | None => Raise IOError
              end
          end
      end
  end.

(** [p.mkdir(exist_ok=True)]. *)
Fixpoint mkdir (p : path) (n : node) : result node :=
  match n with
  | File _ _ _ => Raise IOError
  | Dir es =>
      match p with
      | [] => Ok n
      | c :: rest =>
          match Dict.get c es with
          | Some m =>
              match mkdir rest m with
              | Ok m' => Ok (Dir (Dict.set c m' es))
              | Raise e => Raise e
              end
          | None =>
              match rest with
              | [] => Ok (Dir (Dict.set c (Dir []) es))
              | _ :: _ => Raise IOError
              end
          end
      end
  end.

Definition eqb (p q : path) : bool :=
  if list_eq_dec String.string_dec p q then true else false.

End Path.

(** ** Calls that change the world *)

Definition M (A : Type) : Type := world -> result A * world.

Definition ret {A : Type} (a : A) : M A := fun w => (Ok a, w).

Definition lift {A : Type} (r : node -> result A) : M A :=
  fun w => (r (root w), w).

Definition bindM {A B : Type} (m : M A) (k : A -> M B) : M B :=
  fun w =>
    match m w with
    | (Ok a, w') => k a w'
    | (Raise e, w') => (Raise e, w')
    end.

Notation "x <~ m ;; k" := (bindM m (fun x => k))
  (at level 61, m at next level, right associativity) : py_scope.
Notation "m ;;; k" := (bindM m (fun _ => k))
  (at level 61, right associativity) : py_scope.

Definition catchM {A : Type} (m : M A) (handled : exn -> bool)
    (h : exn -> M A) : M A :=
  fun w =>
    match m w with
    | (Ok a, w') => (Ok a, w')
    | (Raise e, w') => if handled e then h e w' else (Raise e, w')
    end.

Definition is_io (e : exn) : bool :=
  match e with IOError => true | _ => false end.

Definition log (c : fs_call) : M unit :=
  fun w => (Ok tt, World (root w) (clock w) (calls w ++ [c])%list (stderr w)).

Definition set_root (r : result node) : M unit :=
  fun w =>
    match r with
    | Ok n => (Ok tt, World n (clock w) (calls w) (stderr w))
    | Raise e => (Raise e, w)
    end.

Definition change (f : node -> result node) : M unit :=
  fun w => set_root (f (root w)) w.

(** [datetime.now().strftime("%Y%m%d_%H%M%S")]. *)
Definition now : M string :=
  fun w =>
    match clock w with
    | t :: rest => (Ok t, World (root w) rest (calls w) (stderr w))
    | [] => (Ok "", w)
    end.

(** [print(..., file=sys.stderr)] with the exception in the message. *)
Definition eprint (e : exn) : M unit :=
  fun w => (Ok tt, World (root w) (clock w) (calls w) (stderr w ++ [e])%list).

Definition mkdir_exist_ok (p : path) : M unit :=
  (log (Mkdir p) ;;; change (Path.mkdir p))%py.

(** [shutil.copy2(src, dst)]: into [dst], or into [dst/name(src)] when [dst]
    is a directory; the copy takes the mode of the source. *)
Definition copy2 (src dst : path) : M unit :=
  (log (Copy src dst) ;;;
   fun w =>
     let target := if Path.is_dir (root w) dst
                   then Path.join dst (Path.name src) else dst in
     if Path.eqb src target then (Raise IOError, w)
     else match Path.read_raw (root w) src with
          | Ok (wr, data) => change (Path.store target data (Some wr)) w
          | Raise e => (Raise e, w)
          end)%py.

(** [open(p, 'w', encoding='utf-8')] followed by [json.dump]. *)
Definition write_json (p : path) (doc : json) : M unit :=
  (log (Write p) ;;; change (Path.store p (Json doc) None))%py.

Open Scope py_scope.

(** ** Backup management *)

(** [get_backup_dir], lines 64-66. *)
Definition get_backup_dir (user_data_dir : path) : path :=
  Path.join user_data_dir ".color_backups".

(** [backup_preferences], lines 69-89.  [mkdir] is outside the [try]. *)
Definition backup_preferences (prefs_path user_data_dir : path)
    : M (option path) :=
  let backup_dir := get_backup_dir user_data_dir in
  mkdir_exist_ok backup_dir ;;;
  let profile_folder := Path.name (Path.parent prefs_path) in
  timestamp <~ now ;;
  let backup_name := profile_folder ++ "_" ++ timestamp ++ ".json" in
  let backup_path := Path.join backup_dir backup_name in
  catchM (copy2 prefs_path backup_path ;;; ret (Some backup_path))
         is_io (fun _ => ret None).

(** ** Profile management *)

(** [load_profile_names_from_local_state], lines 197-214.  The dictionary
    comprehension visits [info_cache] in order. *)
Fixpoint names_of_items (items : list (string * json))
    (acc : list (string * json)) : result (list (string * json)) :=
  match items with
  | [] => Ok acc
  | (folder, info) :: rest =>
      v <- py_get info "name" (JStr "") ;;
      names_of_items rest (Dict.set folder v acc)
  end.

Definition load_profile_names_from_local_state (fs : node)
    (user_data_dir : path) : result (list (string * json)) :=
  let local_state_path := Path.join user_data_dir "Local State" in
  catch (state <- Path.read_json fs local_state_path ;;
         profile <- py_get state "profile" (JDict []) ;;
         info_cache <- py_get profile "info_cache" (JDict []) ;;
         items <- py_items info_cache ;;
         names_of_items items [])
        decode_or_io (fun _ => Ok []).

(** The keys [sort_key] returns: [(0, 0)], [(1, num)] and [(2, name)]. *)
Inductive key : Type :=
| KDefault
| KNumbered (num : Z)
| KOther (name : string).

(** [a < b] on [str]: by code points, a proper prefix first. *)
Fixpoint str_ltb (a b : string) : bool :=
  match a, b with
  | _, EmptyString => false
  | EmptyString, String _ _ => true
  | String c a', String d b' =>
      if (PyStr.code c <? PyStr.code d)%Z then true
      else if (PyStr.code c =? PyStr.code d)%Z then str_ltb a' b'
      else false
  end.

(** [a < b] on the tuples: the first components decide unless they agree. *)
Definition key_ltb (a b : key) : bool :=
  match a, b with
  | KDefault, KDefault => false
  | KDefault, _ => true
  | KNumbered _, KDefault => false
  | KNumbered n, KNumbered m => (n <? m)%Z
  | KNumbered _, KOther _ => true
  | KOther _, KDefault => false
  | KOther _, KNumbered _ => false
  | KOther s, KOther t => str_ltb s t
  end.

(** [sort_key], lines 238-248, on the folder name. *)
Definition sort_key (name : string) : key :=
  if String.eqb name "Default" then KDefault
  else if PyStr.startswith "Profile " name
  then match nth_error (PyStr.split name) 1 with
       | Some tok =>
           match PyStr.int 10 tok with
           | Ok num => KNumbered num
           | Raise _ => KOther name
           end
       | None => KOther name
       end
  else KOther name.

(** [sorted(profiles, key=sort_key)].  The sort is stable and compares keys
    with [<] only, which fixes its result; it is written here as an insertion
    from the right. *)
Section Sorted.
Context {A : Type} (key_of : A -> key).

Fixpoint insert (x : A) (l : list A) : list A :=
  match l with
  | [] => [x]
  | y :: rest =>
      if key_ltb (key_of y) (key_of x) then y :: insert x rest
      else x :: l
  end.

Definition sorted (l : list A) : list A := fold_right insert [] l.
End Sorted.

Definition is_system (name : string) : bool :=
  String.eqb name "System Profile" || String.eqb name "Guest Profile".

(** The loop of lines 226-235. *)
Fixpoint collect_profiles (fs : node) (user_data_dir : path)
    (entries : list string) : list (string * path) :=
  match entries with
  | [] => []
  | name :: rest =>
      let entry := Path.join user_data_dir name in
      let others := collect_profiles fs user_data_dir rest in
      if negb (Path.is_dir fs entry) then others
      else if Path.exists_ fs (Path.join entry "Preferences")
      then if is_system name then others else (name, entry) :: others
      else others
  end.

(** [get_profile_dirs], lines 217-250. *)
Definition get_profile_dirs (fs : node) (user_data_dir : path)
    : result (list (string * path)) :=
  entries <- Path.iterdir fs user_data_dir ;;
  Ok (sorted (fun item => sort_key (fst item))
             (collect_profiles fs user_data_dir entries)).

(** [get_profile_display_name], lines 253-260. *)
Definition get_profile_display_name (fs : node) (prefs_path : path)
    : result json :=
  catch (prefs <- Path.read_json fs prefs_path ;;
         profile <- py_get prefs "profile" (JDict []) ;;
         py_get profile "name" (JStr ""))
        decode_or_io (fun _ => Ok (JStr "")).

(** [signed_int_to_hex] on what the document holds: [bool] is an [int], and
    [&] is not defined on the other types. *)
Definition signed_int_to_hex_of (v : json) : result string :=
  match v with
  | JInt n => Ok (signed_int_to_hex n)
  | JBool b => Ok (signed_int_to_hex (if b then 1 else 0))
  | _ => Raise TypeError
  end.

(** [get_current_color], lines 263-274: [None], or the colour, or a string
    that starts with [ERROR]. *)
Definition get_current_color (fs : node) (prefs_path : path)
    : result (option string) :=
  catch (prefs <- Path.read_json fs prefs_path ;;
         autogenerated <- py_get prefs "autogenerated" (JDict []) ;;
         theme <- py_get autogenerated "theme" (JDict []) ;;
         color <- py_get theme "color" JNull ;;
         match color with
         | JNull => Ok None
         | _ => hex <- signed_int_to_hex_of color ;; Ok (Some hex)
         end)
        decode_or_io (fun _ => Ok (Some "ERROR")).

(** [profile_names.get(folder_name) or get_profile_display_name(...)]. *)
Definition display_name_of (fs : node) (profile_names : list (string * json))
    (folder_name : string) (prefs_path : path) : result json :=
  let listed := match Dict.get folder_name profile_names with
                | Some v => v
                | None => JNull
                end in
  if truthy listed then Ok listed
  else get_profile_display_name fs prefs_path.

(** ** Preference mutation *)

(** Lines 311-326 on the loaded document.  Objects are held by reference,
    so assigning into [prefs[k]] is storing the changed object back under
    [k]. *)
Definition ensure_key (k : string) (v : json) : result json :=
  present <- py_in k v ;;
  if negb present then py_setitem v k (JDict []) else Ok v.

Definition set_nested (outer inner leaf : string) (x : json) (prefs : json)
    : result json :=
  prefs <- ensure_key outer prefs ;;
  o <- py_getitem prefs outer ;;
  o <- ensure_key inner o ;;
  i <- py_getitem o inner ;;
  i <- py_setitem i leaf x ;;
  o <- py_setitem o inner i ;;
  py_setitem prefs outer o.

(** Lines 312-318 set the colour, lines 322-326 the theme identifier. *)
Definition mutate_prefs (color_int : Z) (prefs : json) : result json :=
  prefs <- set_nested "autogenerated" "theme" "color" (JInt color_int) prefs ;;
  set_nested "extensions" "theme" "id" (JStr "autogenerated_theme_id") prefs.

(** The [try] suite of [set_theme_color], lines 308-336. *)
Definition set_theme_color_try (prefs_path : path) (color_int : Z)
    (user_data_dir : path) (dry_run backup : bool) : M bool :=
  prefs <~ lift (fun fs => Path.read_json fs prefs_path) ;;
  prefs <~ lift (fun _ => mutate_prefs color_int prefs) ;;
  (if negb dry_run
   then (if backup
         then backup_preferences prefs_path user_data_dir ;;; ret tt
         else ret tt) ;;;
        write_json prefs_path prefs
   else ret tt) ;;;
  ret true.

(** [set_theme_color], lines 287-339. *)
Definition set_theme_color (prefs_path : path) (color_int : Z)
    (user_data_dir : path) (dry_run backup : bool) : M bool :=
  catchM (set_theme_color_try prefs_path color_int user_data_dir dry_run backup)
         decode_or_io
         (fun e => eprint e ;;; ret false).

(** ** Name resolution *)

(** The loop of lines 360-364. *)
Fixpoint build_name_to_profile (fs : node) (profile_names : list (string * json))
    (all_profiles : list (string * path))
    (name_to_profile : list (string * (string * path)))
    : result (list (string * (string * path))) :=
  match all_profiles with
  | [] => Ok name_to_profile
  | (folder_name, p) :: rest =>
      display_name <- display_name_of fs profile_names folder_name
                        (Path.join p "Preferences") ;;
      if truthy display_name
      then k <- py_lower display_name ;;
           build_name_to_profile fs profile_names rest
             (Dict.set k (folder_name, p) name_to_profile)
      else build_name_to_profile fs profile_names rest name_to_profile
  end.

(** The inner loop of lines 374-377, with its [break]. *)
Fixpoint first_partial {V : Type} (search_lower : string)
    (items : list (string * V)) : list V :=
  match items with
  | [] => []
  | (display_name, profile_info) :: rest =>
      if PyStr.contains search_lower display_name then [profile_info]
      else first_partial search_lower rest
  end.

(** What one query appends to [matched], lines 368-377. *)
Definition match_query {V : Type} (name_to_profile : list (string * V))
    (search_name : string) : list V :=
  let search_lower := PyStr.lower search_name in
  match Dict.get search_lower name_to_profile with
  | Some profile_info => [profile_info]
  | None => first_partial search_lower name_to_profile
  end.

(** [find_profiles_by_name], lines 342-379. *)
Definition find_profiles_by_name (fs : node) (user_data_dir : path)
    (names : list string) : result (list (string * path)) :=
  all_profiles <- get_profile_dirs fs user_data_dir ;;
  profile_names <- load_profile_names_from_local_state fs user_data_dir ;;
  name_to_profile <- build_name_to_profile fs profile_names all_profiles [] ;;
  Ok (flat_map (match_query name_to_profile) names).

(** ** The update loop of [main], lines 569-595

    The lines that only format and print are left out.  They cannot raise
    here: line 535 has already formatted the new colour, and the current
    colour is absent, an error text, or what [signed_int_to_hex] returned. *)
Fixpoint update_loop (profile_names : list (string * json))
    (profiles : list (string * path)) (color_int : Z) (user_data_dir : path)
    (dry_run do_backup : bool) (success_count : Z) : M Z :=
  match profiles with
  | [] => ret success_count
  | (folder_name, p) :: rest =>
      let prefs_path := Path.join p "Preferences" in
      _ <~ lift (fun fs => display_name_of fs profile_names folder_name prefs_path) ;;
      _ <~ lift (fun fs => get_current_color fs prefs_path) ;;
      ok <~ set_theme_color prefs_path color_int user_data_dir dry_run do_backup ;;
      update_loop profile_names rest color_int user_data_dir dry_run do_backup
        (if ok then success_count + 1 else success_count)%Z
  end.

Definition update_profiles (profiles : list (string * path)) (color_int : Z)
    (user_data_dir : path) (dry_run no_backup : bool) : M Z :=
  profile_names <~ lift (fun fs =>
                     load_profile_names_from_local_state fs user_data_dir) ;;
  let do_backup := negb no_backup && negb dry_run in
  update_loop profile_names profiles color_int user_data_dir dry_run do_backup 0.

(** ** Definitions that follow the specification's wording *)

(** A hexadecimal digit, in either case. *)
Definition is_hex_digit (c : ascii) : bool :=
  let n := PyStr.code c in
  PyStr.between 48 57 n || PyStr.between 65 70 n || PyStr.between 97 102 n.

Definition is_hex (s : string) : bool := forallb is_hex_digit (PyStr.chars s).

(** "With or without a leading [#]": at most one is taken off. *)
Definition strip_hash (x : string) : string :=
  match x with
  | String c s => if Ascii.eqb c "#" then s else x
  | EmptyString => x
  end.

(** A valid colour string: six hexadecimal digits, with or without [#]. *)
Definition valid_color (x : string) : bool :=
  Nat.eqb (String.length (strip_hash x)) 6 && is_hex (strip_hash x).

Definition upper_char (c : ascii) : ascii :=
  if PyStr.between 97 122 (PyStr.code c)
  then ascii_of_nat (nat_of_ascii c - 32) else c.

Fixpoint upper (s : string) : string :=
  match s with
  | String c rest => String (upper_char c) (upper rest)
  | EmptyString => EmptyString
  end.

(** "Normalized to uppercase with a leading [#]". *)
Definition normalize_color (x : string) : string :=
  String "#" (upper (strip_hash x)).

(** A document the mutation goes through: an object in which [outer], and
    [inner] inside it, are each absent or an object. *)
Definition nested_objects (outer inner : string) (prefs : json) : bool :=
  match prefs with
  | JDict d =>
      match Dict.get outer d with
      | None => true
      | Some (JDict d') =>
          match Dict.get inner d' with
          | None | Some (JDict _) => true
          | Some _ => false
          end
      | Some _ => false
      end
  | _ => false
  end.

Definition theme_objects (prefs : json) : bool :=
  nested_objects "autogenerated" "theme" prefs &&
  nested_objects "extensions" "theme" prefs.

(** The value of a digit string read from the left in base [base]. *)
Definition digit_step (base : Z) (a : Z) (c : ascii) : Z :=
  match PyStr.digit_value c with
  | Some d => (a * base + d)%Z
  | None => a
  end.

Definition hex_step : Z -> ascii -> Z := digit_step 16.

(** The [k] low hexadecimal digits of [n], most significant first. *)
Fixpoint low_digits (k : nat) (n : Z) : list ascii :=
  match k with
  | O => []
  | S k' => (low_digits k' (n / 16) ++ [PyStr.hex_char (n mod 16)])%list
  end.









(** Every key of the lookup is the lower-cased display name of the profile
    it leads to. *)
Definition keyed_by_name (fs : node) (profile_names : list (string * json))
    (k : string) (info : string * path) : Prop :=
  exists d, display_name_of fs profile_names (fst info)
              (Path.join (snd info) "Preferences") = Ok (JStr d) /\
            d <> "" /\ k = PyStr.lower d.

(** A name index of the expected shape: an object whose ["profile"], when
    present, is an object, whose ["info_cache"], when present, is an object,
    and whose every entry is an object. *)
Definition is_object (v : json) : bool :=
  match v with JDict _ => true | _ => false end.

Definition index_shape (state : json) : bool :=
  match state with
  | JDict d =>
      match Dict.get "profile" d with
      | None => true
      | Some (JDict p) =>
          match Dict.get "info_cache" p with
          | None => true
          | Some (JDict items) => forallb (fun kv => is_object (snd kv)) items
          | Some _ => false
          end
      | Some _ => false
      end
  | _ => false
  end.

(** The world after a message about [e] went to the error stream. *)
Definition with_stderr (w : world) (e : exn) : world :=
  World (root w) (clock w) (calls w) (stderr w ++ [e])%list.

(** ** Example data directories *)

Definition data_dir : path := ["data"].

Definition prefs_of (folder : string) : path := ["data"; folder; "Preferences"].

Definition profile_with (data : content) : node :=
  Dir [("Preferences", File true true data)].

Definition world_of (fs : node) : world :=
  World fs ["20250101_120000"; "20250101_120001"] [] [].

(** A profile on the restricted picker, colour 5, named "Work Account". *)
Definition restricted_doc : json :=
  JDict [("extensions",
          JDict [("theme", JDict [("id", JStr "user_color_theme_id")])]);
         ("autogenerated", JDict [("theme", JDict [("color", JInt 5)])]);
         ("profile", JDict [("name", JStr "Work Account")])].

Definition work_state : json :=
  JDict [("profile",
          JDict [("info_cache",
                  JDict [("Default", JDict [("name", JStr "Work Account")])])])].

Definition work_fs : node :=
  Dir [("data", Dir [("Local State", File true true (Json work_state));
                     ("Default", profile_with (Json restricted_doc))])].

(** [{"autogenerated": 5}]: well-formed JSON, not the shape the mutation
    expects. *)
Definition odd_doc : json := JDict [("autogenerated", JInt 5)].

Definition odd_fs : node :=
  Dir [("data", Dir [("Default", profile_with (Json odd_doc))])].

(** A preference file that is not UTF-8. *)
Definition not_utf8_fs : node :=
  Dir [("data", Dir [("Default", profile_with (NotUtf8 [xff]))])].


Definition empty_profile : node := profile_with (Json (JDict [])).

(** The folders of the specification's example, in that listing order. *)
Definition four_fs : node :=
  Dir [("data", Dir [("Profile 10", empty_profile); ("Default", empty_profile);
                     ("Profile 2", empty_profile); ("Zeta", empty_profile)])].


(** A name index that is well-formed JSON but not an object: [[]]. *)
Definition list_state_fs : node :=
  Dir [("data", Dir [("Local State", File true true (Json (JList [])));
                     ("Default", empty_profile)])].

(** ** Further functions of the program *)

Module PyFmt.

(** [str(n)]: the decimal digits, most significant first, after a minus
    sign when [n] is negative. *)
Fixpoint to_dec (fuel : nat) (n : Z) : list ascii :=
  match fuel with
  | O => []
  | S f =>
      if (n <? 10)%Z then [PyStr.hex_char n]
      else (to_dec f (n / 10) ++ [PyStr.hex_char (n mod 10)])%list
  end.

Definition dec_digits (n : Z) : list ascii :=
  to_dec (S (Z.to_nat (Z.log2 n))) n.

Definition str_of_int (n : Z) : string :=
  if (n <? 0)%Z then String "-" (PyStr.str (dec_digits (- n)))
  else PyStr.str (dec_digits n).

(** [' ' * width]: empty when [width] is not positive. *)
Definition spaces (width : Z) : string :=
  PyStr.str (repeat " "%char (Z.to_nat width)).

(** The escape character, [\033]. *)
Definition esc : ascii := ascii_of_nat 27.

(** [s.rfind('.')], as [None] for -1. *)
Fixpoint rfind_dot (s : string) : option nat :=
  match s with
  | EmptyString => None
  | String c rest =>
      match rfind_dot rest with
      | Some i => Some (S i)
      | None => if Ascii.eqb c "." then Some O else None
      end
  end.

(** [PurePath.stem] of a file name: the name up to its last dot, when that
    dot is neither the first nor the last character. *)
Definition stem (name : string) : string :=
  match rfind_dot name with
  | Some i =>
      if Nat.ltb 0 i && Nat.ltb i (String.length name - 1)
      then String.substring 0 i name
      else name
  | None => name
  end.

(** [fnmatch(name, "*.json")] on a system where file names are compared
    case by case. *)
Definition is_json_name (name : string) : bool :=
  Nat.leb 5 (String.length name) &&
  String.eqb (String.substring (String.length name - 5) 5 name) ".json".

End PyFmt.

(** [hex_to_rgb], lines 158-165. *)
Definition hex_to_rgb (hex_color : string) : result (Z * Z * Z) :=
  let hex_color := PyStr.lstrip "#" hex_color in
  r <- PyStr.int 16 (String.substring 0 2 hex_color) ;;
  g <- PyStr.int 16 (String.substring 2 2 hex_color) ;;
  b <- PyStr.int 16 (String.substring 4 2 hex_color) ;;
  Ok (r, g, b).

(** [color_swatch], lines 168-181. *)
Definition color_swatch (hex_color : string) (width : Z) : result string :=
  rgb <- hex_to_rgb hex_color ;;
  let '(r, g, b) := rgb in
  Ok (String PyFmt.esc
        ("[48;2;" ++ PyFmt.str_of_int r ++ ";" ++ PyFmt.str_of_int g ++ ";"
         ++ PyFmt.str_of_int b ++ "m" ++ PyFmt.spaces width
         ++ String PyFmt.esc "[0m")).

(** [format_color_display], lines 184-190, with the default width. *)
Definition format_color_display (hex_color : option string) : result string :=
  match hex_color with
  | None => Ok "(not set)    "
  | Some h =>
      if PyStr.startswith "ERROR" h then Ok h
      else swatch <- color_swatch h 2 ;; Ok (swatch ++ " " ++ h)
  end.

(** [get_theme_id], lines 277-284. *)
Definition get_theme_id (fs : node) (prefs_path : path) : result json :=
  catch (prefs <- Path.read_json fs prefs_path ;;
         extensions <- py_get prefs "extensions" (JDict []) ;;
         theme <- py_get extensions "theme" (JDict []) ;;
         py_get theme "id" (JStr ""))
        decode_or_io (fun _ => Ok (JStr "")).

(** The status [list_profiles] shows for a theme identifier, lines
    404-411.  A value that is not a string equals none of the three. *)
Inductive status : Type := Custom | Restricted | NoTheme | Extension.

Definition theme_status (theme_id : json) : status :=
  match theme_id with
  | JStr s =>
      if String.eqb s "autogenerated_theme_id" then Custom
      else if String.eqb s "user_color_theme_id" then Restricted
      else if String.eqb s "" then NoTheme
      else Extension
  | _ => Extension
  end.

(** [sorted(names, reverse=True)] on file names of one directory: stable,
    with every comparison reversed. *)
Fixpoint insert_desc (x : string) (l : list string) : list string :=
  match l with
  | [] => [x]
  | y :: rest =>
      if str_ltb x y then y :: insert_desc x rest else x :: l
  end.

Definition sorted_desc (l : list string) : list string :=
  fold_right insert_desc [] l.

(** [list_backups], lines 92-101.  Globbing a path that is not a directory
    yields nothing. *)
Definition list_backups (fs : node) (user_data_dir : path)
    : list (string * path) :=
  let backup_dir := get_backup_dir user_data_dir in
  if negb (Path.exists_ fs backup_dir) then []
  else
    let names := match Path.lookup backup_dir fs with
                 | Some (Dir es) => map fst es
                 | _ => []
                 end in
    map (fun name => (PyFmt.stem name, Path.join backup_dir name))
        (sorted_desc (filter PyFmt.is_json_name names)).

(** The selection by folder name in [main], lines 554-559.  A [set] is
    its membership test; [missing] lists each missing folder once. *)
Definition select_by_folder (all_profiles : list (string * path))
    (requested : list string) : list (string * path) * list string :=
  let profiles :=
    filter (fun item => existsb (String.eqb (fst item)) requested)
           all_profiles in
  let missing :=
    filter (fun n => negb (existsb (String.eqb n) (map fst profiles)))
           (nodup String.string_dec requested) in
  (profiles, missing).

(** The path of the backup that [backup_preferences] makes in [w]: the
    folder of the preference file, the next reading of the clock. *)
Definition backup_path_of (prefs_path user_data_dir : path) (w : world) : path :=
  Path.join (get_backup_dir user_data_dir)
    (Path.name (Path.parent prefs_path) ++ "_" ++ hd "" (clock w) ++ ".json").

(** The object under a key, empty when the key is absent. *)
Definition object_at (k : string) (d : list (string * json))
    : list (string * json) :=
  match Dict.get k d with
  | Some (JDict d') => d'
  | _ => []
  end.

(** Two profiles whose display names differ by case only. *)
Definition named_doc (name : string) : json :=
  JDict [("profile", JDict [("name", JStr name)])].

Definition twin_fs : node :=
  Dir [("data", Dir [("Default", profile_with (Json (named_doc "Work")));
                     ("Profile 1", profile_with (Json (named_doc "work")))])].

(** ** The colour on the command line, lines 529-535 of [main] *)

Definition is_value_error (e : exn) : bool :=
  match e with ValueError => true | _ => false end.

(** Line 531.  [str.upper] is applied after [hex_to_signed_int] has
    accepted the text, which then holds no letter beside a-z that
    [str.upper] would change. *)
Definition color_hex (color : string) : string :=
  if PyStr.startswith "#" color then upper color else "#" ++ upper color.

(** The [try] statement of lines 529-534: the integer and the text to
    show, or [None] when the error message is printed and the program
    exits with status 1. *)
Definition validate_color (color : string) : result (option (Z * string)) :=
  catch (color_int <- hex_to_signed_int color ;;
         Ok (Some (color_int, color_hex color)))
        is_value_error (fun _ => Ok None).

(** Line 535, reached when the colour was accepted: the line printed. *)
Definition color_line (color : string) : result (option string) :=
  accepted <- validate_color color ;;
  match accepted with
  | None => Ok None
  | Some (color_int, hex) =>
      swatch <- color_swatch hex 2 ;;
      Ok (Some ("Color: " ++ swatch ++ " " ++ hex ++ " (value: "
                ++ PyFmt.str_of_int color_int ++ ")"))
  end.

(** The preference file at [q] holds an object with the custom theme and
    the colour [c]. *)
Definition holds_colour (c : Z) (q : path) (n : node) : Prop :=
  exists wr doc,
    Path.lookup q n = Some (File true wr (Json doc)) /\
    field ["extensions"; "theme"; "id"] doc
      = Some (JStr "autogenerated_theme_id") /\
    field ["autogenerated"; "theme"; "color"] doc = Some (JInt c).

(** * Properties *)

(** ** The built-ins on sample inputs *)

Example int_samples :
  PyStr.int 16 "0x_1f" = Ok 31%Z /\ PyStr.int 16 "0x" = Raise ValueError /\
  PyStr.int 16 "1__2" = Raise ValueError /\ PyStr.int 16 "+0X1_f " = Ok 31%Z /\
  PyStr.int 10 "1_0" = Ok 10%Z /\ PyStr.int 10 "0x1" = Raise ValueError /\
  PyStr.int 10 "-3" = Ok (-3)%Z /\ PyStr.int 16 "- 1" = Raise ValueError /\
  PyStr.int 16 "0x__1" = Raise ValueError /\ PyStr.int 16 "1_" = Raise ValueError /\
  PyStr.int 16 "FFGGGGGG" = Raise ValueError /\ PyStr.int 10 "007" = Ok 7%Z.
Proof. repeat split; reflexivity. Qed.

Example format_samples :
  PyStr.format_06X (-1) = "-00001" /\ PyStr.format_06X 255 = "0000FF" /\
  PyStr.format_06X 0 = "000000" /\ signed_int_to_hex (-43776) = "#FF5500".
Proof. repeat split; reflexivity. Qed.

Example split_samples :
  PyStr.split "Profile 1 backup" = ["Profile"; "1"; "backup"] /\
  PyStr.split "Profile " = ["Profile"] /\
  PyStr.lstrip "#" "##AB#" = "AB#" /\
  PyStr.lower "Work Account" = "work account".
Proof. repeat split; reflexivity. Qed.

Example sort_key_samples :
  sort_key "Profile 10" = KNumbered 10 /\ sort_key "Profile x" = KOther "Profile x" /\
  sort_key "Profile " = KOther "Profile " /\ sort_key "Profile 1 backup" = KNumbered 1.
Proof. repeat split; reflexivity. Qed.

(** ** Color codec *)

Section HexDigits.

Local Open Scope list_scope.
Local Open Scope Z_scope.

Lemma hex_digit_value (c : ascii) :
  is_hex_digit c = true ->
  exists d, PyStr.digit_value c = Some d /\ 0 <= d < 16 /\
            PyStr.hex_char d = upper_char c.
Proof.
  destruct c as [[] [] [] [] [] [] [] []]; intro H; vm_compute in H;
    try discriminate H;
    (eexists; split;
       [vm_compute; reflexivity
       | split; [split; [apply Z.leb_le | apply Z.ltb_lt]; vm_compute; reflexivity
                | vm_compute; reflexivity]]).
Qed.

Lemma hex_digit_not_hash (c : ascii) :
  is_hex_digit c = true -> Ascii.eqb c "#" = false.
Proof.
  destruct c as [[] [] [] [] [] [] [] []]; intro H; vm_compute in H;
    try discriminate H; reflexivity.
Qed.

Lemma hex_step_digit (a : Z) (c : ascii) (d : Z) :
  PyStr.digit_value c = Some d -> hex_step a c = a * 16 + d.
Proof. intro H. unfold hex_step, digit_step. now rewrite H. Qed.

Lemma scan_hex (cs : list ascii) : forall acc,
  forallb is_hex_digit cs = true ->
  PyStr.scan_digits 16 cs acc true false = Ok (fold_left hex_step cs acc).
Proof.
  induction cs as [| c cs IH]; intros acc H; simpl in *.
  - reflexivity.
  - apply andb_prop in H. destruct H as [Hc Hcs].
    destruct (hex_digit_value c Hc) as (d & Hd & Hr & _).
    rewrite (hex_step_digit acc c d Hd), Hd.
    replace (d <? 16) with true by (symmetry; apply Z.ltb_lt; lia).
    now apply IH.
Qed.

Lemma fold_hex_snoc (cs : list ascii) (c : ascii) (acc : Z) :
  fold_left hex_step (cs ++ [c]) acc = hex_step (fold_left hex_step cs acc) c.
Proof. now rewrite fold_left_app. Qed.

Lemma fold_hex_bounds (cs : list ascii) : forall acc,
  forallb is_hex_digit cs = true ->
  fold_left hex_step cs acc
    = acc * 16 ^ Z.of_nat (List.length cs) + fold_left hex_step cs 0 /\
  0 <= fold_left hex_step cs 0 < 16 ^ Z.of_nat (List.length cs).
Proof.
  induction cs as [| c cs IH] using rev_ind; intros acc H.
  - simpl. lia.
  - rewrite forallb_app in H. apply andb_prop in H. destruct H as [Hcs Hc].
    simpl in Hc. rewrite andb_true_r in Hc.
    destruct (hex_digit_value c Hc) as (d & Hd & Hr & _).
    rewrite !fold_hex_snoc, !(hex_step_digit _ c d Hd).
    destruct (IH acc Hcs) as [E B]. rewrite E.
    rewrite length_app. simpl List.length.
    rewrite Nat2Z.inj_add. change (Z.of_nat 1) with 1.
    rewrite Z.pow_add_r by lia. change (16 ^ 1) with 16.
    set (P := 16 ^ Z.of_nat (List.length cs)) in *.
    set (F := fold_left hex_step cs 0) in *.
    split; [ring | lia].
Qed.

Lemma low_digits_zero (k : nat) : low_digits k 0 = repeat "0"%char k.
Proof.
  induction k as [| k IH]; simpl.
  - reflexivity.
  - change (0 / 16) with 0. rewrite IH. change (PyStr.hex_char (0 mod 16)) with "0"%char.
    symmetry. apply repeat_cons.
Qed.

Lemma zero_fill_snoc (k : nat) (l : list ascii) (c : ascii) :
  PyStr.zero_fill (S k) (l ++ [c]) = PyStr.zero_fill k l ++ [c].
Proof.
  unfold PyStr.zero_fill. rewrite length_app. simpl List.length.
  replace (S k - (List.length l + 1))%nat with (k - List.length l)%nat by lia.
  now rewrite app_assoc.
Qed.

Lemma to_hex_low_digits (fuel : nat) : forall k n,
  (0 < k)%nat -> 0 <= n < 16 ^ Z.of_nat k -> n < 16 ^ Z.of_nat fuel ->
  PyStr.zero_fill k (PyStr.to_hex fuel n) = low_digits k n.
Proof.
  induction fuel as [| f IH]; intros k n Hpos Hk Hf.
  - simpl in Hf. assert (n = 0) by lia. subst n. simpl.
    unfold PyStr.zero_fill. simpl. rewrite Nat.sub_0_r, app_nil_r.
    symmetry. apply low_digits_zero.
  - simpl PyStr.to_hex. destruct k as [| k].
    + lia.
    + rewrite Nat2Z.inj_succ, Z.pow_succ_r in Hk by lia.
      rewrite Nat2Z.inj_succ, Z.pow_succ_r in Hf by lia.
      destruct (n <? 16) eqn:E.
      * apply Z.ltb_lt in E. simpl low_digits.
        rewrite Z.div_small, Z.mod_small, low_digits_zero by lia.
        unfold PyStr.zero_fill. simpl List.length.
        now replace (S k - 1)%nat with k by lia.
      * apply Z.ltb_ge in E. simpl low_digits.
        rewrite zero_fill_snoc. f_equal. apply IH.
        -- destruct k; [simpl in Hk; lia | lia].
        -- split; [apply Z.div_pos; lia | apply Z.div_lt_upper_bound; lia].
        -- apply Z.div_lt_upper_bound; lia.
Qed.

Lemma hex_upper_low_digits (k : nat) (n : Z) :
  (0 < k)%nat -> 0 <= n < 16 ^ Z.of_nat k ->
  PyStr.zero_fill k (PyStr.hex_upper n) = low_digits k n.
Proof.
  intros Hpos H. apply to_hex_low_digits; [exact Hpos | exact H |].
  destruct (Z.eq_dec n 0) as [-> | Hn]; [reflexivity |].
  rewrite Nat2Z.inj_succ, Z2Nat.id by apply Z.log2_nonneg.
  assert (n < 2 ^ Z.succ (Z.log2 n)) by (apply Z.log2_spec; lia).
  assert (2 ^ Z.succ (Z.log2 n) <= 16 ^ Z.succ (Z.log2 n)).
  { apply Z.pow_le_mono_l. lia. }
  lia.
Qed.

Lemma low_digits_fold (cs : list ascii) : forall acc,
  forallb is_hex_digit cs = true ->
  low_digits (List.length cs) (fold_left hex_step cs acc) = map upper_char cs.
Proof.
  induction cs as [| c cs IH] using rev_ind; intros acc H.
  - reflexivity.
  - rewrite forallb_app in H. apply andb_prop in H. destruct H as [Hcs Hc].
    simpl in Hc. rewrite andb_true_r in Hc.
    destruct (hex_digit_value c Hc) as (d & Hd & Hr & Hu).
    rewrite fold_hex_snoc, length_app, Nat.add_1_r, map_app. simpl.
    rewrite (hex_step_digit _ c d Hd).
    replace ((fold_left hex_step cs acc * 16 + d) / 16)
      with (fold_left hex_step cs acc)
      by (apply Z.div_unique with d; lia).
    replace ((fold_left hex_step cs acc * 16 + d) mod 16) with d
      by (apply Z.mod_unique with (fold_left hex_step cs acc); lia).
    now rewrite IH, Hu.
Qed.

End HexDigits.

Lemma str_map_upper (s : string) :
  PyStr.str (map upper_char (PyStr.chars s)) = upper s.
Proof.
  unfold PyStr.str, PyStr.chars.
  induction s as [| c s IH]; simpl.
  - reflexivity.
  - now rewrite IH.
Qed.

Lemma chars_length (s : string) :
  List.length (PyStr.chars s) = String.length s.
Proof. induction s; simpl; congruence. Qed.

Lemma int_chars_plain (base : Z) (c : ascii) (cs : list ascii) :
  PyStr.int_space c = false -> Ascii.eqb c "+" = false ->
  Ascii.eqb c "-" = false ->
  PyStr.strip_prefix base (c :: cs) = c :: cs ->
  PyStr.int_chars base (c :: cs)
  = bind (PyStr.scan_digits base (c :: cs) 0 false false)
         (fun v => Ok (1 * v)%Z).
Proof.
  intros Hs Hp Hm Hz. unfold PyStr.int_chars.
  cbn [PyStr.skip_spaces]. now rewrite Hs, Hp, Hm, Hz.
Qed.

Lemma scan_hex_start (c : ascii) (cs : list ascii) (acc : Z) :
  forallb is_hex_digit (c :: cs) = true ->
  PyStr.scan_digits 16 (c :: cs) acc false false
  = Ok (fold_left hex_step (c :: cs) acc).
Proof.
  intro H. pose proof H as H'. cbn [forallb] in H'.
  apply andb_prop in H'. destruct H' as [Hc Hcs].
  destruct (hex_digit_value c Hc) as (d & Hd & Hr & _).
  cbn [PyStr.scan_digits fold_left].
  rewrite (hex_step_digit acc c d Hd), Hd.
  replace (d <? 16)%Z with true by (symmetry; apply Z.ltb_lt; lia).
  now apply scan_hex.
Qed.

(** A string of six hexadecimal digits goes through the codec and comes
    back in upper case. *)
Lemma codec_six_digits (s : string) :
  String.length s = 6%nat -> is_hex s = true ->
  exists n, hex_to_signed_int s = Ok n /\
            hex_to_signed_int (String "#" s) = Ok n /\
            (n < 0)%Z /\
            signed_int_to_hex n = String "#" (upper s).
Proof.
  intros Hlen Hhex.
  assert (Hstrip : PyStr.lstrip "#" s = s).
  { destruct s as [| c s]; [reflexivity |]. cbn [PyStr.lstrip].
    unfold is_hex in Hhex. cbn [PyStr.chars list_ascii_of_string forallb] in Hhex.
    apply andb_prop in Hhex.
    now rewrite (hex_digit_not_hash c (proj1 Hhex)). }
  pose (v := fold_left hex_step (PyStr.chars s) 0%Z).
  destruct (fold_hex_bounds (PyStr.chars s) 255 Hhex) as [E B].
  rewrite chars_length, Hlen in E, B. fold v in E, B.
  change (16 ^ Z.of_nat 6)%Z with 16777216%Z in E, B.
  assert (Hint : PyStr.int 16 ("FF" ++ s) = Ok (255 * 16777216 + v)%Z).
  { unfold PyStr.int. change (PyStr.chars ("FF" ++ s))
      with ("F"%char :: "F"%char :: PyStr.chars s).
    rewrite int_chars_plain by reflexivity.
    rewrite scan_hex_start by exact Hhex.
    cbn [fold_left bind].
    change (hex_step (hex_step 0 "F") "F") with 255%Z.
    rewrite E. f_equal. apply Z.mul_1_l. }
  assert (Hcode : forall x, PyStr.lstrip "#" x = s ->
            hex_to_signed_int x = Ok (255 * 16777216 + v - 4294967296)%Z).
  { intros x Hx. unfold hex_to_signed_int. rewrite Hx, Hlen.
    cbn [Nat.eqb bind]. rewrite Hint. cbn [bind].
    change (Z.shiftl 1 31) with 2147483648%Z.
    change (Z.shiftl 1 32) with 4294967296%Z.
    replace (255 * 16777216 + v >=? 2147483648)%Z with true; [reflexivity |].
    symmetry. apply Z.geb_le. lia. }
  exists (255 * 16777216 + v - 4294967296)%Z.
  split; [now apply Hcode |].
  split; [apply Hcode; cbn [PyStr.lstrip]; exact Hstrip |].
  split; [lia |].
  unfold signed_int_to_hex.
  replace (255 * 16777216 + v - 4294967296 <? 0)%Z with true
    by (symmetry; apply Z.ltb_lt; lia).
  change (Z.shiftl 1 32) with 4294967296%Z.
  replace (255 * 16777216 + v - 4294967296 + 4294967296)%Z
    with (v + 255 * 2 ^ 24)%Z by lia.
  change 16777215%Z with (Z.ones 24).
  rewrite Z.land_ones by lia.
  rewrite Z_mod_plus_full.
  rewrite Z.mod_small by (change (2 ^ 24)%Z with 16777216%Z; lia).
  unfold PyStr.format_06X.
  replace (v <? 0)%Z with false by (symmetry; apply Z.ltb_ge; lia).
  f_equal.
  rewrite (hex_upper_low_digits 6 v)
    by (try (change (16 ^ Z.of_nat 6)%Z with 16777216%Z); lia).
  unfold v. rewrite <- (chars_length s) in Hlen. rewrite <- Hlen.
  rewrite low_digits_fold by exact Hhex. apply str_map_upper.
Qed.

(** C1.  For every valid colour string [x] (six hexadecimal digits in any
    letter case, with or without a leading [#]), [hex_to_signed_int x]
    returns an integer and [signed_int_to_hex] maps it to [x] in upper case
    with a leading [#]. *)
Theorem C1_codec_roundtrip (x : string) (Hvalid : valid_color x = true) :
  exists n, hex_to_signed_int x = Ok n /\
            signed_int_to_hex n = normalize_color x.
Proof.
  unfold valid_color in Hvalid. apply andb_prop in Hvalid.
  destruct Hvalid as [Hlen Hhex]. apply Nat.eqb_eq in Hlen.
  unfold normalize_color.
  destruct x as [| c s]; [discriminate Hlen |].
  cbn [strip_hash] in *.
  destruct (Ascii.eqb c "#") eqn:Hc.
  - apply Ascii.eqb_eq in Hc. subst c.
    destruct (codec_six_digits s Hlen Hhex) as (n & _ & Hn & _ & Hback).
    exists n. now split.
  - destruct (codec_six_digits (String c s) Hlen Hhex) as (n & Hn & _ & _ & Hback).
    exists n. now split.
Qed.

Lemma C1_codec_roundtrip_witness :
  valid_color "#ff55aa" = true /\
  exists n, hex_to_signed_int "#ff55aa" = Ok n /\
            signed_int_to_hex n = normalize_color "#ff55aa".
Proof.
  split; [reflexivity | apply (C1_codec_roundtrip "#ff55aa"); reflexivity].
Defined.

(** C2, as the specification states it, fails: the code does not return
    -44800 for ["#FF5500"]. *)
Lemma C2_literal_counterexample :
  hex_to_signed_int "#FF5500" <> Ok (-44800)%Z.
Proof. vm_compute. discriminate. Qed.

(** C2, amended.  [hex_to_signed_int "#FF5500"] returns -43776, which is
    0xFFFF5500 read as a signed 32-bit two's-complement integer. *)
Theorem C2_ff5500_value :
  hex_to_signed_int "#FF5500" = Ok (-43776)%Z /\
  (-43776 = 4294923520 - 2 ^ 32)%Z /\
  PyStr.int 16 "FFFF5500" = Ok 4294923520%Z.
Proof. repeat split; reflexivity. Qed.

(** C8, amended.  Every input whose length, once [lstrip('#')] has removed
    every leading [#], is neither 6 nor 8 raises [ValueError], and so does
    ["GGGGGG"]. *)
Theorem C8_format_error (x : string)
    (Hbad : (String.length (PyStr.lstrip "#" x) <> 6%nat /\
             String.length (PyStr.lstrip "#" x) <> 8%nat) \/
            x = "GGGGGG") :
  hex_to_signed_int x = Raise ValueError.
Proof.
  destruct Hbad as [[H6 H8] | ->]; [| reflexivity].
  unfold hex_to_signed_int.
  apply Nat.eqb_neq in H6. apply Nat.eqb_neq in H8.
  now rewrite H6, H8.
Qed.

(** C8, as stated, fails: with one leading [#] taken off, ["##FF5500"]
    has length 7, which is neither 6 nor 8, yet [hex_to_signed_int] takes
    off both and returns -43776. *)
Lemma C8_format_error_counterexample :
  String.length (strip_hash "##FF5500") = 7%nat /\
  hex_to_signed_int "##FF5500" = Ok (-43776)%Z /\
  ~ (forall x, String.length (strip_hash x) <> 6%nat /\
               String.length (strip_hash x) <> 8%nat ->
               hex_to_signed_int x = Raise ValueError).
Proof.
  split; [reflexivity |]. split; [reflexivity |].
  intro H.
  assert (E : hex_to_signed_int "##FF5500" = Raise ValueError)
    by (apply H; split; vm_compute; discriminate).
  vm_compute in E. discriminate E.
Qed.

Lemma C8_format_error_witness :
  hex_to_signed_int "#12345" = Raise ValueError /\
  hex_to_signed_int "GGGGGG" = Raise ValueError.
Proof.
  split.
  - apply (C8_format_error "#12345"). left. split; discriminate.
  - apply (C8_format_error "GGGGGG"). right. reflexivity.
Defined.

(** ** Preference mutation *)

(** ** Dictionaries *)

Section DictFacts.
Context {V : Type}.
Implicit Types (d : list (string * V)) (k : string) (v : V).

Lemma dict_get_set_same k v d : Dict.get k (Dict.set k v d) = Some v.
Proof.
  induction d as [| [k' v'] d IH]; simpl.
  - now rewrite String.eqb_refl.
  - destruct (String.eqb k k') eqn:E; simpl.
    + now rewrite String.eqb_refl.
    + now rewrite E.
Qed.

Lemma dict_get_set_other k k' v d :
  k' <> k -> Dict.get k' (Dict.set k v d) = Dict.get k' d.
Proof.
  intro Hne. apply String.eqb_neq in Hne.
  induction d as [| [k0 v0] d IH]; simpl.
  - now rewrite Hne.
  - destruct (String.eqb k k0) eqn:E; simpl.
    + apply String.eqb_eq in E. subst k0. now rewrite Hne.
    + now rewrite IH.
Qed.

End DictFacts.

(** ** Results *)

Lemma bind_ok {A B : Type} (r : result A) (k : A -> result B) (b : B) :
  bind r k = Ok b -> exists a, r = Ok a /\ k a = Ok b.
Proof. destruct r as [a | e]; simpl; [eauto | discriminate]. Qed.

Lemma setitem_ok (v : json) (k : string) (x v' : json) :
  py_setitem v k x = Ok v' ->
  exists d, v = JDict d /\ v' = JDict (Dict.set k x d).
Proof. destruct v; simpl; intro H; inversion H; eauto. Qed.

Lemma ensure_key_ok (k : string) (v v' : json) :
  ensure_key k v = Ok v' ->
  v' = v \/ exists d, v = JDict d /\ Dict.get k d = None /\
                      v' = JDict (Dict.set k (JDict []) d).
Proof.
  unfold ensure_key. intro H. apply bind_ok in H. destruct H as (b & Hin & H).
  destruct b; simpl in H.
  - left. now inversion H.
  - right. apply setitem_ok in H. destruct H as (d & -> & ->).
    exists d. repeat split. simpl in Hin. inversion Hin as [Hm].
    unfold Dict.mem in Hm. now destruct (Dict.get k d).
Qed.

(** What [set_nested] returns on an object. *)
Lemma set_nested_ok (outer inner leaf : string) (x prefs prefs' : json) :
  set_nested outer inner leaf x prefs = Ok prefs' ->
  field [outer; inner; leaf] prefs' = Some x /\
  exists d d', prefs = JDict d /\ prefs' = JDict d' /\
    forall k, k <> outer -> Dict.get k d' = Dict.get k d.
Proof.
  unfold set_nested. intro H.
  apply bind_ok in H. destruct H as (p1 & Hp1 & H).
  apply bind_ok in H. destruct H as (o & Ho & H).
  apply bind_ok in H. destruct H as (o1 & Ho1 & H).
  apply bind_ok in H. destruct H as (i & Hi & H).
  apply bind_ok in H. destruct H as (i1 & Hi1 & H).
  apply bind_ok in H. destruct H as (o2 & Ho2 & H).
  apply setitem_ok in H. destruct H as (d1 & -> & ->).
  apply setitem_ok in Ho2. destruct Ho2 as (do1 & -> & ->).
  apply setitem_ok in Hi1. destruct Hi1 as (di & -> & ->).
  split.
  - simpl. now rewrite !dict_get_set_same.
  - apply ensure_key_ok in Hp1.
    destruct Hp1 as [<- | (d & -> & _ & E)].
    + exists d1, (Dict.set outer (JDict (Dict.set inner (JDict (Dict.set leaf x di)) do1)) d1).
      repeat split. intros k Hk. now apply dict_get_set_other.
    + inversion E; subst d1. eexists _, _. repeat split.
      intros k Hk. now rewrite !dict_get_set_other.
Qed.

Lemma field_cons_dict (k : string) (rest : list string) (d : list (string * json)) :
  field (k :: rest) (JDict d)
  = match Dict.get k d with Some x => field rest x | None => None end.
Proof. reflexivity. Qed.

(** The document [mutate_prefs] returns holds the colour and the theme
    identifier. *)
Lemma mutate_prefs_fields (c : Z) (prefs prefs' : json) :
  mutate_prefs c prefs = Ok prefs' ->
  field ["extensions"; "theme"; "id"] prefs' = Some (JStr "autogenerated_theme_id") /\
  field ["autogenerated"; "theme"; "color"] prefs' = Some (JInt c).
Proof.
  unfold mutate_prefs. intro H.
  apply bind_ok in H. destruct H as (p1 & H1 & H2).
  apply set_nested_ok in H1. destruct H1 as (F1 & d & d1 & -> & -> & _).
  apply set_nested_ok in H2. destruct H2 as (F2 & d1' & d2 & E & -> & Fr).
  inversion E; subst d1'. split; [exact F2 |].
  rewrite field_cons_dict in *. rewrite Fr by discriminate. exact F1.
Qed.

(** [set_nested] succeeds exactly on the documents [nested_objects]
    accepts, and raises [TypeError] on the others. *)
Lemma set_nested_total (outer inner leaf : string) (x prefs : json) :
  if nested_objects outer inner prefs
  then exists prefs', set_nested outer inner leaf x prefs = Ok prefs'
  else set_nested outer inner leaf x prefs = Raise TypeError.
Proof.
  unfold nested_objects, set_nested, ensure_key.
  destruct prefs as [| b | n | f | s | l | d]; try reflexivity.
  - simpl. destruct (PyStr.contains outer s); reflexivity.
  - simpl. destruct (existsb (is_str outer) l); reflexivity.
  - cbn [py_in bind]. unfold Dict.mem.
    destruct (Dict.get outer d) as [o |] eqn:Eo; cbn [negb bind py_getitem py_setitem].
    + rewrite Eo. cbn [bind].
      destruct o as [| b | n | f | s | l | d']; try reflexivity.
      * simpl. destruct (PyStr.contains inner s); reflexivity.
      * simpl. destruct (existsb (is_str inner) l); reflexivity.
      * cbn [py_in bind]. unfold Dict.mem.
        destruct (Dict.get inner d') as [i |] eqn:Ei; cbn [negb bind py_getitem py_setitem].
        -- rewrite Ei. cbn [bind].
           destruct i; try reflexivity. simpl. eauto.
        -- rewrite dict_get_set_same. simpl. eauto.
    + rewrite dict_get_set_same. simpl. rewrite String.eqb_refl. simpl. eauto.
Qed.

Lemma nested_objects_frame (outer inner : string) (d d' : list (string * json)) :
  Dict.get outer d' = Dict.get outer d ->
  nested_objects outer inner (JDict d') = nested_objects outer inner (JDict d).
Proof. intro H. unfold nested_objects. now rewrite H. Qed.

Lemma mutate_prefs_total (c : Z) (prefs : json) :
  if theme_objects prefs
  then exists prefs', mutate_prefs c prefs = Ok prefs'
  else mutate_prefs c prefs = Raise TypeError.
Proof.
  unfold theme_objects, mutate_prefs.
  pose proof (set_nested_total "autogenerated" "theme" "color" (JInt c) prefs) as H1.
  destruct (nested_objects "autogenerated" "theme" prefs) eqn:E1.
  - destruct H1 as (p1 & H1). rewrite H1. cbn [bind andb].
    destruct (set_nested_ok _ _ _ _ _ _ H1) as (_ & d & d1 & -> & -> & Fr).
    pose proof (set_nested_total "extensions" "theme" "id"
                  (JStr "autogenerated_theme_id") (JDict d1)) as H2.
    rewrite (nested_objects_frame "extensions" "theme" d d1) in H2
      by (apply Fr; discriminate).
    exact H2.
  - rewrite H1. reflexivity.
Qed.

(** ** The file system *)

Lemma store_lookup (p : path) (data : content) (mode : option bool) :
  forall n n', Path.store p data mode n = Ok n' ->
  exists r w, Path.lookup p n' = Some (File r w data).
Proof.
  induction p as [| c rest IH]; intros n n' H;
    destruct n as [r w dt | es]; cbn [Path.store] in H; try discriminate.
  destruct rest as [| c' rest].
  - destruct (Dict.get c es) as [[r w dt | es'] |]; try discriminate.
    + destruct w; [| discriminate]. inversion H; subst n'.
      cbn [Path.lookup]. rewrite dict_get_set_same.
      destruct mode; eauto.
    + inversion H; subst n'.
      cbn [Path.lookup]. rewrite dict_get_set_same.
      destruct mode; eauto.
  - destruct (Dict.get c es) as [m |]; [| discriminate].
    destruct (Path.store (c' :: rest) data mode m) as [m' |] eqn:E;
      [| discriminate].
    inversion H; subst n'.
    cbn [Path.lookup]. rewrite dict_get_set_same. now apply IH with m.
Qed.

(** ** Calls *)

Lemma bindM_ok {A B : Type} (m : M A) (k : A -> M B) (w w' : world) (b : B) :
  bindM m k w = (Ok b, w') ->
  exists a w1, m w = (Ok a, w1) /\ k a w1 = (Ok b, w').
Proof.
  unfold bindM. destruct (m w) as [[a | e] w1]; [eauto | discriminate].
Qed.

Lemma lift_ok {A : Type} (r : node -> result A) (w w' : world) (a : A) :
  lift r w = (Ok a, w') -> r (root w) = Ok a /\ w' = w.
Proof. unfold lift. intro H. inversion H. now split. Qed.

Lemma write_json_ok (p : path) (doc : json) (w w' : world) (u : unit) :
  write_json p doc w = (Ok u, w') ->
  Path.store p (Json doc) None (root w) = Ok (root w').
Proof.
  unfold write_json, bindM, log, change, set_root. cbn [root].
  destruct (Path.store p (Json doc) None (root w)); intro H; inversion H.
  reflexivity.
Qed.

Lemma catchM_ok_true (m : M bool) (w w' : world) :
  catchM m decode_or_io (fun e => (eprint e ;;; ret false)%py) w = (Ok true, w') ->
  m w = (Ok true, w').
Proof.
  unfold catchM. destruct (m w) as [[b | e] w1]; [auto |].
  destruct (decode_or_io e); [| discriminate].
  unfold bindM, eprint, ret. discriminate.
Qed.

(** C3.  Whatever the preference document held before, when a call of
    [set_theme_color] that is not a dry run returns [True], the file at
    [prefs_path] holds a document whose [extensions.theme.id] is
    ["autogenerated_theme_id"] and whose [autogenerated.theme.color] is the
    integer passed in. *)
Theorem C3_stored_theme (w w' : world) (prefs_path user_data_dir : path)
    (color_int : Z) (backup : bool)
    (Hok : set_theme_color prefs_path color_int user_data_dir false backup w
           = (Ok true, w')) :
  exists r wr doc,
    Path.lookup prefs_path (root w') = Some (File r wr (Json doc)) /\
    field ["extensions"; "theme"; "id"] doc
      = Some (JStr "autogenerated_theme_id") /\
    field ["autogenerated"; "theme"; "color"] doc = Some (JInt color_int).
Proof.
  apply catchM_ok_true in Hok. unfold set_theme_color_try in Hok.
  apply bindM_ok in Hok. destruct Hok as (prefs & w1 & Hread & Hok).
  apply lift_ok in Hread. destruct Hread as [_ ->].
  apply bindM_ok in Hok. destruct Hok as (doc & w1 & Hmut & Hok).
  apply lift_ok in Hmut. destruct Hmut as [Hmut ->].
  apply bindM_ok in Hok. destruct Hok as (u & w2 & Hwrite & Hret).
  unfold ret in Hret. inversion Hret; subst w2. clear Hret.
  cbn [negb] in Hwrite.
  apply bindM_ok in Hwrite. destruct Hwrite as (u' & w3 & _ & Hwrite).
  apply write_json_ok in Hwrite.
  destruct (store_lookup _ _ _ _ _ Hwrite) as (r & wr & Hl).
  destruct (mutate_prefs_fields _ _ _ Hmut) as [Hid Hcolor].
  exists r, wr, doc. now repeat split.
Qed.

(** A dry run, in full. *)
Lemma dry_run_result (w : world) (prefs_path user_data_dir : path)
    (color_int : Z) (backup : bool) :
  set_theme_color prefs_path color_int user_data_dir true backup w
  = match Path.read_json (root w) prefs_path with
    | Ok prefs =>
        match mutate_prefs color_int prefs with
        | Ok _ => (Ok true, w)
        | Raise e => if decode_or_io e then (Ok false, with_stderr w e)
                     else (Raise e, w)
        end
    | Raise e => if decode_or_io e then (Ok false, with_stderr w e)
                 else (Raise e, w)
    end.
Proof.
  unfold set_theme_color, set_theme_color_try, catchM, bindM, lift, ret.
  destruct (Path.read_json (root w) prefs_path) as [prefs | e].
  - destruct (mutate_prefs color_int prefs) as [doc | e]; [reflexivity |].
    destruct (decode_or_io e); reflexivity.
  - destruct (decode_or_io e); reflexivity.
Qed.

(** C4, amended.  A dry run makes no file-system call that writes: the tree
    is unchanged and no backup is made, whatever the document.  It returns
    [True] when the document is an object in which [autogenerated],
    [autogenerated.theme], [extensions] and [extensions.theme] are each
    absent or an object; on any other well-formed document it raises
    [TypeError]. *)
Theorem C4_dry_run (w : world) (prefs_path user_data_dir : path)
    (color_int : Z) (backup : bool) :
  let out := set_theme_color prefs_path color_int user_data_dir true backup w in
  root (snd out) = root w /\ calls (snd out) = calls w /\
  forall prefs, Path.read_json (root w) prefs_path = Ok prefs ->
    if theme_objects prefs then out = (Ok true, w)
    else out = (Raise TypeError, w).
Proof.
  cbv zeta. rewrite dry_run_result.
  destruct (Path.read_json (root w) prefs_path) as [prefs | e].
  - pose proof (mutate_prefs_total color_int prefs) as Ht.
    destruct (theme_objects prefs) eqn:T.
    + destruct Ht as (doc & ->). repeat split.
      intros p E. inversion E; subst p. now rewrite T.
    + rewrite Ht. cbn [decode_or_io snd]. repeat split.
      intros p E. inversion E; subst p. now rewrite T.
  - destruct (decode_or_io e); repeat split; intros p E; discriminate.
Qed.


Lemma C3_stored_theme_witness :
  let w := world_of work_fs in
  let out := set_theme_color (prefs_of "Default") 7 data_dir false true w in
  out = (Ok true, snd out) /\
  exists r wr doc,
    Path.lookup (prefs_of "Default") (root (snd out))
      = Some (File r wr (Json doc)) /\
    field ["extensions"; "theme"; "id"] doc
      = Some (JStr "autogenerated_theme_id") /\
    field ["autogenerated"; "theme"; "color"] doc = Some (JInt 7).
Proof.
  cbv zeta. split; [reflexivity |].
  apply (C3_stored_theme (world_of work_fs) _ (prefs_of "Default") data_dir
           7 true).
  reflexivity.
Defined.

(** C4, as stated, fails: [{"autogenerated": 5}] is a well-formed document,
    and the dry run on it raises [TypeError] instead of returning [True]. *)
Lemma C4_dry_run_counterexample :
  let w := world_of odd_fs in
  Path.read_json (root w) (prefs_of "Default") = Ok odd_doc /\
  fst (set_theme_color (prefs_of "Default") 7 data_dir true true w)
    = Raise TypeError /\
  fst (set_theme_color (prefs_of "Default") 7 data_dir true true w)
    <> Ok true.
Proof. cbv zeta. repeat split. vm_compute. discriminate. Qed.

Lemma C4_dry_run_witness :
  let w := world_of work_fs in
  Path.read_json (root w) (prefs_of "Default") = Ok restricted_doc /\
  theme_objects restricted_doc = true /\
  set_theme_color (prefs_of "Default") 7 data_dir true true w = (Ok true, w).
Proof.
  cbv zeta. split; [reflexivity | split; [reflexivity |]].
  exact (proj2 (proj2 (C4_dry_run (world_of work_fs) (prefs_of "Default")
                         data_dir 7 true))
           restricted_doc eq_refl).
Defined.

(** C5.  The claim fails on the code at a preference file that is not
    UTF-8.  The file does not read as a document, yet [set_theme_color]
    raises [UnicodeDecodeError] instead of returning [False]: its [except]
    clause names [json.JSONDecodeError] and [IOError] only.  The tree is left
    as it was and no write is attempted. *)
Theorem C5_not_utf8_raises :
  let w := world_of not_utf8_fs in
  let out := set_theme_color (prefs_of "Default") 7 data_dir false true w in
  (forall doc, Path.read_json (root w) (prefs_of "Default") <> Ok doc) /\
  fst out = Raise UnicodeDecodeError /\
  fst out <> Ok false /\
  root (snd out) = root w /\ calls (snd out) = calls w.
Proof.
  cbv zeta. split; [| split; [| split; [| split]]].
  - intros doc H. vm_compute in H. discriminate H.
  - reflexivity.
  - vm_compute. discriminate.
  - reflexivity.
  - reflexivity.
Qed.

(** ** Profile management *)

(** ** The name index *)

Lemma names_of_items_shape (items : list (string * json)) : forall acc,
  if forallb (fun kv => is_object (snd kv)) items
  then exists m, names_of_items items acc = Ok m
  else names_of_items items acc = Raise AttributeError.
Proof.
  induction items as [| [folder info] items IH]; intro acc;
    cbn [forallb names_of_items snd].
  - eauto.
  - destruct info; cbn [is_object andb py_get bind]; try reflexivity.
    destruct (Dict.get "name" d); cbn [bind]; apply IH.
Qed.

(** C9, amended.  When the name-index file is missing, cannot be opened, or
    holds text that is not JSON, [load_profile_names_from_local_state]
    returns the empty mapping.  On a well-formed name index it returns a
    mapping when the document has the expected shape (an object whose
    [profile], [info_cache] and cache entries, where present, are objects)
    and raises [AttributeError] when it has not. *)
Theorem C9_name_index (fs : node) (user_data_dir : path) :
  let index := Path.join user_data_dir "Local State" in
  let names := load_profile_names_from_local_state fs user_data_dir in
  (Path.lookup index fs = None \/
   (exists w data, Path.lookup index fs = Some (File false w data)) \/
   (exists w text, Path.lookup index fs = Some (File true w (NotJson text))) ->
   names = Ok []) /\
  (forall state, Path.read_json fs index = Ok state ->
     (index_shape state = true -> exists m, names = Ok m) /\
     (index_shape state = false -> names = Raise AttributeError)).
Proof.
  cbv zeta. unfold load_profile_names_from_local_state.
  split.
  - unfold Path.read_json.
    intros [-> | [(w & data & ->) | (w & text & ->)]]; reflexivity.
  - intros state ->. cbn [bind].
    destruct state as [| | | | | | d];
      try (split; [discriminate | reflexivity]).
    cbn [py_get index_shape].
    destruct (Dict.get "profile" d) as [profile |]; cbn [bind py_get Dict.get].
    + destruct profile as [| | | | | | p];
        try (split; [discriminate | reflexivity]).
      cbn [py_get].
      destruct (Dict.get "info_cache" p) as [cache |]; cbn [bind py_items].
      * destruct cache as [| | | | | | items];
          try (split; [discriminate | reflexivity]).
        cbn [py_items bind].
        pose proof (names_of_items_shape items []) as Hs.
        destruct (forallb (fun kv => is_object (snd kv)) items).
        -- destruct Hs as (m & ->). cbn [catch].
           split; [eauto | discriminate].
        -- rewrite Hs. cbn [catch decode_or_io].
           split; [discriminate | reflexivity].
      * cbn [names_of_items catch]. split; [eauto | discriminate].
    + cbn [bind py_items names_of_items catch]. split; [eauto | discriminate].
Qed.

(** C9, as stated, fails: on a name index that holds [[]] the call raises
    [AttributeError]. *)
Lemma C9_name_index_counterexample :
  load_profile_names_from_local_state list_state_fs data_dir
    = Raise AttributeError /\
  ~ (forall fs user_data_dir, exists m,
       load_profile_names_from_local_state fs user_data_dir = Ok m).
Proof.
  split; [reflexivity |].
  intro H. destruct (H list_state_fs data_dir) as (m & Hm).
  vm_compute in Hm. discriminate Hm.
Qed.

Lemma C9_name_index_witness :
  Path.lookup (Path.join data_dir "Local State") odd_fs = None /\
  load_profile_names_from_local_state odd_fs data_dir = Ok [].
Proof.
  split; [reflexivity |].
  apply (proj1 (C9_name_index odd_fs data_dir)). left. reflexivity.
Defined.

(** ** The order of the keys *)

Lemma str_ltb_asym (a : string) : forall b,
  str_ltb a b = true -> str_ltb b a = false.
Proof.
  induction a as [| c a IH]; intros [| d b]; simpl; try easy.
  destruct (Z.ltb_spec (PyStr.code c) (PyStr.code d)),
           (Z.ltb_spec (PyStr.code d) (PyStr.code c)),
           (Z.eqb_spec (PyStr.code c) (PyStr.code d)),
           (Z.eqb_spec (PyStr.code d) (PyStr.code c));
    try lia; try easy.
  apply IH.
Qed.

Lemma str_le_trans (a : string) : forall b c,
  str_ltb b a = false -> str_ltb c b = false -> str_ltb c a = false.
Proof.
  induction a as [| x a IH]; intros [| y b] [| z c]; simpl; try easy.
  destruct (Z.ltb_spec (PyStr.code y) (PyStr.code x)),
           (Z.ltb_spec (PyStr.code z) (PyStr.code y)),
           (Z.ltb_spec (PyStr.code z) (PyStr.code x)),
           (Z.eqb_spec (PyStr.code y) (PyStr.code x)),
           (Z.eqb_spec (PyStr.code z) (PyStr.code y)),
           (Z.eqb_spec (PyStr.code z) (PyStr.code x));
    try lia; try easy.
  apply IH.
Qed.






(** ** The sort *)

Section SortFacts.
Context {A : Type} (key_of : A -> key).

Lemma insert_perm (x : A) (l : list A) :
  Permutation (insert key_of x l) (x :: l).
Proof.
  induction l as [| y l IH]; simpl; [reflexivity |].
  destruct (key_ltb (key_of y) (key_of x)); [| reflexivity].
  rewrite IH. apply perm_swap.
Qed.

Lemma sorted_perm (l : list A) : Permutation (sorted key_of l) l.
Proof.
  induction l as [| x l IH]; simpl; [reflexivity |].
  unfold sorted in IH. rewrite insert_perm. now constructor.
Qed.




End SortFacts.

(** ** The keys of the folder names *)













(** ** Name resolution *)

Lemma prefix_iff (p : string) : forall s,
  String.prefix p s = true <-> exists post, s = p ++ post.
Proof.
  induction p as [| a p IH]; intro s.
  - split; [intros _; now exists s | intros _; now destruct s].
  - destruct s as [| b s]; simpl.
    + split; [discriminate | intros (post & H); discriminate].
    + destruct (ascii_dec a b) as [-> | Hne].
      * rewrite IH. split; intros (post & H); exists post.
        -- now rewrite H.
        -- now inversion H.
      * split; [discriminate |].
        intros (post & H). inversion H. congruence.
Qed.

(** [contains sub s] holds exactly when [sub] is a block of [s]. *)
Lemma contains_iff (sub : string) : forall s,
  PyStr.contains sub s = true <-> exists pre post, s = pre ++ sub ++ post.
Proof.
  induction s as [| c s IH]; cbn [PyStr.contains].
  - destruct (String.prefix sub "") eqn:E.
    + apply prefix_iff in E. destruct E as (post & E).
      split; [intros _; now exists "", post | reflexivity].
    + split; [discriminate |].
      intros (pre & post & H). destruct pre; [| discriminate H].
      assert (String.prefix sub "" = true)
        by (apply prefix_iff; now exists post).
      congruence.
  - destruct (String.prefix sub (String c s)) eqn:E.
    + apply prefix_iff in E. destruct E as (post & E).
      split; [intros _; now exists "", post | reflexivity].
    + rewrite IH. split.
      * intros (pre & post & ->). now exists (String c pre), post.
      * intros (pre & post & H). destruct pre as [| c' pre].
        -- assert (String.prefix sub (String c s) = true)
             by (apply prefix_iff; now exists post).
           congruence.
        -- inversion H. now exists pre, post.
Qed.

Lemma lower_char_idem (c : ascii) :
  PyStr.lower_char (PyStr.lower_char c) = PyStr.lower_char c.
Proof. destruct c as [[] [] [] [] [] [] [] []]; vm_compute; reflexivity. Qed.

Lemma lower_idem (s : string) : PyStr.lower (PyStr.lower s) = PyStr.lower s.
Proof.
  induction s as [| c s IH]; simpl; [reflexivity |].
  now rewrite lower_char_idem, IH.
Qed.

Lemma dict_set_in {V : Type} (k k' : string) (v v' : V)
    (d : list (string * V)) :
  In (k', v') (Dict.set k v d) -> (k' = k /\ v' = v) \/ In (k', v') d.
Proof.
  induction d as [| [k0 v0] d IH]; simpl.
  - intros [H | []]. inversion H. now left.
  - destruct (String.eqb k k0); simpl.
    + intros [H | H]; [inversion H; now left | right; now right].
    + intros [H | H]; [right; now left |].
      destruct (IH H) as [? | ?]; [now left | right; now right].
Qed.

Lemma build_keys (fs : node) (profile_names : list (string * json))
    (all_profiles : list (string * path)) :
  forall acc name_to_profile,
  build_name_to_profile fs profile_names all_profiles acc = Ok name_to_profile ->
  forall k info, In (k, info) name_to_profile ->
    In (k, info) acc \/
    (In info all_profiles /\ keyed_by_name fs profile_names k info).
Proof.
  induction all_profiles as [| [folder p] rest IH]; intros acc tbl H k info Hin.
  - inversion H; subst. now left.
  - cbn [build_name_to_profile] in H.
    apply bind_ok in H. destruct H as (dn & Hdn & H).
    destruct (truthy dn) eqn:Ht.
    + apply bind_ok in H. destruct H as (key & Hkey & H).
      destruct dn as [| | | | d | |]; try discriminate Hkey.
      inversion Hkey; subst key.
      destruct (IH _ _ H k info Hin) as [Hacc | [Hr Hk]].
      * apply dict_set_in in Hacc. destruct Hacc as [[-> ->] | Hacc].
        -- right. split; [now left |]. exists d. repeat split; auto.
           intros ->. discriminate Ht.
        -- now left.
      * right. split; [now right | exact Hk].
    + destruct (IH _ _ H k info Hin) as [Hacc | [Hr Hk]].
      * now left.
      * right. split; [now right | exact Hk].
Qed.

Lemma first_partial_find {V : Type} (q : string) (items : list (string * V)) :
  first_partial q items
  = match find (fun kv => PyStr.contains q (fst kv)) items with
    | Some kv => [snd kv]
    | None => []
    end.
Proof.
  induction items as [| [k v] items IH]; simpl; [reflexivity |].
  destruct (PyStr.contains q k); [reflexivity | exact IH].
Qed.

(** C7.  [find_profiles_by_name] looks names up without regard to case:
    the lookup is keyed by the lower-cased display names, two queries with
    the same lower-case form give the same match, a query whose lower-case
    form is a key gives the profile under that key, and any other query
    gives the first entry, in the iteration order of the lookup, whose key
    contains the lower-cased query as a substring, or nothing.  A profile
    named "Work Account" is found by "work account", "WORK" and "ccount". *)
Theorem C7_name_matching (fs : node) (user_data_dir : path)
    (names : list string) (matched : list (string * path))
    (Hfind : find_profiles_by_name fs user_data_dir names = Ok matched) :
  exists all_profiles profile_names name_to_profile,
    get_profile_dirs fs user_data_dir = Ok all_profiles /\
    load_profile_names_from_local_state fs user_data_dir = Ok profile_names /\
    build_name_to_profile fs profile_names all_profiles [] = Ok name_to_profile /\
    (forall k info, In (k, info) name_to_profile ->
       In info all_profiles /\ keyed_by_name fs profile_names k info) /\
    matched = flat_map (match_query name_to_profile) names /\
    (forall q q', PyStr.lower q = PyStr.lower q' ->
       match_query name_to_profile q = match_query name_to_profile q') /\
    (forall q info, Dict.get (PyStr.lower q) name_to_profile = Some info ->
       match_query name_to_profile q = [info]) /\
    (forall q, Dict.get (PyStr.lower q) name_to_profile = None ->
       match_query name_to_profile q
       = match find (fun kv => PyStr.contains (PyStr.lower q) (fst kv))
                 name_to_profile with
         | Some kv => [snd kv]
         | None => []
         end) /\
    (forall sub s, PyStr.contains sub s = true <->
                   exists pre post, s = pre ++ sub ++ post) /\
    find_profiles_by_name work_fs data_dir ["work account"; "WORK"; "ccount"]
    = Ok [("Default", ["data"; "Default"]); ("Default", ["data"; "Default"]);
          ("Default", ["data"; "Default"])].
Proof.
  unfold find_profiles_by_name in Hfind.
  apply bind_ok in Hfind. destruct Hfind as (all_profiles & Hall & Hfind).
  apply bind_ok in Hfind. destruct Hfind as (profile_names & Hnames & Hfind).
  apply bind_ok in Hfind. destruct Hfind as (tbl & Htbl & Hfind).
  inversion Hfind; subst matched. clear Hfind.
  exists all_profiles, profile_names, tbl.
  split; [exact Hall |]. split; [exact Hnames |]. split; [exact Htbl |].
  split.
  { intros k info Hin.
    destruct (build_keys _ _ _ _ _ Htbl k info Hin) as [[] | H]. exact H. }
  split; [reflexivity |].
  split.
  { intros q q' H. unfold match_query. now rewrite H. }
  split.
  { intros q info H. unfold match_query. now rewrite H. }
  split.
  { intros q H. unfold match_query. rewrite H. apply first_partial_find. }
  split; [exact contains_iff | reflexivity].
Qed.

Lemma C7_name_matching_witness :
  find_profiles_by_name work_fs data_dir ["WORK"]
    = Ok [("Default", ["data"; "Default"])] /\
  exists all_profiles profile_names name_to_profile,
    get_profile_dirs work_fs data_dir = Ok all_profiles /\
    load_profile_names_from_local_state work_fs data_dir = Ok profile_names /\
    build_name_to_profile work_fs profile_names all_profiles []
      = Ok name_to_profile /\
    [("Default", ["data"; "Default"])]
      = flat_map (match_query name_to_profile) ["WORK"].
Proof.
  split; [reflexivity |].
  destruct (C7_name_matching work_fs data_dir ["WORK"] _ eq_refl)
    as (a & n & t & Ha & Hn & Ht & _ & Hm & _).
  exists a, n, t. now repeat split.
Defined.


(** * Further properties *)

(** ** Color codec, both directions *)

Section CodecFacts.

Local Open Scope list_scope.
Local Open Scope Z_scope.

Lemma hex_char_facts (d : Z) :
  0 <= d < 16 ->
  is_hex_digit (PyStr.hex_char d) = true /\
  upper_char (PyStr.hex_char d) = PyStr.hex_char d /\
  PyStr.digit_value (PyStr.hex_char d) = Some d.
Proof.
  intro H.
  assert (E : d = 0 \/ d = 1 \/ d = 2 \/ d = 3 \/ d = 4 \/ d = 5 \/ d = 6 \/
              d = 7 \/ d = 8 \/ d = 9 \/ d = 10 \/ d = 11 \/ d = 12 \/
              d = 13 \/ d = 14 \/ d = 15) by lia.
  repeat (destruct E as [-> | E]; [repeat split; reflexivity |]).
  subst d. repeat split; reflexivity.
Qed.

Lemma low_digits_length (k : nat) : forall n,
  List.length (low_digits k n) = k.
Proof.
  induction k as [| k IH]; intro n; simpl; [reflexivity |].
  rewrite length_app, IH. simpl. lia.
Qed.

Lemma low_digits_hex (k : nat) : forall n,
  forallb is_hex_digit (low_digits k n) = true /\
  map upper_char (low_digits k n) = low_digits k n.
Proof.
  induction k as [| k IH]; intro n; simpl; [now split |].
  destruct (IH (n / 16)) as [H1 H2].
  destruct (hex_char_facts (n mod 16)) as (F1 & F2 & _);
    [apply Z.mod_pos_bound; lia |].
  rewrite forallb_app, map_app, H1, H2. simpl. now rewrite F1, F2.
Qed.

Lemma fold_low_digits (k : nat) : forall n acc,
  0 <= n < 16 ^ Z.of_nat k ->
  fold_left hex_step (low_digits k n) acc = acc * 16 ^ Z.of_nat k + n.
Proof.
  induction k as [| k IH]; intros n acc H.
  - simpl in *. lia.
  - rewrite Nat2Z.inj_succ, Z.pow_succ_r in * by lia.
    cbn [low_digits]. rewrite fold_left_app. cbn [fold_left].
    destruct (hex_char_facts (n mod 16)) as (_ & _ & F);
      [apply Z.mod_pos_bound; lia |].
    rewrite (hex_step_digit _ _ _ F).
    rewrite IH.
    + pose proof (Z.div_mod n 16). lia.
    + split; [apply Z.div_pos; lia | apply Z.div_lt_upper_bound; lia].
Qed.

(** What the hexadecimal digits are not. *)
Lemma hex_digit_plain (c : ascii) :
  is_hex_digit c = true ->
  PyStr.int_space c = false /\ Ascii.eqb c "+" = false /\
  Ascii.eqb c "-" = false /\ Ascii.eqb c "x" = false /\
  Ascii.eqb c "X" = false.
Proof.
  destruct c as [[] [] [] [] [] [] [] []]; intro H; vm_compute in H;
    try discriminate H; repeat split; reflexivity.
Qed.

(** [int(s, 16)] on a string of hexadecimal digits. *)
Lemma int_hex (s : string) :
  is_hex s = true -> s <> ""%string ->
  PyStr.int 16 s = Ok (fold_left hex_step (PyStr.chars s) 0).
Proof.
  intros Hhex Hne. unfold PyStr.int.
  destruct s as [| c s]; [contradiction |].
  change (PyStr.chars (String c s)) with (c :: PyStr.chars s) in *.
  pose proof Hhex as Hhex'. unfold is_hex in Hhex'.
  change (PyStr.chars (String c s)) with (c :: PyStr.chars s) in Hhex'.
  cbn [forallb] in Hhex'. apply andb_prop in Hhex'. destruct Hhex' as [Hc Hcs].
  destruct (hex_digit_plain c Hc) as (Hs & Hp & Hm & _).
  rewrite int_chars_plain; try assumption.
  - rewrite scan_hex_start by exact Hhex. cbn [bind]. f_equal. apply Z.mul_1_l.
  - unfold PyStr.strip_prefix. cbn [Z.eqb Pos.eqb].
    destruct (PyStr.chars s) as [| c2 rest]; [reflexivity |].
    cbn [forallb] in Hcs. apply andb_prop in Hcs.
    destruct (hex_digit_plain c2 (proj1 Hcs)) as (_ & _ & _ & Hx & HX).
    now rewrite Hx, HX, andb_false_r.
Qed.

Lemma lstrip_hex (s : string) :
  is_hex s = true -> PyStr.lstrip "#" s = s.
Proof.
  destruct s as [| c s]; [reflexivity |]. intro H. cbn [PyStr.lstrip].
  unfold is_hex in H. cbn [PyStr.chars list_ascii_of_string forallb] in H.
  apply andb_prop in H. now rewrite (hex_digit_not_hash c (proj1 H)).
Qed.

Lemma is_hex_app (a s : string) :
  is_hex (a ++ s)%string = is_hex a && is_hex s.
Proof.
  unfold is_hex, PyStr.chars. induction a as [| c a IH]; simpl.
  - reflexivity.
  - now rewrite IH, andb_assoc.
Qed.

Lemma chars_app (a s : string) :
  PyStr.chars (a ++ s)%string = PyStr.chars a ++ PyStr.chars s.
Proof.
  unfold PyStr.chars. induction a as [| c a IH]; simpl; [reflexivity |].
  now rewrite IH.
Qed.

(** The value of six hexadecimal digits, behind a full alpha byte. *)
Lemma hex_to_signed_int_six (s x : string) :
  String.length s = 6%nat -> is_hex s = true -> PyStr.lstrip "#" x = s ->
  hex_to_signed_int x
  = Ok (fold_left hex_step (PyStr.chars s) 0 - 16777216).
Proof.
  intros Hlen Hhex Hx. unfold hex_to_signed_int. rewrite Hx, Hlen.
  cbn [Nat.eqb bind].
  rewrite int_hex.
  - rewrite chars_app. change (PyStr.chars "FF") with ["F"%char; "F"%char].
    cbn [app fold_left bind].
    change (hex_step (hex_step 0 "F") "F") with 255.
    destruct (fold_hex_bounds (PyStr.chars s) 255 Hhex) as [E B].
    rewrite chars_length, Hlen in E, B.
    change (16 ^ Z.of_nat 6) with 16777216 in E, B.
    rewrite E.
    change (Z.shiftl 1 31) with 2147483648.
    change (Z.shiftl 1 32) with 4294967296.
    replace (255 * 16777216 + fold_left hex_step (PyStr.chars s) 0
             >=? 2147483648) with true by (symmetry; apply Z.geb_le; lia).
    f_equal. lia.
  - rewrite is_hex_app. now rewrite Hhex.
  - discriminate.
Qed.

(** The low 24 bits that [signed_int_to_hex] prints. *)
Lemma signed_int_to_hex_digits (n : Z) :
  signed_int_to_hex n
  = String "#" (PyStr.str (low_digits 6 (n mod 16777216))).
Proof.
  unfold signed_int_to_hex. f_equal.
  change (Z.shiftl 1 32) with (256 * 2 ^ 24).
  change 16777215 with (Z.ones 24).
  assert (E : Z.land (if n <? 0 then n + 256 * 2 ^ 24 else n) (Z.ones 24)
              = n mod 16777216).
  { rewrite Z.land_ones by lia. change (2 ^ 24) with 16777216.
    destruct (n <? 0); [apply Z_mod_plus_full | reflexivity]. }
  rewrite E.
  pose proof (Z.mod_pos_bound n 16777216 ltac:(lia)) as B.
  unfold PyStr.format_06X.
  replace (n mod 16777216 <? 0) with false by (symmetry; apply Z.ltb_ge; lia).
  rewrite hex_upper_low_digits; [reflexivity | lia |].
  change (16 ^ Z.of_nat 6) with 16777216. lia.
Qed.

Lemma length_str (cs : list ascii) :
  String.length (PyStr.str cs) = List.length cs.
Proof. unfold PyStr.str. induction cs; simpl; congruence. Qed.

Lemma chars_of_str (cs : list ascii) : PyStr.chars (PyStr.str cs) = cs.
Proof. apply list_ascii_of_string_of_list_ascii. Qed.

End CodecFacts.

(** X1.  For every integer, [signed_int_to_hex] returns a valid colour
    string: [#] and six upper-case hexadecimal digits. *)
Theorem signed_int_to_hex_valid (n : Z) :
  valid_color (signed_int_to_hex n) = true /\
  String.length (signed_int_to_hex n) = 7%nat /\
  normalize_color (signed_int_to_hex n) = signed_int_to_hex n.
Proof.
  rewrite signed_int_to_hex_digits.
  set (ds := low_digits 6 (n mod 16777216)).
  destruct (low_digits_hex 6 (n mod 16777216)) as [Hh Hu]. fold ds in Hh, Hu.
  assert (Hl : String.length (PyStr.str ds) = 6%nat)
    by (rewrite length_str; apply low_digits_length).
  assert (Hs : strip_hash (String "#" (PyStr.str ds)) = PyStr.str ds)
    by reflexivity.
  unfold valid_color, normalize_color. rewrite Hs.
  split; [| split].
  - unfold is_hex. now rewrite chars_of_str, Hh, Hl.
  - cbn [String.length]. now rewrite Hl.
  - f_equal. rewrite <- str_map_upper, chars_of_str. now rewrite Hu.
Qed.

(** X2.  Decoding what [signed_int_to_hex] printed gives the low 24 bits
    behind a full alpha byte; so every integer from -2^24 to -1, which is
    what the six-digit form stores, survives printing and parsing. *)
Theorem codec_reverse_roundtrip (n : Z) :
  hex_to_signed_int (signed_int_to_hex n)
    = Ok (n mod 16777216 - 16777216)%Z /\
  ((-16777216 <= n < 0)%Z ->
   hex_to_signed_int (signed_int_to_hex n) = Ok n).
Proof.
  assert (E : hex_to_signed_int (signed_int_to_hex n)
              = Ok (n mod 16777216 - 16777216)%Z).
  { rewrite signed_int_to_hex_digits.
    set (ds := low_digits 6 (n mod 16777216)).
    destruct (low_digits_hex 6 (n mod 16777216)) as [Hh _]. fold ds in Hh.
    rewrite (hex_to_signed_int_six (PyStr.str ds)).
    - rewrite chars_of_str. unfold ds. rewrite fold_low_digits.
      + f_equal.
      + change (16 ^ Z.of_nat 6)%Z with 16777216%Z.
        apply Z.mod_pos_bound. lia.
    - rewrite length_str. apply low_digits_length.
    - unfold is_hex. now rewrite chars_of_str.
    - cbn [PyStr.lstrip]. change (Ascii.eqb "#" "#") with true. cbv iota.
      apply lstrip_hex. unfold is_hex. now rewrite chars_of_str. }
  split; [exact E |].
  intro H. rewrite E. f_equal.
  assert (n mod 16777216 = n + 16777216)%Z; [| lia].
  symmetry. apply Z.mod_unique with (-1)%Z; lia.
Qed.

Lemma codec_reverse_roundtrip_witness :
  (-16777216 <= -43776 < 0)%Z /\
  hex_to_signed_int (signed_int_to_hex (-43776)) = Ok (-43776)%Z.
Proof.
  split; [lia |].
  apply (proj2 (codec_reverse_roundtrip (-43776))). lia.
Defined.

Section IntBounds.

Local Open Scope list_scope.
Local Open Scope Z_scope.

Lemma digit_value_nonneg (c : ascii) (d : Z) :
  PyStr.digit_value c = Some d -> 0 <= d.
Proof.
  destruct c as [[] [] [] [] [] [] [] []]; vm_compute; intro H;
    try discriminate H; inversion H; discriminate.
Qed.

(** A digit run of [k] characters stays below [16 ^ k]. *)
Lemma scan_digits_bound (cs : list ascii) : forall acc seen prev v,
  0 <= acc ->
  PyStr.scan_digits 16 cs acc seen prev = Ok v ->
  0 <= v < (acc + 1) * 16 ^ Z.of_nat (List.length cs).
Proof.
  induction cs as [| c cs IH]; intros acc seen prev v Hacc H.
  - cbn [PyStr.scan_digits] in H. destruct (seen && negb prev); [| discriminate].
    inversion H; subst. simpl. lia.
  - cbn [List.length]. rewrite Nat2Z.inj_succ, Z.pow_succ_r by lia.
    assert (P : 0 < 16 ^ Z.of_nat (List.length cs)) by (apply Z.pow_pos_nonneg; lia).
    cbn [PyStr.scan_digits] in H.
    destruct (PyStr.digit_value c) as [d |] eqn:Ed.
    + destruct (Z.ltb_spec d 16); [| discriminate].
      pose proof (digit_value_nonneg c d Ed).
      apply IH in H; [| lia]. nia.
    + destruct (Ascii.eqb c "_").
      * destruct (seen && negb prev); [| discriminate].
        apply IH in H; [| lia]. nia.
      * destruct (seen && negb prev); [| discriminate].
        destruct (PyStr.skip_spaces (c :: cs)); [| discriminate].
        inversion H; subst. nia.
Qed.

Lemma skip_spaces_length (cs : list ascii) :
  (List.length (PyStr.skip_spaces cs) <= List.length cs)%nat.
Proof.
  induction cs as [| c cs IH]; simpl; [lia |].
  destruct (PyStr.int_space c); simpl; lia.
Qed.

Lemma strip_prefix_length (cs : list ascii) :
  (List.length (PyStr.strip_prefix 16 cs) <= List.length cs)%nat.
Proof.
  unfold PyStr.strip_prefix. cbn [Z.eqb Pos.eqb].
  destruct cs as [| c0 [| cx rest]]; simpl; try lia.
  destruct (Ascii.eqb c0 "0" && (Ascii.eqb cx "x" || Ascii.eqb cx "X"));
    simpl; [| lia].
  destruct rest as [| u rest]; simpl; [lia |].
  destruct (Ascii.eqb u "_"); simpl; lia.
Qed.

(** [int(s, 16)] of a string of [k] characters lies strictly between
    [-16 ^ k] and [16 ^ k]; a negative value needs a sign, so it is above
    [-16 ^ (k - 1)]. *)
Lemma int_bound (s : string) (v : Z) :
  PyStr.int 16 s = Ok v ->
  - 16 ^ Z.of_nat (String.length s - 1) < v < 16 ^ Z.of_nat (String.length s).
Proof.
  unfold PyStr.int, PyStr.int_chars. rewrite <- chars_length.
  pose proof (skip_spaces_length (PyStr.chars s)) as Hs.
  destruct (PyStr.skip_spaces (PyStr.chars s)) as [| c rest] eqn:E.
  - cbn. discriminate.
  - assert (Hmono : forall a b : nat, (a <= b)%nat ->
              16 ^ Z.of_nat a <= 16 ^ Z.of_nat b)
      by (intros; apply Z.pow_le_mono_r; lia).
    assert (Hpos : forall a : nat, 0 < 16 ^ Z.of_nat a)
      by (intros; apply Z.pow_pos_nonneg; lia).
    cbn [List.length] in Hs.
    destruct (Ascii.eqb c "+"); [| destruct (Ascii.eqb c "-")].
    + pose proof (strip_prefix_length rest) as Hp.
      destruct (PyStr.scan_digits 16 (PyStr.strip_prefix 16 rest) 0 false false)
        as [u |] eqn:Hu; [| discriminate].
      apply scan_digits_bound in Hu; [| lia].
      cbn [bind]. intro H.
      match type of H with Ok ?t = Ok _ => assert (Hv : v = t) by congruence end.
      clear H. subst v.
      pose proof (Hmono _ _ Hp).
      pose proof (Hmono (List.length rest) (List.length (PyStr.chars s) - 1)%nat
                    ltac:(lia)).
      pose proof (Hmono (List.length (PyStr.chars s) - 1)%nat
                    (List.length (PyStr.chars s)) ltac:(lia)).
      pose proof (Hpos (List.length (PyStr.chars s) - 1)%nat). lia.
    + pose proof (strip_prefix_length rest) as Hp.
      destruct (PyStr.scan_digits 16 (PyStr.strip_prefix 16 rest) 0 false false)
        as [u |] eqn:Hu; [| discriminate].
      apply scan_digits_bound in Hu; [| lia].
      cbn [bind]. intro H.
      match type of H with Ok ?t = Ok _ => assert (Hv : v = t) by congruence end.
      clear H. subst v.
      pose proof (Hmono _ _ Hp).
      pose proof (Hmono (List.length rest) (List.length (PyStr.chars s) - 1)%nat
                    ltac:(lia)).
      pose proof (Hpos (List.length (PyStr.chars s))). lia.
    + pose proof (strip_prefix_length (c :: rest)) as Hp.
      destruct (PyStr.scan_digits 16 (PyStr.strip_prefix 16 (c :: rest)) 0 false false)
        as [u |] eqn:Hu; [| discriminate].
      apply scan_digits_bound in Hu; [| lia].
      cbn [bind]. intro H.
      match type of H with Ok ?t = Ok _ => assert (Hv : v = t) by congruence end.
      clear H. subst v.
      pose proof (Hmono _ _ Hp).
      pose proof (Hmono (List.length (c :: rest)) (List.length (PyStr.chars s))
                    ltac:(cbn [List.length]; lia)).
      pose proof (Hpos (List.length (PyStr.chars s) - 1)%nat). lia.
Qed.

End IntBounds.

(** X3.  Whatever string [hex_to_signed_int] accepts, signs, prefixes and
    underscores included, the integer it returns fits in 32 signed bits. *)
Theorem hex_to_signed_int_range (x : string) (n : Z)
    (Hok : hex_to_signed_int x = Ok n) :
  (- 2 ^ 31 <= n < 2 ^ 31)%Z.
Proof.
  unfold hex_to_signed_int in Hok.
  set (h := PyStr.lstrip "#" x) in *.
  assert (Hint : exists s v, String.length s = 8%nat /\ PyStr.int 16 s = Ok v /\
            n = if (v >=? Z.shiftl 1 31)%Z then (v - Z.shiftl 1 32)%Z else v).
  { destruct (Nat.eqb (String.length h) 6) eqn:E6.
    - apply Nat.eqb_eq in E6. cbn [bind] in Hok.
      destruct (PyStr.int 16 ("FF" ++ h)) as [v |] eqn:Ev; [| discriminate].
      exists ("FF" ++ h), v. cbn [bind] in Hok.
      split; [cbn [String.append String.length]; now rewrite E6 |].
      split; [exact Ev |].
      destruct (v >=? Z.shiftl 1 31)%Z; now inversion Hok.
    - destruct (Nat.eqb (String.length h) 8) eqn:E8; [| discriminate].
      apply Nat.eqb_eq in E8. cbn [negb bind] in Hok.
      destruct (PyStr.int 16 h) as [v |] eqn:Ev; [| discriminate].
      exists h, v. cbn [bind] in Hok. repeat split; auto.
      destruct (v >=? Z.shiftl 1 31)%Z; now inversion Hok. }
  destruct Hint as (s & v & Hlen & Hv & ->).
  apply int_bound in Hv. rewrite Hlen in Hv.
  change (Z.shiftl 1 31) with 2147483648%Z.
  change (Z.shiftl 1 32) with 4294967296%Z.
  change (16 ^ Z.of_nat (8 - 1))%Z with 268435456%Z in Hv.
  change (16 ^ Z.of_nat 8)%Z with 4294967296%Z in Hv.
  change (2 ^ 31)%Z with 2147483648%Z.
  destruct (Z.geb_spec v 2147483648); lia.
Qed.

Lemma hex_to_signed_int_range_witness :
  hex_to_signed_int "80000000" = Ok (-2147483648)%Z /\
  (- 2 ^ 31 <= -2147483648 < 2 ^ 31)%Z.
Proof.
  split; [reflexivity |].
  apply (hex_to_signed_int_range "80000000"). reflexivity.
Defined.

(** X4.  On eight hexadecimal digits, with or without [#], the alpha byte
    is kept by [hex_to_signed_int]: the integer returned is the value of the
    eight digits, less 2^32 from 2^31 on, and its byte 3 is the value of the
    first two digits.  [signed_int_to_hex] drops that byte: the colour
    printed back is [#] and the last six digits in upper case. *)
Theorem eight_digits_drop_alpha (a s x : string)
    (Ha : String.length a = 2%nat) (Hs : String.length s = 6%nat)
    (Hhex : is_hex a = true /\ is_hex s = true)
    (Hx : x = (a ++ s)%string \/ x = String "#" (a ++ s)) :
  let alpha := fold_left hex_step (PyStr.chars a) 0%Z in
  let unsigned := fold_left hex_step (PyStr.chars (a ++ s)) 0%Z in
  exists n, hex_to_signed_int x = Ok n /\
            n = (if (unsigned >=? 2147483648)%Z
                 then unsigned - 4294967296 else unsigned)%Z /\
            (0 <= alpha <= 255)%Z /\
            ((n mod 4294967296) / 16777216 = alpha)%Z /\
            signed_int_to_hex n = String "#" (upper s) /\
            hex_to_signed_int x = hex_to_signed_int (a ++ s).
Proof.
  cbv zeta.
  destruct Hhex as [Hha Hhs].
  assert (Hh : is_hex (a ++ s) = true) by (rewrite is_hex_app; now rewrite Hha, Hhs).
  assert (Hstrip : PyStr.lstrip "#" x = (a ++ s)%string).
  { destruct Hx as [-> | ->].
    - now apply lstrip_hex.
    - cbn [PyStr.lstrip]. change (Ascii.eqb "#" "#") with true. cbv iota.
      now apply lstrip_hex. }
  assert (Hlen : String.length (a ++ s) = 8%nat).
  { rewrite <- chars_length, chars_app, length_app, !chars_length. lia. }
  set (A := fold_left hex_step (PyStr.chars a) 0%Z).
  set (v := fold_left hex_step (PyStr.chars s) 0%Z).
  destruct (fold_hex_bounds (PyStr.chars a) 0 Hha) as [_ Ba].
  destruct (fold_hex_bounds (PyStr.chars s) A Hhs) as [Es Bs].
  rewrite chars_length, Ha in Ba. rewrite chars_length, Hs in Es, Bs.
  fold A in Ba. fold v in Es, Bs.
  change (16 ^ Z.of_nat 2)%Z with 256%Z in Ba.
  change (16 ^ Z.of_nat 6)%Z with 16777216%Z in Es, Bs.
  assert (Hint : PyStr.int 16 (a ++ s) = Ok (A * 16777216 + v)%Z).
  { rewrite int_hex; [| exact Hh | destruct a; [discriminate Ha | discriminate]].
    now rewrite chars_app, fold_left_app, <- Es. }
  assert (Hval : forall y, PyStr.lstrip "#" y = (a ++ s)%string ->
            hex_to_signed_int y
            = Ok (if (A * 16777216 + v >=? 2147483648)%Z
                  then (A * 16777216 + v - 4294967296)%Z
                  else (A * 16777216 + v)%Z)).
  { intros y Hy. unfold hex_to_signed_int. rewrite Hy, Hlen.
    cbn [Nat.eqb negb bind]. rewrite Hint. cbn [bind].
    change (Z.shiftl 1 31) with 2147483648%Z.
    change (Z.shiftl 1 32) with 4294967296%Z.
    now destruct (A * 16777216 + v >=? 2147483648)%Z. }
  assert (Hu : fold_left hex_step (PyStr.chars (a ++ s)) 0%Z
               = (A * 16777216 + v)%Z)
    by (now rewrite chars_app, fold_left_app, <- Es).
  rewrite Hu.
  eexists. split; [apply Hval, Hstrip |].
  split; [reflexivity |]. split; [lia |].
  split.
  { destruct (A * 16777216 + v >=? 2147483648)%Z.
    - replace ((A * 16777216 + v - 4294967296) mod 4294967296)%Z
        with (A * 16777216 + v)%Z
        by (apply Z.mod_unique with (-1)%Z; lia).
      symmetry. apply Z.div_unique with v; lia.
    - rewrite Z.mod_small by lia.
      symmetry. apply Z.div_unique with v; lia. }
  split.
  - rewrite signed_int_to_hex_digits. f_equal.
    assert (E : ((if (A * 16777216 + v >=? 2147483648)%Z
                  then (A * 16777216 + v - 4294967296)%Z
                  else (A * 16777216 + v)%Z) mod 16777216 = v)%Z).
    { destruct (A * 16777216 + v >=? 2147483648)%Z.
      - symmetry. apply Z.mod_unique with (A - 256)%Z; lia.
      - symmetry. apply Z.mod_unique with A; lia. }
    rewrite E. unfold v.
    rewrite <- (chars_length s) in Hs. rewrite <- Hs.
    rewrite low_digits_fold by exact Hhs. apply str_map_upper.
  - rewrite (Hval x Hstrip). symmetry. apply Hval. now apply lstrip_hex.
Qed.

Lemma eight_digits_drop_alpha_witness :
  hex_to_signed_int "#80ff55aa" = Ok (-2130750038)%Z /\
  exists n, hex_to_signed_int "#80ff55aa" = Ok n /\
            ((n mod 4294967296) / 16777216 = 128)%Z /\
            signed_int_to_hex n = String "#" (upper "ff55aa").
Proof.
  split; [reflexivity |].
  destruct (eight_digits_drop_alpha "80" "ff55aa" "#80ff55aa")
    as (n & Hn & _ & _ & Halpha & Hback & _);
    [reflexivity | reflexivity | split; reflexivity | right; reflexivity |].
  exists n. split; [exact Hn |]. split; [exact Halpha | exact Hback].
Defined.

(** ** Colour display *)

Lemma valid_color_strip (x : string) :
  valid_color x = true ->
  String.length (strip_hash x) = 6%nat /\ is_hex (strip_hash x) = true /\
  PyStr.lstrip "#" x = strip_hash x.
Proof.
  unfold valid_color. intro H. apply andb_prop in H. destruct H as [Hl Hh].
  apply Nat.eqb_eq in Hl. repeat split; auto.
  destruct x as [| c s]; [reflexivity |].
  cbn [strip_hash PyStr.lstrip] in *.
  destruct (Ascii.eqb c "#") eqn:E.
  - now apply lstrip_hex.
  - reflexivity.
Qed.

(** Two hexadecimal digits read as one byte. *)
Lemma int_hex_pair (c1 c2 : ascii) (d1 d2 : Z) :
  is_hex_digit c1 = true -> is_hex_digit c2 = true ->
  PyStr.digit_value c1 = Some d1 -> PyStr.digit_value c2 = Some d2 ->
  PyStr.int 16 (String c1 (String c2 "")) = Ok (d1 * 16 + d2)%Z.
Proof.
  intros H1 H2 E1 E2. rewrite int_hex.
  - cbn [PyStr.chars list_ascii_of_string fold_left].
    now rewrite (hex_step_digit _ _ _ E1), (hex_step_digit _ _ _ E2).
  - unfold is_hex. cbn [PyStr.chars list_ascii_of_string forallb].
    now rewrite H1, H2.
  - discriminate.
Qed.

(** [hex_to_rgb] on six hexadecimal digits: the three bytes, which are
    also the low 24 bits that the codec stores. *)
Lemma rgb_six (s x : string) :
  String.length s = 6%nat -> is_hex s = true -> PyStr.lstrip "#" x = s ->
  exists r g b,
    hex_to_rgb x = Ok (r, g, b) /\
    (0 <= r <= 255 /\ 0 <= g <= 255 /\ 0 <= b <= 255)%Z /\
    fold_left hex_step (PyStr.chars s) 0%Z = (r * 65536 + g * 256 + b)%Z.
Proof.
  intros Hlen Hhex Hx.
  destruct s as [| c1 [| c2 [| c3 [| c4 [| c5 [| c6 [| c7 s]]]]]]];
    try discriminate Hlen.
  unfold is_hex in Hhex.
  cbn [PyStr.chars list_ascii_of_string forallb] in Hhex.
  repeat (apply andb_prop in Hhex; destruct Hhex as [? Hhex]).
  destruct (hex_digit_value c1) as (d1 & E1 & B1 & _); [assumption |].
  destruct (hex_digit_value c2) as (d2 & E2 & B2 & _); [assumption |].
  destruct (hex_digit_value c3) as (d3 & E3 & B3 & _); [assumption |].
  destruct (hex_digit_value c4) as (d4 & E4 & B4 & _); [assumption |].
  destruct (hex_digit_value c5) as (d5 & E5 & B5 & _); [assumption |].
  destruct (hex_digit_value c6) as (d6 & E6 & B6 & _); [assumption |].
  exists (d1 * 16 + d2)%Z, (d3 * 16 + d4)%Z, (d5 * 16 + d6)%Z.
  split; [| split].
  - unfold hex_to_rgb. rewrite Hx.
    cbn [String.substring].
    rewrite (int_hex_pair c1 c2 d1 d2), (int_hex_pair c3 c4 d3 d4),
      (int_hex_pair c5 c6 d5 d6) by assumption.
    reflexivity.
  - lia.
  - cbn [PyStr.chars list_ascii_of_string fold_left].
    rewrite (hex_step_digit _ _ _ E1), (hex_step_digit _ _ _ E2),
      (hex_step_digit _ _ _ E3), (hex_step_digit _ _ _ E4),
      (hex_step_digit _ _ _ E5), (hex_step_digit _ _ _ E6).
    ring.
Qed.

(** X5.  On a valid colour string [hex_to_rgb] returns three bytes, and
    they are the red, green and blue bytes of the integer
    [hex_to_signed_int] returns for the same string. *)
Theorem hex_to_rgb_agrees_with_codec (x : string)
    (Hvalid : valid_color x = true) :
  exists r g b,
    hex_to_rgb x = Ok (r, g, b) /\
    (0 <= r <= 255 /\ 0 <= g <= 255 /\ 0 <= b <= 255)%Z /\
    hex_to_signed_int x = Ok (r * 65536 + g * 256 + b - 16777216)%Z.
Proof.
  destruct (valid_color_strip x Hvalid) as (Hlen & Hhex & Hstrip).
  destruct (rgb_six _ x Hlen Hhex Hstrip) as (r & g & b & Hrgb & Hb & Hv).
  exists r, g, b. split; [exact Hrgb |]. split; [exact Hb |].
  rewrite (hex_to_signed_int_six _ x Hlen Hhex Hstrip). now rewrite Hv.
Qed.

Lemma hex_to_rgb_agrees_with_codec_witness :
  exists r g b,
    hex_to_rgb "#ff5500" = Ok (r, g, b) /\
    (0 <= r <= 255 /\ 0 <= g <= 255 /\ 0 <= b <= 255)%Z /\
    hex_to_signed_int "#ff5500" = Ok (r * 65536 + g * 256 + b - 16777216)%Z.
Proof. apply (hex_to_rgb_agrees_with_codec "#ff5500"). reflexivity. Defined.

(** The bytes of a stored colour. *)
Lemma rgb_of_stored (n : Z) :
  hex_to_rgb (signed_int_to_hex n)
  = Ok ((n / 65536) mod 256, (n / 256) mod 256, n mod 256)%Z.
Proof.
  rewrite signed_int_to_hex_digits.
  set (v := (n mod 16777216)%Z).
  assert (Bv : (0 <= v < 16777216)%Z) by (apply Z.mod_pos_bound; lia).
  destruct (low_digits_hex 6 v) as [Hh _].
  destruct (rgb_six (PyStr.str (low_digits 6 v))
              (String "#" (PyStr.str (low_digits 6 v))))
    as (r & g & b & Hrgb & Hb & Hv).
  - rewrite length_str. apply low_digits_length.
  - unfold is_hex. now rewrite chars_of_str.
  - cbn [PyStr.lstrip]. change (Ascii.eqb "#" "#") with true. cbv iota.
    apply lstrip_hex. unfold is_hex. now rewrite chars_of_str.
  - rewrite Hrgb. rewrite chars_of_str, fold_low_digits in Hv
      by (change (16 ^ Z.of_nat 6)%Z with 16777216%Z; exact Bv).
    assert (E : (r = (n / 65536) mod 256 /\ g = (n / 256) mod 256 /\
                 b = n mod 256)%Z).
    { pose proof (Z.div_mod n 16777216 ltac:(lia)) as Hn. fold v in Hn.
      set (q := (n / 16777216)%Z) in Hn.
      assert (E1 : (n / 65536 = 256 * q + r)%Z)
        by (symmetry; apply Z.div_unique with (g * 256 + b)%Z; lia).
      assert (E2 : (n / 256 = 65536 * q + 256 * r + g)%Z)
        by (symmetry; apply Z.div_unique with b; lia).
      rewrite E1, E2. repeat split.
      - apply Z.mod_unique with q; lia.
      - apply Z.mod_unique with (256 * q + r)%Z; lia.
      - apply Z.mod_unique with (65536 * q + 256 * r + g)%Z; lia. }
    destruct E as (-> & -> & ->). reflexivity.
Qed.

(** X6.  For every integer [n], [hex_to_rgb] reads the colour that
    [signed_int_to_hex n] prints as bytes 2, 1 and 0 of [n], so that
    [color_swatch] and [format_color_display] return on it. *)
Theorem stored_colour_displays (n : Z) (width : Z) :
  hex_to_rgb (signed_int_to_hex n)
    = Ok ((n / 65536) mod 256, (n / 256) mod 256, n mod 256)%Z /\
  (exists text, color_swatch (signed_int_to_hex n) width = Ok text) /\
  exists text, format_color_display (Some (signed_int_to_hex n)) = Ok text.
Proof.
  split; [apply rgb_of_stored |].
  split.
  - unfold color_swatch. rewrite rgb_of_stored. cbn [bind]. eauto.
  - unfold format_color_display.
    replace (PyStr.startswith "ERROR" (signed_int_to_hex n)) with false
      by (rewrite signed_int_to_hex_digits; reflexivity).
    unfold color_swatch. rewrite rgb_of_stored. cbn [bind]. eauto.
Qed.

(** What [get_current_color] can return. *)
Lemma get_current_color_cases (fs : node) (prefs_path : path)
    (current : option string) :
  get_current_color fs prefs_path = Ok current ->
  current = None \/ current = Some "ERROR" \/
  exists n, current = Some (signed_int_to_hex n).
Proof.
  unfold get_current_color.
  destruct (Path.read_json fs prefs_path) as [prefs | e]; cbn [bind catch].
  - destruct (py_get prefs "autogenerated" (JDict [])) as [a | e];
      cbn [bind catch]; [| destruct (decode_or_io e); [| discriminate];
                            intro H; inversion H; auto].
    destruct (py_get a "theme" (JDict [])) as [t | e];
      cbn [bind catch]; [| destruct (decode_or_io e); [| discriminate];
                            intro H; inversion H; auto].
    destruct (py_get t "color" JNull) as [c | e];
      cbn [bind catch]; [| destruct (decode_or_io e); [| discriminate];
                            intro H; inversion H; auto].
    destruct c; cbn [signed_int_to_hex_of bind catch decode_or_io];
      intro H; inversion H; eauto.
  - destruct (decode_or_io e); [| discriminate]. intro H. inversion H. auto.
Qed.

(** X7.  Whatever [get_current_color] returns for a preference file,
    absent colour, error text or colour, [format_color_display] formats it
    without raising. *)
Theorem current_colour_always_displays (fs : node) (prefs_path : path)
    (current : option string)
    (Hcur : get_current_color fs prefs_path = Ok current) :
  exists text, format_color_display current = Ok text.
Proof.
  destruct (get_current_color_cases _ _ _ Hcur) as [-> | [-> | (n & ->)]].
  - now exists "(not set)    ".
  - now exists "ERROR".
  - unfold format_color_display.
    replace (PyStr.startswith "ERROR" (signed_int_to_hex n)) with false
      by (rewrite signed_int_to_hex_digits; reflexivity).
    unfold color_swatch. rewrite rgb_of_stored. cbn [bind]. eauto.
Qed.

Lemma current_colour_always_displays_witness :
  get_current_color work_fs (prefs_of "Default") = Ok (Some "#000005") /\
  exists text, format_color_display (Some "#000005") = Ok text.
Proof.
  split; [reflexivity |].
  apply (current_colour_always_displays work_fs (prefs_of "Default")).
  reflexivity.
Defined.

Lemma scan_digits_errors (base : Z) (cs : list ascii) : forall acc seen prev e,
  PyStr.scan_digits base cs acc seen prev = Raise e -> e = ValueError.
Proof.
  induction cs as [| c cs IH]; intros acc seen prev e; cbn [PyStr.scan_digits].
  - destruct (seen && negb prev); [discriminate | congruence].
  - destruct (PyStr.digit_value c) as [d |].
    + destruct (d <? base)%Z; [apply IH | congruence].
    + destruct (Ascii.eqb c "_").
      * destruct (seen && negb prev); [apply IH | congruence].
      * destruct (seen && negb prev); [| congruence].
        destruct (PyStr.skip_spaces (c :: cs)); [discriminate | congruence].
Qed.

Lemma int_errors (base : Z) (s : string) (e : exn) :
  PyStr.int base s = Raise e -> e = ValueError.
Proof.
  unfold PyStr.int, PyStr.int_chars.
  assert (Hscan : forall (sign : Z) (cs : list ascii),
            bind (PyStr.scan_digits base (PyStr.strip_prefix base cs) 0 false false)
                 (fun v => Ok (sign * v)%Z) = Raise e -> e = ValueError).
  { intros sign cs.
    destruct (PyStr.scan_digits base (PyStr.strip_prefix base cs) 0 false false)
      as [v |] eqn:E; cbn [bind]; [discriminate |].
    intro H. inversion H; subst. eapply scan_digits_errors. exact E. }
  destruct (PyStr.skip_spaces (PyStr.chars s)) as [| c rest].
  - apply Hscan.
  - destruct (Ascii.eqb c "+"); [| destruct (Ascii.eqb c "-")]; apply Hscan.
Qed.

Lemma substring_short (n m : nat) (s : string) :
  (String.length s <= n)%nat -> String.substring n m s = "".
Proof.
  revert s. induction n as [| n IH]; intros s H.
  - destruct s; [now destruct m | simpl in H; lia].
  - destruct s as [| c s]; [reflexivity |]. simpl in *. apply IH. lia.
Qed.

(** X8.  [hex_to_rgb] checks no length: the only exception it raises is
    [ValueError], it always raises it when fewer than five characters follow
    the [#], and after six hexadecimal digits it ignores the rest of the
    string. *)
Theorem hex_to_rgb_edges (x : string) :
  (forall e, hex_to_rgb x = Raise e -> e = ValueError) /\
  ((String.length (PyStr.lstrip "#" x) <= 4)%nat ->
   hex_to_rgb x = Raise ValueError) /\
  (forall s t, String.length s = 6%nat -> is_hex s = true ->
     hex_to_rgb (s ++ t) = hex_to_rgb s).
Proof.
  split; [| split].
  - intro e. unfold hex_to_rgb.
    destruct (PyStr.int 16 (String.substring 0 2 (PyStr.lstrip "#" x)))
      as [r |] eqn:Er; cbn [bind];
      [| intro H; inversion H; subst; eapply int_errors; exact Er].
    destruct (PyStr.int 16 (String.substring 2 2 (PyStr.lstrip "#" x)))
      as [g |] eqn:Eg; cbn [bind];
      [| intro H; inversion H; subst; eapply int_errors; exact Eg].
    destruct (PyStr.int 16 (String.substring 4 2 (PyStr.lstrip "#" x)))
      as [b |] eqn:Eb; cbn [bind];
      [discriminate | intro H; inversion H; subst; eapply int_errors; exact Eb].
  - intro Hlen. unfold hex_to_rgb.
    rewrite (substring_short 4 2) by exact Hlen.
    change (PyStr.int 16 "") with (@Raise Z ValueError).
    destruct (PyStr.int 16 (String.substring 0 2 (PyStr.lstrip "#" x)))
      as [r | e] eqn:Er; cbn [bind].
    + destruct (PyStr.int 16 (String.substring 2 2 (PyStr.lstrip "#" x)))
        as [g | e] eqn:Eg; cbn [bind]; [reflexivity |].
      now rewrite (int_errors _ _ _ Eg).
    + now rewrite (int_errors _ _ _ Er).
  - intros s t Hlen Hhex. unfold hex_to_rgb.
    rewrite (lstrip_hex s Hhex).
    assert (Hst : PyStr.lstrip "#" (s ++ t) = s ++ t).
    { destruct s as [| c s]; [discriminate Hlen |].
      cbn [String.append PyStr.lstrip].
      unfold is_hex in Hhex.
      cbn [PyStr.chars list_ascii_of_string forallb] in Hhex.
      apply andb_prop in Hhex.
      now rewrite (hex_digit_not_hash c (proj1 Hhex)). }
    rewrite Hst.
    destruct s as [| c1 [| c2 [| c3 [| c4 [| c5 [| c6 [| c7 s]]]]]]];
      try discriminate Hlen.
    destruct t; reflexivity.
Qed.

Lemma hex_to_rgb_edges_witness :
  (String.length (PyStr.lstrip "#" "#1234") <= 4)%nat /\
  hex_to_rgb "#1234" = Raise ValueError /\
  hex_to_rgb ("FF1122" ++ "33") = hex_to_rgb "FF1122".
Proof.
  split; [cbn; lia |].
  split.
  - apply (proj1 (proj2 (hex_to_rgb_edges "#1234"))). cbn. lia.
  - apply (proj2 (proj2 (hex_to_rgb_edges ""))); reflexivity.
Defined.

(** ** The file system under the calls that change it *)

Lemma dict_set_same {V : Type} (k : string) (v : V) (d : list (string * V)) :
  Dict.get k d = Some v -> Dict.set k v d = d.
Proof.
  induction d as [| [k' v'] d IH]; simpl; [discriminate |].
  destruct (String.eqb_spec k k') as [-> | Hne].
  - intro H. now inversion H.
  - intro H. now rewrite IH.
Qed.

(** Storing into [q] leaves every other file as it was. *)
Lemma store_frame (q : path) (data : content) (mode : option bool) :
  forall (p : path) (n n' : node) (r w : bool) (d : content),
  Path.store q data mode n = Ok n' -> p <> q ->
  Path.lookup p n = Some (File r w d) ->
  Path.lookup p n' = Some (File r w d).
Proof.
  induction q as [| c rest IH]; intros p n n' r w d H Hne Hl;
    destruct n as [r0 w0 d0 | es]; cbn [Path.store] in H; try discriminate.
  destruct p as [| c' prest]; [discriminate Hl |].
  cbn [Path.lookup] in Hl.
  destruct rest as [| c2 rest].
  - destruct (String.eqb_spec c' c) as [-> | Hc].
    + assert (prest <> []) by congruence.
      destruct (Dict.get c es) as [[r1 w1 d1 | es1] |]; try discriminate.
      destruct prest; [contradiction | discriminate Hl].
    + destruct (Dict.get c es) as [[r1 w1 d1 | es1] |]; try discriminate.
      * destruct w1; [| discriminate]. inversion H; subst n'.
        cbn [Path.lookup]. now rewrite dict_get_set_other.
      * inversion H; subst n'.
        cbn [Path.lookup]. now rewrite dict_get_set_other.
  - destruct (Dict.get c es) as [m |] eqn:Em; [| discriminate].
    destruct (Path.store (c2 :: rest) data mode m) as [m' |] eqn:E;
      [| discriminate].
    inversion H; subst n'. cbn [Path.lookup].
    destruct (String.eqb_spec c' c) as [-> | Hc].
    + rewrite dict_get_set_same. rewrite Em in Hl.
      eapply IH; [exact E | congruence | exact Hl].
    + now rewrite dict_get_set_other.
Qed.

(** Creating a directory leaves every file as it was. *)
Lemma mkdir_frame (q : path) :
  forall (p : path) (n n' : node) (r w : bool) (d : content),
  Path.mkdir q n = Ok n' ->
  Path.lookup p n = Some (File r w d) ->
  Path.lookup p n' = Some (File r w d).
Proof.
  induction q as [| c rest IH]; intros p n n' r w d H Hl;
    destruct n as [r0 w0 d0 | es]; cbn [Path.mkdir] in H; try discriminate.
  - now inversion H; subst.
  - destruct p as [| c' prest]; [discriminate Hl |].
    cbn [Path.lookup] in Hl.
    destruct (Dict.get c es) as [m |] eqn:Em.
    + destruct (Path.mkdir rest m) as [m' |] eqn:E; [| discriminate].
      inversion H; subst n'. cbn [Path.lookup].
      destruct (String.eqb_spec c' c) as [-> | Hc].
      * rewrite dict_get_set_same. rewrite Em in Hl.
        eapply IH; [exact E | exact Hl].
      * now rewrite dict_get_set_other.
    + destruct rest; [| discriminate]. inversion H; subst n'.
      cbn [Path.lookup].
      destruct (String.eqb_spec c' c) as [-> | Hc].
      * now rewrite Em in Hl.
      * now rewrite dict_get_set_other.
Qed.

(** Storing over an existing file keeps its mode. *)
Lemma store_over (p : path) (data : content) :
  forall (n n' : node) (r w : bool) (d : content),
  Path.lookup p n = Some (File r w d) ->
  Path.store p data None n = Ok n' ->
  Path.lookup p n' = Some (File r w data).
Proof.
  induction p as [| c rest IH]; intros n n' r w d Hl H;
    destruct n as [r0 w0 d0 | es]; cbn [Path.store] in H; try discriminate.
  cbn [Path.lookup] in Hl.
  destruct rest as [| c2 rest].
  - destruct (Dict.get c es) as [[r1 w1 d1 | es1] |]; try discriminate.
    cbn [Path.lookup] in Hl. inversion Hl; subst.
    destruct w; [| discriminate]. inversion H; subst n'.
    cbn [Path.lookup]. now rewrite dict_get_set_same.
  - destruct (Dict.get c es) as [m |] eqn:Em; [| discriminate].
    destruct (Path.store (c2 :: rest) data None m) as [m' |] eqn:E;
      [| discriminate].
    inversion H; subst n'. cbn [Path.lookup]. rewrite dict_get_set_same.
    eapply IH; [exact Hl | exact E].
Qed.

Lemma store_errors (q : path) (data : content) (mode : option bool) :
  forall (n : node) (e : exn),
  Path.store q data mode n = Raise e -> e = IOError.
Proof.
  induction q as [| c rest IH]; intros n e H;
    destruct n as [r0 w0 d0 | es]; cbn [Path.store] in H;
    try (now inversion H).
  destruct rest as [| c2 rest].
  - destruct (Dict.get c es) as [[r1 [] d1 | es1] |]; now inversion H.
  - destruct (Dict.get c es) as [m |]; [| now inversion H].
    destruct (Path.store (c2 :: rest) data mode m) eqn:E; [discriminate |].
    inversion H; subst. now apply IH with m.
Qed.

Lemma mkdir_errors (q : path) :
  forall (n : node) (e : exn), Path.mkdir q n = Raise e -> e = IOError.
Proof.
  induction q as [| c rest IH]; intros n e H;
    destruct n as [r0 w0 d0 | es]; cbn [Path.mkdir] in H;
    try (now inversion H).
  destruct (Dict.get c es) as [m |].
  - destruct (Path.mkdir rest m) eqn:E; [discriminate |].
    inversion H; subst. now apply IH with m.
  - destruct rest; now inversion H.
Qed.

Lemma path_eqb_eq (p q : path) : Path.eqb p q = true <-> p = q.
Proof.
  unfold Path.eqb. destruct (list_eq_dec string_dec p q); split; auto.
  discriminate.
Qed.

(** What [copy2] does to the world. *)
Lemma copy2_cases (src dst : path) (w : world) :
  let target := if Path.is_dir (root w) dst
                then Path.join dst (Path.name src) else dst in
  let logged := World (root w) (clock w) (calls w ++ [Copy src dst])%list
                      (stderr w) in
  (copy2 src dst w = (Raise IOError, logged)) \/
  (exists wr data n',
     src <> target /\
     Path.read_raw (root w) src = Ok (wr, data) /\
     Path.store target data (Some wr) (root w) = Ok n' /\
     copy2 src dst w
     = (Ok tt, World n' (clock w) (calls w ++ [Copy src dst])%list (stderr w))).
Proof.
  cbv zeta. unfold copy2, bindM, log. cbn [root clock calls stderr].
  destruct (Path.eqb src _) eqn:Eq; [now left |].
  assert (Hne : src <> (if Path.is_dir (root w) dst
                        then Path.join dst (Path.name src) else dst)).
  { intro H. apply path_eqb_eq in H. congruence. }
  unfold Path.read_raw.
  destruct (Path.lookup src (root w)) as [[[] wr data | es] |];
    try (now left).
  unfold change, set_root. cbn [root clock calls stderr].
  destruct (Path.store _ data (Some wr) (root w)) as [n' | e] eqn:Es.
  - right. exists wr, data, n'. repeat split; auto.
  - left. now rewrite (store_errors _ _ _ _ _ Es).
Qed.

(** ** Backups *)

(** A copy stores the data with the mode of its source. *)
Lemma store_mode (q : path) (data : content) (wr : bool) :
  forall n n', Path.store q data (Some wr) n = Ok n' ->
  Path.lookup q n' = Some (File true wr data).
Proof.
  induction q as [| c rest IH]; intros n n' H;
    destruct n as [r w dt | es]; cbn [Path.store] in H; try discriminate.
  destruct rest as [| c' rest].
  - destruct (Dict.get c es) as [[r w dt | es'] |]; try discriminate.
    + destruct w; [| discriminate]. inversion H; subst n'.
      cbn [Path.lookup]. now rewrite dict_get_set_same.
    + inversion H; subst n'.
      cbn [Path.lookup]. now rewrite dict_get_set_same.
  - destruct (Dict.get c es) as [m |]; [| discriminate].
    destruct (Path.store (c' :: rest) data (Some wr) m) as [m' |] eqn:E;
      [| discriminate].
    inversion H; subst n'.
    cbn [Path.lookup]. rewrite dict_get_set_same. now apply IH with m.
Qed.

(** Creating a directory creates no file. *)
Lemma mkdir_frame_rev (q : path) :
  forall (p : path) (n n' : node) (r w : bool) (d : content),
  Path.mkdir q n = Ok n' ->
  Path.lookup p n' = Some (File r w d) ->
  Path.lookup p n = Some (File r w d).
Proof.
  induction q as [| c rest IH]; intros p n n' r w d H Hl;
    destruct n as [r0 w0 d0 | es]; cbn [Path.mkdir] in H; try discriminate.
  - now inversion H; subst.
  - destruct p as [| c' prest];
      [destruct (Dict.get c es) as [m |];
       [destruct (Path.mkdir rest m); [| discriminate]
       | destruct rest; [| discriminate]];
       inversion H; subst; discriminate Hl |].
    destruct (Dict.get c es) as [m |] eqn:Em.
    + destruct (Path.mkdir rest m) as [m' |] eqn:E; [| discriminate].
      inversion H; subst n'. cbn [Path.lookup] in *.
      destruct (String.eqb_spec c' c) as [-> | Hc].
      * rewrite dict_get_set_same in Hl. rewrite Em.
        eapply IH; [exact E | exact Hl].
      * now rewrite dict_get_set_other in Hl.
    + destruct rest; [| discriminate]. inversion H; subst n'.
      cbn [Path.lookup] in *.
      destruct (String.eqb_spec c' c) as [-> | Hc].
      * rewrite dict_get_set_same in Hl. destruct prest; discriminate Hl.
      * now rewrite dict_get_set_other in Hl.
Qed.

Lemma now_result (w : world) :
  now w = (Ok (hd "" (clock w)),
           World (root w) (tl (clock w)) (calls w) (stderr w)).
Proof. unfold now. destruct w as [n [| t c] l s]; reflexivity. Qed.

Lemma mkdir_exist_ok_result (p : path) (w : world) :
  mkdir_exist_ok p w
  = match Path.mkdir p (root w) with
    | Ok n1 => (Ok tt, World n1 (clock w) (calls w ++ [Mkdir p])%list (stderr w))
    | Raise e =>
        (Raise e, World (root w) (clock w) (calls w ++ [Mkdir p])%list (stderr w))
    end.
Proof.
  unfold mkdir_exist_ok, bindM, log, change, set_root.
  cbn [root clock calls stderr].
  destruct (Path.mkdir p (root w)); reflexivity.
Qed.

(** [backup_preferences] in one equation. *)
Lemma backup_result (prefs_path user_data_dir : path) (w : world) :
  backup_preferences prefs_path user_data_dir w
  = let bdir := get_backup_dir user_data_dir in
    let b := backup_path_of prefs_path user_data_dir w in
    match Path.mkdir bdir (root w) with
    | Raise e =>
        (Raise e,
         World (root w) (clock w) (calls w ++ [Mkdir bdir])%list (stderr w))
    | Ok n1 =>
        match copy2 prefs_path b
                (World n1 (tl (clock w)) (calls w ++ [Mkdir bdir])%list
                       (stderr w)) with
        | (Ok _, w3) => (Ok (Some b), w3)
        | (Raise e, w3) => if is_io e then (Ok None, w3) else (Raise e, w3)
        end
    end.
Proof.
  cbv zeta. unfold backup_preferences, backup_path_of, bindM, catchM.
  rewrite mkdir_exist_ok_result.
  destruct (Path.mkdir (get_backup_dir user_data_dir) (root w)) as [n1 | e];
    [| reflexivity].
  rewrite now_result. cbn [root clock calls stderr].
  destruct (copy2 _ _ _) as [[u | e] w3]; reflexivity.
Qed.

(** The three ways [backup_preferences] can end. *)
Lemma backup_cases (prefs_path user_data_dir : path) (w : world) :
  let bdir := get_backup_dir user_data_dir in
  let b := backup_path_of prefs_path user_data_dir w in
  (Path.mkdir bdir (root w) = Raise IOError /\
   backup_preferences prefs_path user_data_dir w
   = (Raise IOError,
      World (root w) (clock w) (calls w ++ [Mkdir bdir])%list (stderr w))) \/
  (exists n1, Path.mkdir bdir (root w) = Ok n1 /\
     backup_preferences prefs_path user_data_dir w
     = (Ok None,
        World n1 (tl (clock w))
              (calls w ++ [Mkdir bdir; Copy prefs_path b])%list (stderr w))) \/
  (exists n1 n2 target wr data,
     Path.mkdir bdir (root w) = Ok n1 /\
     (target = b \/ target = Path.join b (Path.name prefs_path)) /\
     prefs_path <> target /\
     Path.read_raw n1 prefs_path = Ok (wr, data) /\
     Path.store target data (Some wr) n1 = Ok n2 /\
     backup_preferences prefs_path user_data_dir w
     = (Ok (Some b),
        World n2 (tl (clock w))
              (calls w ++ [Mkdir bdir; Copy prefs_path b])%list (stderr w))).
Proof.
  cbv zeta. rewrite backup_result. cbv zeta.
  set (bdir := get_backup_dir user_data_dir).
  set (b := backup_path_of prefs_path user_data_dir w).
  destruct (Path.mkdir bdir (root w)) as [n1 | e] eqn:Em.
  - right.
    set (w2 := World n1 (tl (clock w)) (calls w ++ [Mkdir bdir])%list (stderr w)).
    destruct (copy2_cases prefs_path b w2)
      as [Hc | (wr & data & n2 & Hne & Hr & Hs & Hc)];
      rewrite Hc; unfold w2 in *; cbn [is_io root clock calls stderr] in *.
    + left. exists n1. split; [reflexivity |].
      now rewrite <- app_assoc.
    + right.
      exists n1, n2,
        (if Path.is_dir n1 b then Path.join b (Path.name prefs_path) else b),
        wr, data.
      split; [reflexivity |]. split.
      { destruct (Path.is_dir n1 b); auto. }
      split; [exact Hne |]. split; [exact Hr |]. split; [exact Hs |].
      now rewrite <- app_assoc.
  - left. rewrite (mkdir_errors _ _ _ Em). now split.
Qed.

(** A backup leaves alone every file that is not where the copy goes. *)
Lemma backup_frame_at (prefs_path user_data_dir : path) (w : world)
    (p : path) (r0 w0 : bool) (d : content) :
  let b := backup_path_of prefs_path user_data_dir w in
  Path.lookup p (root w) = Some (File r0 w0 d) ->
  p <> b -> p <> Path.join b (Path.name prefs_path) ->
  Path.lookup p (root (snd (backup_preferences prefs_path user_data_dir w)))
  = Some (File r0 w0 d).
Proof.
  cbv zeta. intros Hl Hb Hb'.
  destruct (backup_cases prefs_path user_data_dir w)
    as [[_ ->] | [(n1 & Hm & ->) | (n1 & n2 & t & wr & data & Hm & Ht & _ & _ & Hs & ->)]];
    cbn [snd root].
  - exact Hl.
  - eapply mkdir_frame; eauto.
  - eapply store_frame; [exact Hs | | eapply mkdir_frame; eauto].
    destruct Ht as [-> | ->]; assumption.
Qed.

Lemma firstn_join (p : path) (c : string) :
  firstn (List.length p) (Path.join p c) = p.
Proof.
  unfold Path.join. rewrite firstn_app, Nat.sub_diag, firstn_all. cbn.
  apply app_nil_r.
Qed.

Lemma firstn_join2 (p : path) (c c' : string) :
  firstn (List.length p) (Path.join (Path.join p c) c') = p.
Proof.
  unfold Path.join. rewrite <- app_assoc, firstn_app, Nat.sub_diag, firstn_all.
  cbn. apply app_nil_r.
Qed.

(** X9.  Whether it succeeds or not, [backup_preferences] changes neither
    the preference file nor any file outside the backup directory. *)
Theorem backup_changes_nothing_else (prefs_path user_data_dir : path)
    (w : world) (p : path) (r0 w0 : bool) (d : content)
    (Hfile : Path.lookup p (root w) = Some (File r0 w0 d))
    (Hwhere : p = prefs_path \/
              firstn (List.length (get_backup_dir user_data_dir)) p
                <> get_backup_dir user_data_dir) :
  Path.lookup p (root (snd (backup_preferences prefs_path user_data_dir w)))
  = Some (File r0 w0 d).
Proof.
  destruct Hwhere as [-> | Hout].
  - destruct (backup_cases prefs_path user_data_dir w)
      as [[_ ->] | [(n1 & Hm & ->) | (n1 & n2 & t & wr & data & Hm & _ & Hne & _ & Hs & ->)]];
      cbn [snd root].
    + exact Hfile.
    + eapply mkdir_frame; eauto.
    + eapply store_frame; [exact Hs | exact Hne | eapply mkdir_frame; eauto].
  - apply backup_frame_at; [exact Hfile | |]; intros ->; apply Hout;
      unfold backup_path_of.
    + apply firstn_join.
    + apply firstn_join2.
Qed.

Lemma backup_changes_nothing_else_witness :
  let w := world_of work_fs in
  Path.lookup (prefs_of "Default") (root w)
    = Some (File true true (Json restricted_doc)) /\
  Path.lookup (prefs_of "Default")
    (root (snd (backup_preferences (prefs_of "Default") data_dir w)))
    = Some (File true true (Json restricted_doc)).
Proof.
  cbv zeta. split; [reflexivity |].
  apply (backup_changes_nothing_else (prefs_of "Default") data_dir
           (world_of work_fs) (prefs_of "Default") true true
           (Json restricted_doc)); [reflexivity | left; reflexivity].
Defined.

(** X10.  When [backup_preferences] returns a path, the path is
    [<data dir>/.color_backups/<folder>_<timestamp>.json], and the
    preference file was copied, contents and mode, to that path, or into
    it under the name [Preferences] if a directory was already there. *)
Theorem backup_holds_the_document (prefs_path user_data_dir : path)
    (w : world) (b : path)
    (Hsome : fst (backup_preferences prefs_path user_data_dir w) = Ok (Some b)) :
  b = backup_path_of prefs_path user_data_dir w /\
  exists target wr data,
    (target = b \/ target = Path.join b (Path.name prefs_path)) /\
    Path.lookup prefs_path (root w) = Some (File true wr data) /\
    Path.lookup target
      (root (snd (backup_preferences prefs_path user_data_dir w)))
    = Some (File true wr data).
Proof.
  destruct (backup_cases prefs_path user_data_dir w)
    as [[_ E] | [(n1 & Hm & E) | (n1 & n2 & t & wr & data & Hm & Ht & _ & Hr & Hs & E)]];
    rewrite E in Hsome |- *; cbn [fst snd root] in *; try discriminate.
  inversion Hsome; subst b. split; [reflexivity |].
  exists t, wr, data. split; [exact Ht |]. split.
  - unfold Path.read_raw in Hr.
    destruct (Path.lookup prefs_path n1) as [[[] w1 d1 | es] |] eqn:El;
      try discriminate.
    inversion Hr; subst. eapply mkdir_frame_rev; eauto.
  - eapply store_mode; eauto.
Qed.

Lemma backup_holds_the_document_witness :
  let w := world_of work_fs in
  let b := ["data"; ".color_backups"; "Default_20250101_120000.json"] in
  fst (backup_preferences (prefs_of "Default") data_dir w) = Ok (Some b) /\
  b = backup_path_of (prefs_of "Default") data_dir w.
Proof.
  cbv zeta. split; [reflexivity |].
  apply (backup_holds_the_document (prefs_of "Default") data_dir
           (world_of work_fs)). reflexivity.
Defined.

(** X11.  [backup_preferences] raises nothing but an I/O error, and only
    when the backup directory cannot be made, in which case the tree is
    unchanged; a copy that fails gives [None] instead. *)
Theorem backup_failure_modes (prefs_path user_data_dir : path) (w : world) :
  let out := backup_preferences prefs_path user_data_dir w in
  let bdir := get_backup_dir user_data_dir in
  (forall e, fst out = Raise e ->
     e = IOError /\ Path.mkdir bdir (root w) = Raise IOError /\
     root (snd out) = root w) /\
  (forall n1, Path.mkdir bdir (root w) = Ok n1 ->
     (fst out = Ok None /\ root (snd out) = n1) \/
     fst out = Ok (Some (backup_path_of prefs_path user_data_dir w))).
Proof.
  cbv zeta.
  destruct (backup_cases prefs_path user_data_dir w)
    as [[Hm E] | [(n1 & Hm & E) | (n1 & n2 & t & wr & data & Hm & _ & _ & _ & _ & E)]];
    rewrite E; cbn [fst snd root calls].
  - split.
    + intros e H. inversion H; subst. auto.
    + intros n1 H. congruence.
  - split.
    + intros e H. discriminate H.
    + intros n H. left. split; [reflexivity | congruence].
  - split.
    + intros e H. discriminate H.
    + intros n H. now right.
Qed.

Lemma backup_failure_modes_witness :
  let w := world_of (Dir [("data", File true true (NotJson "x"))]) in
  let out := backup_preferences (prefs_of "Default") data_dir w in
  fst out = Raise IOError /\
  Path.mkdir (get_backup_dir data_dir) (root w) = Raise IOError /\
  root (snd out) = root w.
Proof.
  cbv zeta. split; [reflexivity |].
  apply (proj1 (backup_failure_modes (prefs_of "Default") data_dir
                  (world_of (Dir [("data", File true true (NotJson "x"))])))
           IOError).
  reflexivity.
Defined.

(** ** Writing a colour and reading it back *)

Lemma read_json_ok (n : node) (p : path) (doc : json) :
  Path.read_json n p = Ok doc <->
  exists wr, Path.lookup p n = Some (File true wr (Json doc)).
Proof.
  unfold Path.read_json. split.
  - destruct (Path.lookup p n) as [[[] wr [d | t | b] | es] |];
      try discriminate. intro H. inversion H. eauto.
  - intros (wr & ->). reflexivity.
Qed.

Lemma write_json_result (p : path) (doc : json) (w : world) :
  write_json p doc w
  = match Path.store p (Json doc) None (root w) with
    | Ok n' =>
        (Ok tt, World n' (clock w) (calls w ++ [Write p])%list (stderr w))
    | Raise e =>
        (Raise e,
         World (root w) (clock w) (calls w ++ [Write p])%list (stderr w))
    end.
Proof.
  unfold write_json, bindM, log, change, set_root.
  cbn [root clock calls stderr].
  destruct (Path.store p (Json doc) None (root w)); reflexivity.
Qed.

(** A call that is not a dry run and returns [True], step by step. *)
Lemma set_theme_color_steps (w w' : world) (prefs_path user_data_dir : path)
    (color_int : Z) (backup : bool) :
  set_theme_color prefs_path color_int user_data_dir false backup w
    = (Ok true, w') ->
  exists prefs doc w3,
    Path.read_json (root w) prefs_path = Ok prefs /\
    mutate_prefs color_int prefs = Ok doc /\
    (if backup
     then exists o, backup_preferences prefs_path user_data_dir w = (Ok o, w3)
     else w3 = w) /\
    Path.store prefs_path (Json doc) None (root w3) = Ok (root w') /\
    calls w' = (calls w3 ++ [Write prefs_path])%list /\
    stderr w' = stderr w3.
Proof.
  intro Hok. apply catchM_ok_true in Hok. unfold set_theme_color_try in Hok.
  apply bindM_ok in Hok. destruct Hok as (prefs & w1 & Hread & Hok).
  apply lift_ok in Hread. destruct Hread as [Hread ->].
  apply bindM_ok in Hok. destruct Hok as (doc & w1 & Hmut & Hok).
  apply lift_ok in Hmut. destruct Hmut as [Hmut ->].
  apply bindM_ok in Hok. destruct Hok as (u & w2 & Hwrite & Hret).
  unfold ret in Hret. inversion Hret; subst w2. clear Hret.
  cbn [negb] in Hwrite.
  apply bindM_ok in Hwrite. destruct Hwrite as (u' & w3 & Hb & Hwrite).
  exists prefs, doc, w3. split; [exact Hread |]. split; [exact Hmut |].
  rewrite write_json_result in Hwrite.
  destruct (Path.store prefs_path (Json doc) None (root w3)) as [n' |] eqn:Es;
    [| discriminate].
  inversion Hwrite; subst w'. cbn [root calls stderr].
  split; [| now repeat split].
  destruct backup.
  - apply bindM_ok in Hb. destruct Hb as (o & w4 & Hb & Hr).
    unfold ret in Hr. inversion Hr; subst w4. now exists o.
  - unfold ret in Hb. now inversion Hb.
Qed.

Lemma set_theme_color_success (w w' : world) (prefs_path user_data_dir : path)
    (color_int : Z) (backup : bool) :
  set_theme_color prefs_path color_int user_data_dir false backup w
    = (Ok true, w') ->
  exists prefs doc wr,
    Path.lookup prefs_path (root w) = Some (File true wr (Json prefs)) /\
    mutate_prefs color_int prefs = Ok doc /\
    Path.lookup prefs_path (root w') = Some (File true wr (Json doc)) /\
    calls w'
    = (calls w
       ++ (if backup
           then [Mkdir (get_backup_dir user_data_dir);
                 Copy prefs_path (backup_path_of prefs_path user_data_dir w)]
           else [])
       ++ [Write prefs_path])%list /\
    stderr w' = stderr w.
Proof.
  intro Hok.
  destruct (set_theme_color_steps _ _ _ _ _ _ Hok)
    as (prefs & doc & w3 & Hread & Hmut & Hb & Hs & Hcalls & Herr).
  apply read_json_ok in Hread. destruct Hread as (wr & Hl).
  exists prefs, doc, wr. split; [exact Hl |]. split; [exact Hmut |].
  assert (H3 : Path.lookup prefs_path (root w3) = Some (File true wr (Json prefs)) /\
               calls w3
               = (calls w ++
                  (if backup
                   then [Mkdir (get_backup_dir user_data_dir);
                         Copy prefs_path
                           (backup_path_of prefs_path user_data_dir w)]
                   else []))%list /\
               stderr w3 = stderr w).
  { destruct backup.
    - destruct Hb as (o & Hb).
      destruct (backup_cases prefs_path user_data_dir w)
        as [[_ E] | [(n1 & Hm & E)
                    | (n1 & n2 & t & wr' & data & Hm & _ & Hne & _ & Hst & E)]];
        rewrite E in Hb; inversion Hb; subst; cbn [root calls stderr].
      + repeat split. eapply mkdir_frame; eauto.
      + repeat split.
        eapply store_frame; [exact Hst | exact Hne | eapply mkdir_frame; eauto].
    - subst w3. rewrite app_nil_r. now repeat split. }
  destruct H3 as (Hl3 & Hc3 & He3).
  split; [eapply store_over; eauto |].
  split; [| congruence].
  rewrite Hcalls, Hc3. now rewrite <- app_assoc.
Qed.

Lemma field3_py_get (a b c : string) (doc v dflt : json) :
  field [a; b; c] doc = Some v ->
  bind (py_get doc a (JDict [])) (fun x =>
  bind (py_get x b (JDict [])) (fun y => py_get y c dflt)) = Ok v.
Proof.
  cbn [field]. destruct doc as [| | | | | | d]; try discriminate.
  cbn [py_get]. destruct (Dict.get a d) as [x |]; [| discriminate].
  cbn [bind]. destruct x as [| | | | | | dx]; try discriminate.
  cbn [py_get]. destruct (Dict.get b dx) as [y |]; [| discriminate].
  cbn [bind]. destruct y as [| | | | | | dy]; try discriminate.
  cbn [py_get]. destruct (Dict.get c dy) as [z |]; [| discriminate].
  congruence.
Qed.

(** X12.  After a call of [set_theme_color] that is not a dry run and
    returns [True], the readers see the change: [get_theme_id] returns
    ["autogenerated_theme_id"], which the listing shows as the custom
    status, and [get_current_color] returns the colour that was set. *)
Theorem written_colour_is_read_back (w w' : world)
    (prefs_path user_data_dir : path) (color_int : Z) (backup : bool)
    (Hok : set_theme_color prefs_path color_int user_data_dir false backup w
           = (Ok true, w')) :
  get_theme_id (root w') prefs_path = Ok (JStr "autogenerated_theme_id") /\
  theme_status (JStr "autogenerated_theme_id") = Custom /\
  get_current_color (root w') prefs_path
    = Ok (Some (signed_int_to_hex color_int)).
Proof.
  destruct (set_theme_color_success _ _ _ _ _ _ Hok)
    as (prefs & doc & wr & _ & Hmut & Hl & _).
  destruct (mutate_prefs_fields _ _ _ Hmut) as [Hid Hcolor].
  assert (Hread : Path.read_json (root w') prefs_path = Ok doc)
    by (apply read_json_ok; eauto).
  split; [| split; [reflexivity |]].
  - unfold get_theme_id. rewrite Hread. cbn [bind].
    now rewrite (field3_py_get _ _ _ _ _ (JStr "") Hid).
  - unfold get_current_color. rewrite Hread. cbn [bind].
    apply (field3_py_get _ _ _ _ _ JNull) in Hcolor.
    apply bind_ok in Hcolor. destruct Hcolor as (x & Hx & Hcolor).
    apply bind_ok in Hcolor. destruct Hcolor as (y & Hy & Hz).
    rewrite Hx. cbn [bind]. rewrite Hy. cbn [bind]. rewrite Hz.
    reflexivity.
Qed.

Lemma written_colour_is_read_back_witness :
  let out := set_theme_color (prefs_of "Default") (-43776) data_dir false true
               (world_of work_fs) in
  out = (Ok true, snd out) /\
  get_theme_id (root (snd out)) (prefs_of "Default")
    = Ok (JStr "autogenerated_theme_id") /\
  theme_status (JStr "autogenerated_theme_id") = Custom /\
  get_current_color (root (snd out)) (prefs_of "Default")
    = Ok (Some (signed_int_to_hex (-43776))).
Proof.
  cbv zeta. split; [reflexivity |].
  apply (written_colour_is_read_back (world_of work_fs) _ (prefs_of "Default")
           data_dir (-43776) true).
  reflexivity.
Defined.

(** X13.  From the command line to the listing: when a valid colour
    string is converted and applied, [get_current_color] afterwards shows
    that string in upper case with a leading [#]. *)
Theorem applied_colour_is_listed (w w' : world)
    (prefs_path user_data_dir : path) (x : string) (n : Z) (backup : bool)
    (Hvalid : valid_color x = true)
    (Hint : hex_to_signed_int x = Ok n)
    (Hok : set_theme_color prefs_path n user_data_dir false backup w
           = (Ok true, w')) :
  get_current_color (root w') prefs_path = Ok (Some (normalize_color x)).
Proof.
  destruct (set_theme_color_success _ _ _ _ _ _ Hok)
    as (prefs & doc & wr & _ & Hmut & Hl & _).
  destruct (mutate_prefs_fields _ _ _ Hmut) as [_ Hcolor].
  assert (Hread : Path.read_json (root w') prefs_path = Ok doc)
    by (apply read_json_ok; eauto).
  assert (Hback : signed_int_to_hex n = normalize_color x).
  { destruct (valid_color_strip x Hvalid) as (Hlen & Hhex & Hstrip).
    rewrite (hex_to_signed_int_six _ x Hlen Hhex Hstrip) in Hint.
    inversion Hint; subst n. clear Hint.
    rewrite signed_int_to_hex_digits. unfold normalize_color. f_equal.
    destruct (fold_hex_bounds (PyStr.chars (strip_hash x)) 0 Hhex) as [_ B].
    rewrite chars_length, Hlen in B.
    change (16 ^ Z.of_nat 6)%Z with 16777216%Z in B.
    replace ((fold_left hex_step (PyStr.chars (strip_hash x)) 0 - 16777216)
               mod 16777216)%Z
      with (fold_left hex_step (PyStr.chars (strip_hash x)) 0%Z)
      by (apply Z.mod_unique with (-1)%Z; lia).
    rewrite <- (chars_length (strip_hash x)) in Hlen. rewrite <- Hlen.
    rewrite low_digits_fold by exact Hhex. apply str_map_upper. }
  unfold get_current_color. rewrite Hread. cbn [bind].
  apply (field3_py_get _ _ _ _ _ JNull) in Hcolor.
  apply bind_ok in Hcolor. destruct Hcolor as (a & Ha & Hcolor).
  apply bind_ok in Hcolor. destruct Hcolor as (t & Ht & Hc).
  rewrite Ha. cbn [bind]. rewrite Ht. cbn [bind]. rewrite Hc.
  cbn [bind signed_int_to_hex_of catch]. now rewrite Hback.
Qed.

Lemma applied_colour_is_listed_witness :
  let out := set_theme_color (prefs_of "Default") (-43776) data_dir false true
               (world_of work_fs) in
  valid_color "ff5500" = true /\
  hex_to_signed_int "ff5500" = Ok (-43776)%Z /\
  get_current_color (root (snd out)) (prefs_of "Default")
    = Ok (Some (normalize_color "ff5500")).
Proof.
  cbv zeta. split; [reflexivity |]. split; [reflexivity |].
  apply (applied_colour_is_listed (world_of work_fs) _ (prefs_of "Default")
           data_dir "ff5500" (-43776) true); reflexivity.
Defined.

(** X14.  In a call with [backup] that is not a dry run and returns
    [True], the tree is changed by three calls in this order: the backup
    directory is made, the preference file is copied, the preference file
    is written; nothing goes to the error stream.  So when the copy
    succeeded, the backup holds the document as it was before the change. *)
Theorem backup_comes_before_write (w w' : world)
    (prefs_path user_data_dir : path) (color_int : Z)
    (Hok : set_theme_color prefs_path color_int user_data_dir false true w
           = (Ok true, w')) :
  let b := backup_path_of prefs_path user_data_dir w in
  calls w'
  = (calls w ++ [Mkdir (get_backup_dir user_data_dir); Copy prefs_path b;
                 Write prefs_path])%list /\
  stderr w' = stderr w /\
  (fst (backup_preferences prefs_path user_data_dir w) = Ok (Some b) ->
   exists prior target,
     Path.read_json (root w) prefs_path = Ok prior /\
     (target = b \/ target = Path.join b (Path.name prefs_path)) /\
     Path.read_json (root w') target = Ok prior).
Proof.
  cbv zeta.
  destruct (set_theme_color_success _ _ _ _ _ _ Hok)
    as (_ & _ & _ & _ & _ & _ & Hcalls & Herr).
  split; [exact Hcalls |]. split; [exact Herr |].
  intro Hsome.
  destruct (set_theme_color_steps _ _ _ _ _ _ Hok)
    as (prior & doc & w3 & Hread & _ & (o & Hb) & Hs & _).
  destruct (backup_cases prefs_path user_data_dir w)
    as [[_ E] | [(n1 & Hm & E)
                | (n1 & n2 & t & wr & data & Hm & Ht & Hne & Hr & Hst & E)]];
    rewrite E in Hb, Hsome; cbn [fst] in Hsome; try discriminate.
  inversion Hb; subst o w3. cbn [root] in Hs.
  exists prior, t. split; [exact Hread |]. split; [exact Ht |].
  assert (Hdata : data = Json prior).
  { unfold Path.read_raw in Hr.
    destruct (Path.lookup prefs_path n1) as [[[] w1 d1 | es] |] eqn:El;
      try discriminate.
    inversion Hr; subst.
    apply (mkdir_frame_rev _ _ _ _ _ _ _ Hm) in El.
    apply read_json_ok in Hread. destruct Hread as (wr0 & Hl).
    congruence. }
  subst data. apply read_json_ok. exists wr.
  eapply store_frame; [exact Hs | congruence | eapply store_mode; eauto].
Qed.

Lemma backup_comes_before_write_witness :
  let w := world_of work_fs in
  let out := set_theme_color (prefs_of "Default") 7 data_dir false true w in
  let b := ["data"; ".color_backups"; "Default_20250101_120000.json"] in
  out = (Ok true, snd out) /\
  calls (snd out)
    = [Mkdir ["data"; ".color_backups"]; Copy (prefs_of "Default") b;
       Write (prefs_of "Default")] /\
  Path.read_json (root (snd out)) b = Ok restricted_doc.
Proof.
  cbv zeta. split; [reflexivity |].
  destruct (backup_comes_before_write (world_of work_fs) _ (prefs_of "Default")
              data_dir 7 eq_refl) as (Hc & _ & Hb).
  split; [exact Hc |]. reflexivity.
Defined.

(** ** What the mutation leaves alone *)

Lemma dict_set_set {V : Type} (k : string) (v v0 : V) (d : list (string * V)) :
  Dict.set k v (Dict.set k v0 d) = Dict.set k v d.
Proof.
  induction d as [| [k' v'] d IH]; simpl.
  - now rewrite String.eqb_refl.
  - destruct (String.eqb k k') eqn:E; simpl.
    + now rewrite String.eqb_refl.
    + now rewrite E, IH.
Qed.

(** [set_nested] on the documents it accepts, in closed form. *)
Lemma set_nested_formula (outer inner leaf : string) (x : json)
    (d : list (string * json)) :
  nested_objects outer inner (JDict d) = true ->
  set_nested outer inner leaf x (JDict d)
  = Ok (JDict (Dict.set outer
                 (JDict (Dict.set inner
                           (JDict (Dict.set leaf x
                                     (object_at inner (object_at outer d))))
                           (object_at outer d)))
                 d)).
Proof.
  unfold nested_objects, set_nested, ensure_key, object_at.
  cbn [py_in bind]. unfold Dict.mem.
  destruct (Dict.get outer d) as [o |] eqn:Eo;
    cbn [negb bind py_getitem py_setitem].
  - rewrite Eo. cbn [bind].
    destruct o as [| b | n | f | s | l | d']; try discriminate.
    cbn [py_in bind]. unfold Dict.mem.
    destruct (Dict.get inner d') as [i |] eqn:Ei;
      cbn [negb bind py_getitem py_setitem].
    + rewrite Ei. cbn [bind].
      destruct i; try discriminate. reflexivity.
    + intros _. rewrite dict_get_set_same. cbn [bind py_setitem].
      now rewrite dict_set_set.
  - intros _. rewrite dict_get_set_same. cbn [bind py_in Dict.mem Dict.get].
    cbn [negb py_setitem bind py_getitem Dict.set Dict.get].
    destruct (String.eqb_spec inner inner) as [_ | Hne]; [| contradiction].
    cbn [bind py_setitem Dict.set]. now rewrite dict_set_set.
Qed.

Lemma set_nested_accepts (outer inner leaf : string) (x prefs prefs' : json) :
  set_nested outer inner leaf x prefs = Ok prefs' ->
  exists d, prefs = JDict d /\ nested_objects outer inner (JDict d) = true.
Proof.
  intro H. pose proof (set_nested_total outer inner leaf x prefs) as T.
  destruct (nested_objects outer inner prefs) eqn:E; [| congruence].
  destruct prefs; try discriminate E. eauto.
Qed.

(** The three levels at which [set_nested] changes nothing. *)
Lemma set_nested_frame (outer inner leaf : string) (x prefs prefs' : json) :
  set_nested outer inner leaf x prefs = Ok prefs' ->
  (forall k rest, k <> outer ->
     field (k :: rest) prefs' = field (k :: rest) prefs) /\
  (forall k rest, k <> inner ->
     field (outer :: k :: rest) prefs' = field (outer :: k :: rest) prefs) /\
  (forall k rest, k <> leaf ->
     field (outer :: inner :: k :: rest) prefs'
     = field (outer :: inner :: k :: rest) prefs).
Proof.
  intro H. destruct (set_nested_accepts _ _ _ _ _ _ H) as (d & -> & Hn).
  rewrite (set_nested_formula _ _ leaf x _ Hn) in H. inversion H; subst prefs'.
  clear H. unfold nested_objects, object_at in *.
  split; [| split]; intros k rest Hk; cbn [field].
  - now rewrite dict_get_set_other.
  - rewrite dict_get_set_same.
    destruct (Dict.get outer d) as [[| | | | | | d'] |]; try discriminate;
      now rewrite dict_get_set_other.
  - rewrite !dict_get_set_same.
    destruct (Dict.get outer d) as [[| | | | | | d'] |]; try discriminate.
    + destruct (Dict.get inner d') as [[| | | | | | di] |]; try discriminate;
        now rewrite dict_get_set_other.
    + now rewrite dict_get_set_other.
Qed.

(** X15.  [mutate_prefs] changes the colour and the theme identifier and
    nothing else: every other setting of the document, at the top level,
    next to [theme] under [autogenerated] or [extensions], and next to
    [color] or [id] inside [theme], reads as before. *)
Theorem mutation_touches_nothing_else (color_int : Z) (prefs doc : json)
    (Hmut : mutate_prefs color_int prefs = Ok doc) :
  (forall k rest, k <> "autogenerated" -> k <> "extensions" ->
     field (k :: rest) doc = field (k :: rest) prefs) /\
  (forall outer k rest, outer = "autogenerated" \/ outer = "extensions" ->
     k <> "theme" ->
     field (outer :: k :: rest) doc = field (outer :: k :: rest) prefs) /\
  (forall k rest, k <> "color" ->
     field ("autogenerated" :: "theme" :: k :: rest) doc
     = field ("autogenerated" :: "theme" :: k :: rest) prefs) /\
  (forall k rest, k <> "id" ->
     field ("extensions" :: "theme" :: k :: rest) doc
     = field ("extensions" :: "theme" :: k :: rest) prefs).
Proof.
  unfold mutate_prefs in Hmut.
  apply bind_ok in Hmut. destruct Hmut as (p1 & H1 & H2).
  destruct (set_nested_frame _ _ _ _ _ _ H1) as (A1 & A2 & A3).
  destruct (set_nested_frame _ _ _ _ _ _ H2) as (B1 & B2 & B3).
  split; [| split; [| split]].
  - intros k rest Ha He. rewrite B1 by exact He. now apply A1.
  - intros outer k rest [-> | ->] Hk.
    + rewrite B1 by discriminate. now apply A2.
    + rewrite B2 by exact Hk. apply A1. discriminate.
  - intros k rest Hk. rewrite B1 by discriminate. now apply A3.
  - intros k rest Hk. rewrite B3 by exact Hk. apply A1. discriminate.
Qed.

Lemma mutation_touches_nothing_else_witness :
  exists doc, mutate_prefs 7 restricted_doc = Ok doc /\
    field ["profile"; "name"] doc = field ["profile"; "name"] restricted_doc.
Proof.
  eexists. split; [reflexivity |].
  apply (proj1 (mutation_touches_nothing_else 7 restricted_doc _ eq_refl));
    discriminate.
Defined.

Lemma set_nested_fixed (outer inner leaf : string) (x prefs : json) :
  field [outer; inner; leaf] prefs = Some x ->
  set_nested outer inner leaf x prefs = Ok prefs.
Proof.
  cbn [field]. destruct prefs as [| | | | | | d]; try discriminate.
  destruct (Dict.get outer d) as [[| | | | | | d'] |] eqn:Eo; try discriminate.
  destruct (Dict.get inner d') as [[| | | | | | di] |] eqn:Ei; try discriminate.
  destruct (Dict.get leaf di) as [y |] eqn:El; [| discriminate].
  intro H. inversion H; subst y.
  rewrite set_nested_formula
    by (unfold nested_objects; now rewrite Eo, Ei).
  unfold object_at. rewrite Eo, Ei.
  now rewrite (dict_set_same _ _ _ El), (dict_set_same _ _ _ Ei),
    (dict_set_same _ _ _ Eo).
Qed.

(** X16.  Setting the same colour again changes nothing: [mutate_prefs]
    maps a document it produced to itself, so a second successful call of
    [set_theme_color] with that colour leaves in the preference file the
    document the first one wrote. *)
Theorem same_colour_twice (color_int : Z) (prefs doc : json)
    (Hmut : mutate_prefs color_int prefs = Ok doc) :
  mutate_prefs color_int doc = Ok doc /\
  forall (w w' w'' : world) (prefs_path user_data_dir : path) (b b' : bool),
    Path.read_json (root w) prefs_path = Ok prefs ->
    set_theme_color prefs_path color_int user_data_dir false b w
      = (Ok true, w') ->
    set_theme_color prefs_path color_int user_data_dir false b' w'
      = (Ok true, w'') ->
    Path.read_json (root w') prefs_path = Ok doc /\
    Path.read_json (root w'') prefs_path = Ok doc.
Proof.
  assert (Hfix : forall d, mutate_prefs color_int prefs = Ok d ->
                           mutate_prefs color_int d = Ok d).
  { intros d Hd. destruct (mutate_prefs_fields _ _ _ Hd) as [Hid Hcolor].
    unfold mutate_prefs.
    rewrite (set_nested_fixed _ _ _ _ _ Hcolor). cbn [bind].
    now apply set_nested_fixed. }
  split; [now apply Hfix |].
  intros w w' w'' p udd b b' Hread H1 H2.
  destruct (set_theme_color_success _ _ _ _ _ _ H1)
    as (prefs1 & doc1 & wr & Hl & Hm1 & Hl' & _).
  assert (prefs1 = prefs).
  { apply read_json_ok in Hread. destruct Hread as (wr0 & Hread). congruence. }
  subst prefs1. assert (doc1 = doc) by congruence. subst doc1.
  split; [apply read_json_ok; eauto |].
  destruct (set_theme_color_success _ _ _ _ _ _ H2)
    as (prefs2 & doc2 & wr2 & Hl2 & Hm2 & Hl2' & _).
  assert (prefs2 = doc) by congruence. subst prefs2.
  rewrite (Hfix doc Hmut) in Hm2. inversion Hm2; subst doc2.
  apply read_json_ok. eauto.
Qed.

Lemma same_colour_twice_witness :
  exists doc, mutate_prefs 7 restricted_doc = Ok doc /\
              mutate_prefs 7 doc = Ok doc.
Proof.
  eexists. split; [reflexivity |].
  apply (proj1 (same_colour_twice 7 restricted_doc _ eq_refl)).
Defined.

(** ** The update loop *)

(** One dry run changes neither the tree, nor the calls, nor the clock. *)
Lemma dry_run_frame (w : world) (prefs_path user_data_dir : path)
    (color_int : Z) (backup : bool) :
  let out := set_theme_color prefs_path color_int user_data_dir true backup w in
  root (snd out) = root w /\ calls (snd out) = calls w /\
  clock (snd out) = clock w.
Proof.
  cbv zeta. rewrite dry_run_result.
  destruct (Path.read_json (root w) prefs_path) as [prefs | e].
  - destruct (mutate_prefs color_int prefs) as [doc | e]; [now repeat split |].
    destruct (decode_or_io e); now repeat split.
  - destruct (decode_or_io e); now repeat split.
Qed.

Lemma dry_loop_frame (profile_names : list (string * json))
    (profiles : list (string * path)) (color_int : Z) (user_data_dir : path)
    (do_backup : bool) :
  forall (count : Z) (w : world),
  let out := update_loop profile_names profiles color_int user_data_dir
               true do_backup count w in
  root (snd out) = root w /\ calls (snd out) = calls w /\
  clock (snd out) = clock w /\
  forall total, fst out = Ok total ->
    (count <= total <= count + Z.of_nat (List.length profiles))%Z.
Proof.
  induction profiles as [| [folder p] rest IH]; intros count w; cbv zeta.
  - cbn [update_loop ret fst snd List.length]. repeat split; auto;
      inversion H; lia.
  - remember (update_loop profile_names ((folder, p) :: rest) color_int
                user_data_dir true do_backup count w) as out eqn:E.
    cbn [update_loop] in E. unfold bindM at 1, lift at 1 in E.
    destruct (display_name_of (root w) profile_names folder
                (Path.join p "Preferences")) as [dn | e];
      [| subst out; cbn [fst snd]; repeat split; auto; congruence].
    unfold bindM at 1, lift at 1 in E.
    destruct (get_current_color (root w) (Path.join p "Preferences"))
      as [cur | e];
      [| subst out; cbn [fst snd]; repeat split; auto; congruence].
    unfold bindM at 1 in E.
    pose proof (dry_run_frame w (Path.join p "Preferences") user_data_dir
                  color_int do_backup) as F. cbv zeta in F.
    destruct (set_theme_color (Path.join p "Preferences") color_int
                user_data_dir true do_backup w) as [[ok | e] w1];
      cbn [fst snd] in F; destruct F as (Fr & Fc & Fk).
    + specialize (IH (if ok then count + 1 else count)%Z w1). cbv zeta in IH.
      rewrite <- E in IH. destruct IH as (Ir & Ic & Ik & It).
      rewrite Ir, Ic, Ik. split; [exact Fr |]. split; [exact Fc |].
      split; [exact Fk |]. intros total H. apply It in H.
      destruct ok; cbn [List.length]; lia.
    + subst out. cbn [fst snd]. repeat split; auto; congruence.
Qed.

(** X17.  With [--dry-run] the whole update loop of [main] writes nothing:
    whatever the profiles hold, and even if the loop stops on an
    exception, the tree is unchanged, no call that changes it was made and
    no backup was taken; the count it returns is at most the number of
    profiles. *)
Theorem dry_run_loop_writes_nothing (profiles : list (string * path))
    (color_int : Z) (user_data_dir : path) (no_backup : bool) (w : world) :
  let out := update_profiles profiles color_int user_data_dir true no_backup w in
  root (snd out) = root w /\ calls (snd out) = calls w /\
  forall total, fst out = Ok total ->
    (0 <= total <= Z.of_nat (List.length profiles))%Z.
Proof.
  cbv zeta.
  remember (update_profiles profiles color_int user_data_dir true no_backup w)
    as out eqn:E.
  unfold update_profiles in E. unfold bindM at 1, lift at 1 in E.
  destruct (load_profile_names_from_local_state (root w) user_data_dir)
    as [names | e]; [| subst out; cbn [fst snd]; repeat split; congruence].
  destruct (dry_loop_frame names profiles color_int user_data_dir
              (negb no_backup && negb true) 0 w) as (Hr & Hc & _ & Ht).
  rewrite <- E in Hr, Hc, Ht.
  split; [exact Hr |]. split; [exact Hc |].
  intros total H. apply Ht in H. lia.
Qed.

Lemma dry_run_loop_writes_nothing_witness :
  let out := update_profiles [("Default", ["data"; "Default"])] 7 data_dir
               true false (world_of work_fs) in
  fst out = Ok 1%Z /\ (0 <= 1 <= Z.of_nat 1)%Z.
Proof.
  cbv zeta. split; [reflexivity |].
  apply (proj2 (proj2 (dry_run_loop_writes_nothing
                         [("Default", ["data"; "Default"])] 7 data_dir
                         false (world_of work_fs)))).
  reflexivity.
Defined.



(** ** Which folders are profiles *)

Lemma collect_profiles_in (fs : node) (user_data_dir : path)
    (entries : list string) (name : string) (p : path) :
  In (name, p) (collect_profiles fs user_data_dir entries) <->
  In name entries /\ p = Path.join user_data_dir name /\
  Path.is_dir fs p = true /\
  Path.exists_ fs (Path.join p "Preferences") = true /\
  is_system name = false.
Proof.
  induction entries as [| n rest IH]; cbn [collect_profiles In].
  - tauto.
  - destruct (Path.is_dir fs (Path.join user_data_dir n)) eqn:Ed;
      cbn [negb].
    + destruct (Path.exists_ fs
                  (Path.join (Path.join user_data_dir n) "Preferences")) eqn:Ee.
      * destruct (is_system n) eqn:Es.
        -- rewrite IH. split.
           ++ intros (Hin & Hp). split; [now right | exact Hp].
           ++ intros ([-> | Hin] & Hp & Hd & He & Hs); [congruence |].
              split; [exact Hin |]. split; [exact Hp |]. tauto.
        -- cbn [In]. rewrite IH. split.
           ++ intros [H | (Hin & Hp)].
              ** inversion H; subst. repeat split; auto.
              ** split; [now right | exact Hp].
           ++ intros ([-> | Hin] & Hp & Hr).
              ** left. now rewrite Hp.
              ** right. split; [exact Hin |]. split; [exact Hp | exact Hr].
      * rewrite IH. split.
        -- intros (Hin & Hp). split; [now right | exact Hp].
        -- intros ([-> | Hin] & Hp & Hd & He & Hs).
           ++ rewrite Hp in He. congruence.
           ++ split; [exact Hin |]. split; [exact Hp |]. tauto.
    + rewrite IH. split.
      * intros (Hin & Hp). split; [now right | exact Hp].
      * intros ([-> | Hin] & Hp & Hd & He & Hs).
        -- rewrite Hp in Hd. congruence.
        -- split; [exact Hin |]. split; [exact Hp |]. tauto.
Qed.

(** X19.  When [get_profile_dirs] returns, it lists a folder exactly when
    it is an entry of the data directory that is a directory, holds an
    entry named [Preferences], and is named neither [System Profile] nor
    [Guest Profile]; the path listed with it is the entry's.  When the data
    directory is missing or is not a directory, the call raises
    [IOError]. *)
Theorem profile_dirs_membership (fs : node) (user_data_dir : path) :
  (forall profiles, get_profile_dirs fs user_data_dir = Ok profiles ->
     forall name p,
       In (name, p) profiles <->
       (exists es, Path.lookup user_data_dir fs = Some (Dir es) /\
                   In name (map fst es)) /\
       p = Path.join user_data_dir name /\
       Path.is_dir fs p = true /\
       Path.exists_ fs (Path.join p "Preferences") = true /\
       name <> "System Profile" /\ name <> "Guest Profile") /\
  (Path.is_dir fs user_data_dir = false ->
   get_profile_dirs fs user_data_dir = Raise IOError).
Proof.
  unfold get_profile_dirs, Path.iterdir, Path.is_dir.
  destruct (Path.lookup user_data_dir fs) as [[r w data | es] |];
    cbn [bind].
  - split; [discriminate | reflexivity].
  - split; [| discriminate].
    intros profiles H name p. inversion H; subst profiles; clear H.
    assert (Hsys : is_system name = false <->
                   name <> "System Profile" /\ name <> "Guest Profile").
    { unfold is_system.
      destruct (String.eqb_spec name "System Profile") as [-> | H1];
        [cbn; split; [discriminate | tauto] |].
      destruct (String.eqb_spec name "Guest Profile") as [-> | H2];
        [cbn; split; [discriminate | tauto] |].
      cbn. tauto. }
    split.
    + intro Hin.
      apply (Permutation_in _ (sorted_perm _ _)) in Hin.
      apply collect_profiles_in in Hin.
      destruct Hin as (Hin & Hp & Hd & He & Hs).
      apply Hsys in Hs. split; [eauto |]. tauto.
    + intros ((es' & Hes & Hin) & Hp & Hd & He & Hs).
      inversion Hes; subst es'.
      apply (Permutation_in _ (Permutation_sym (sorted_perm _ _))).
      apply collect_profiles_in. rewrite Hsys. tauto.
  - split; [discriminate | reflexivity].
Qed.

Lemma profile_dirs_membership_witness :
  In ("Default", ["data"; "Default"])
     [("Default", ["data"; "Default"]); ("Profile 2", ["data"; "Profile 2"]);
      ("Profile 10", ["data"; "Profile 10"]); ("Zeta", ["data"; "Zeta"])] /\
  Path.exists_ four_fs ["data"; "Default"; "Preferences"] = true.
Proof.
  assert (H : In ("Default", ["data"; "Default"])
     [("Default", ["data"; "Default"]); ("Profile 2", ["data"; "Profile 2"]);
      ("Profile 10", ["data"; "Profile 10"]); ("Zeta", ["data"; "Zeta"])])
    by (left; reflexivity).
  split; [exact H |].
  apply (proj1 (proj1 (profile_dirs_membership four_fs data_dir) _ eq_refl
                  "Default" ["data"; "Default"])) in H.
  destruct H as (_ & Hp & _ & He & _). rewrite Hp in He. exact He.
Defined.

(** ** The names in the index *)

Lemma dict_set_fresh {V : Type} (k : string) (v : V) (d : list (string * V)) :
  ~ In k (map fst d) -> Dict.set k v d = (d ++ [(k, v)])%list.
Proof.
  induction d as [| [k0 v0] d IH]; cbn [Dict.set map fst In app];
    [reflexivity |].
  intro Hn. destruct (String.eqb_spec k k0) as [-> | Hne].
  - exfalso. apply Hn. now left.
  - rewrite IH; [reflexivity |]. intro H. apply Hn. now right.
Qed.

Lemma names_of_items_distinct (items : list (string * json)) :
  forall acc,
  NoDup (map fst acc ++ map fst items)%list ->
  (forall folder info, In (folder, info) items -> exists d, info = JDict d) ->
  exists entries,
    names_of_items items acc = Ok (acc ++ entries)%list /\
    Forall2 (fun item entry =>
               fst entry = fst item /\
               py_get (snd item) "name" (JStr "") = Ok (snd entry))
            items entries.
Proof.
  induction items as [| [folder info] items IH]; intros acc Hnd Hobj.
  - exists []. rewrite app_nil_r. split; [reflexivity | constructor].
  - cbn [names_of_items].
    destruct (Hobj folder info (or_introl eq_refl)) as (d & ->).
    assert (Hv : exists v, py_get (JDict d) "name" (JStr "") = Ok v)
      by (cbn [py_get]; destruct (Dict.get "name" d); eauto).
    destruct Hv as (v & Hv). rewrite Hv. cbn [bind].
    assert (Hfresh : ~ In folder (map fst acc)).
    { intro Hin. cbn [map fst] in Hnd.
      apply NoDup_remove_2 in Hnd. apply Hnd.
      apply in_or_app. now left. }
    rewrite (dict_set_fresh _ _ _ Hfresh).
    destruct (IH (acc ++ [(folder, v)])%list) as (entries & Hr & Hf).
    + rewrite map_app. cbn [map fst]. rewrite <- app_assoc. exact Hnd.
    + intros f i Hin. apply (Hobj f i). now right.
    + exists ((folder, v) :: entries). rewrite Hr, <- app_assoc.
      split; [reflexivity |]. constructor; [now split | exact Hf].
Qed.

(** X20.  When the index file holds an object whose [profile.info_cache]
    is an object of objects, [load_profile_names_from_local_state] returns
    one entry per folder of the cache, in the order of the cache: the
    folder with the value of its [name], or the empty string when the entry
    has no [name]. *)
Theorem index_names_follow_cache (fs : node) (user_data_dir : path)
    (state profile items : list (string * json))
    (Hread : Path.read_json fs (Path.join user_data_dir "Local State")
             = Ok (JDict state))
    (Hprofile : Dict.get "profile" state = Some (JDict profile))
    (Hcache : Dict.get "info_cache" profile = Some (JDict items))
    (Hkeys : NoDup (map fst items))
    (Hobj : forall folder info, In (folder, info) items ->
                                exists d, info = JDict d) :
  exists names,
    load_profile_names_from_local_state fs user_data_dir = Ok names /\
    map fst names = map fst items /\
    forall folder d, In (folder, JDict d) items ->
      Dict.get folder names
      = Some (match Dict.get "name" d with
              | Some v => v
              | None => JStr ""
              end).
Proof.
  destruct (names_of_items_distinct items [] Hkeys Hobj) as (names & Hn & Hf).
  cbn [app] in Hn.
  exists names. split; [| split].
  - unfold load_profile_names_from_local_state. rewrite Hread.
    cbn [bind py_get]. rewrite Hprofile. cbn [bind py_get]. rewrite Hcache.
    cbn [bind py_items]. rewrite Hn. reflexivity.
  - clear Hn Hkeys Hobj Hcache. induction Hf as [| i e its ents (Hk & _) _ IH];
      cbn [map]; [reflexivity | rewrite Hk, IH; reflexivity].
  - clear Hn Hobj Hcache. intros folder d.
    induction Hf as [| i e its ents (Hk & Hv) Hf IH];
      intros Hin; [destruct Hin |].
    destruct e as [ek ev]. destruct i as [ik iv]. cbn [fst snd] in *.
    subst ek. cbn [Dict.get].
    destruct Hin as [Hin | Hin].
    + inversion Hin; subst ik iv. rewrite String.eqb_refl.
      cbn [py_get] in Hv. destruct (Dict.get "name" d); congruence.
    + cbn [map fst] in Hkeys. apply NoDup_cons_iff in Hkeys.
      destruct Hkeys as (Hnot & Hkeys).
      destruct (String.eqb_spec folder ik) as [-> | Hne].
      * exfalso. apply Hnot. apply (in_map fst) in Hin. exact Hin.
      * apply IH; assumption.
Qed.

Lemma index_names_follow_cache_witness :
  exists names,
    load_profile_names_from_local_state work_fs data_dir = Ok names /\
    map fst names = ["Default"].
Proof.
  destruct (index_names_follow_cache work_fs data_dir
              [("profile", JDict [("info_cache",
                  JDict [("Default", JDict [("name", JStr "Work Account")])])])]
              [("info_cache",
                  JDict [("Default", JDict [("name", JStr "Work Account")])])]
              [("Default", JDict [("name", JStr "Work Account")])])
    as (names & Hn & Hk & _).
  - reflexivity.
  - reflexivity.
  - reflexivity.
  - repeat constructor. intros [].
  - intros folder info [H | []]. inversion H. eauto.
  - exists names. split; [exact Hn | exact Hk].
Defined.

(** ** Name resolution on edge inputs *)

Lemma dict_get_in {V : Type} (k : string) (v : V) (d : list (string * V)) :
  Dict.get k d = Some v -> In (k, v) d.
Proof.
  induction d as [| [k0 v0] d IH]; cbn [Dict.get]; [discriminate |].
  destruct (String.eqb_spec k k0) as [-> | Hne].
  - intro H. inversion H. now left.
  - intro H. right. now apply IH.
Qed.

Lemma match_query_one {V : Type} (tbl : list (string * V)) (q : string) :
  (List.length (match_query tbl q) <= 1)%nat /\
  forall info, In info (match_query tbl q) -> exists k, In (k, info) tbl.
Proof.
  unfold match_query.
  destruct (Dict.get (PyStr.lower q) tbl) as [info |] eqn:E.
  - split; [cbn; lia |]. intros i [<- | []].
    exists (PyStr.lower q). now apply dict_get_in.
  - generalize (PyStr.lower q). intro s. clear E.
    induction tbl as [| [k v] tbl IH]; cbn [first_partial].
    + split; [cbn; lia | intros i []].
    + destruct (PyStr.contains s k).
      * split; [cbn; lia |]. intros i [<- | []]. exists k. now left.
      * destruct IH as (Hl & Hin). split; [exact Hl |].
        intros i Hi. destruct (Hin i Hi) as (k' & Hk'). exists k'. now right.
Qed.

Lemma flat_map_bound {A B : Type} (f : A -> list B) (l : list A) :
  (forall a, List.length (f a) <= 1)%nat ->
  (List.length (flat_map f l) <= List.length l)%nat.
Proof.
  intro H. induction l as [| a l IH]; cbn [flat_map List.length]; [lia |].
  rewrite length_app. specialize (H a). lia.
Qed.

(** X21.  [find_profiles_by_name] gives at most one profile for each
    query, so never more profiles than queries, and none for no query;
    every profile it gives is one that [get_profile_dirs] lists. *)
Theorem name_search_bounds (fs : node) (user_data_dir : path)
    (names : list string) (matched : list (string * path))
    (Hfind : find_profiles_by_name fs user_data_dir names = Ok matched) :
  (List.length matched <= List.length names)%nat /\
  (names = [] -> matched = []) /\
  exists all_profiles,
    get_profile_dirs fs user_data_dir = Ok all_profiles /\
    forall info, In info matched -> In info all_profiles.
Proof.
  unfold find_profiles_by_name in Hfind.
  apply bind_ok in Hfind. destruct Hfind as (all_profiles & Hall & Hfind).
  apply bind_ok in Hfind. destruct Hfind as (profile_names & Hnames & Hfind).
  apply bind_ok in Hfind. destruct Hfind as (tbl & Htbl & Hfind).
  inversion Hfind; subst matched. clear Hfind.
  split; [| split].
  - apply flat_map_bound. intro q. apply match_query_one.
  - intros ->. reflexivity.
  - exists all_profiles. split; [exact Hall |].
    intros info Hin. apply in_flat_map in Hin. destruct Hin as (q & _ & Hq).
    apply match_query_one in Hq. destruct Hq as (k & Hk).
    destruct (build_keys _ _ _ _ _ Htbl k info Hk) as [[] | (H & _)]. exact H.
Qed.

Lemma name_search_bounds_witness :
  find_profiles_by_name work_fs data_dir ["work"; "nobody"]
    = Ok [("Default", ["data"; "Default"])] /\
  (1 <= 2)%nat.
Proof.
  split; [reflexivity |].
  apply (proj1 (name_search_bounds work_fs data_dir ["work"; "nobody"]
                  [("Default", ["data"; "Default"])] eq_refl)).
Defined.

Lemma lower_empty (s : string) : PyStr.lower s = "" -> s = "".
Proof. destruct s; [reflexivity | discriminate]. Qed.

Lemma contains_empty (s : string) : PyStr.contains "" s = true.
Proof. destruct s; reflexivity. Qed.

(** X22.  The empty query matches the first profile that has a display
    name: no key of the lookup is empty, and the empty string is a
    substring of every key, so [find_profiles_by_name] on [[""]] returns
    the profile under the first key of the lookup, or nothing when no
    profile has a name. *)
Theorem empty_query_takes_first (fs : node) (user_data_dir : path)
    (matched : list (string * path))
    (Hfind : find_profiles_by_name fs user_data_dir [""] = Ok matched) :
  exists all_profiles profile_names name_to_profile,
    get_profile_dirs fs user_data_dir = Ok all_profiles /\
    load_profile_names_from_local_state fs user_data_dir = Ok profile_names /\
    build_name_to_profile fs profile_names all_profiles [] = Ok name_to_profile /\
    Dict.get "" name_to_profile = None /\
    matched = map snd (firstn 1 name_to_profile).
Proof.
  unfold find_profiles_by_name in Hfind.
  apply bind_ok in Hfind. destruct Hfind as (all_profiles & Hall & Hfind).
  apply bind_ok in Hfind. destruct Hfind as (profile_names & Hnames & Hfind).
  apply bind_ok in Hfind. destruct Hfind as (tbl & Htbl & Hfind).
  inversion Hfind; subst matched. clear Hfind.
  exists all_profiles, profile_names, tbl.
  split; [exact Hall |]. split; [exact Hnames |]. split; [exact Htbl |].
  assert (Hnone : Dict.get "" tbl = None).
  { destruct (Dict.get "" tbl) as [info |] eqn:E; [| reflexivity].
    apply dict_get_in in E.
    destruct (build_keys _ _ _ _ _ Htbl "" info E) as [[] | (_ & d & _ & Hd & Hk)].
    symmetry in Hk. apply lower_empty in Hk. contradiction. }
  split; [exact Hnone |].
  cbn [flat_map]. rewrite app_nil_r. unfold match_query.
  cbn [PyStr.lower]. rewrite Hnone.
  destruct tbl as [| [k info] rest]; [reflexivity |].
  cbn [first_partial]. rewrite contains_empty. reflexivity.
Qed.

Lemma empty_query_takes_first_witness :
  find_profiles_by_name work_fs data_dir [""]
    = Ok [("Default", ["data"; "Default"])] /\
  exists name_to_profile : list (string * (string * path)),
    Dict.get "" name_to_profile = None /\
    [("Default", ["data"; "Default"])] = map snd (firstn 1 name_to_profile).
Proof.
  split; [reflexivity |].
  destruct (empty_query_takes_first work_fs data_dir
              [("Default", ["data"; "Default"])] eq_refl)
    as (a & n & t & _ & _ & _ & Hnone & Hm).
  exists t. split; [exact Hnone | exact Hm].
Defined.

Lemma build_app (fs : node) (profile_names : list (string * json))
    (l1 l2 : list (string * path)) :
  forall acc,
  build_name_to_profile fs profile_names (l1 ++ l2)%list acc
  = (t <- build_name_to_profile fs profile_names l1 acc ;;
     build_name_to_profile fs profile_names l2 t).
Proof.
  induction l1 as [| [f p] l1 IH]; intro acc;
    cbn [app build_name_to_profile bind]; [reflexivity |].
  destruct (display_name_of fs profile_names f (Path.join p "Preferences"))
    as [dn | e]; cbn [bind]; [| reflexivity].
  destruct (truthy dn); [| apply IH].
  destruct (py_lower dn) as [k | e]; cbn [bind]; [apply IH | reflexivity].
Qed.

Lemma build_keeps (fs : node) (profile_names : list (string * json))
    (k : string) (l : list (string * path)) :
  forall acc tbl,
  build_name_to_profile fs profile_names l acc = Ok tbl ->
  (forall f p d, In (f, p) l ->
     display_name_of fs profile_names f (Path.join p "Preferences")
     = Ok (JStr d) -> PyStr.lower d <> k) ->
  Dict.get k tbl = Dict.get k acc.
Proof.
  induction l as [| [f p] l IH]; intros acc tbl H Hother.
  - inversion H. reflexivity.
  - cbn [build_name_to_profile] in H.
    apply bind_ok in H. destruct H as (dn & Hdn & H).
    assert (Hrest : forall f' p' d, In (f', p') l ->
              display_name_of fs profile_names f' (Path.join p' "Preferences")
              = Ok (JStr d) -> PyStr.lower d <> k)
      by (intros f' p' d Hin; apply Hother; now right).
    destruct (truthy dn).
    + apply bind_ok in H. destruct H as (key & Hkey & H).
      destruct dn as [| | | | d | |]; try discriminate Hkey.
      inversion Hkey; subst key.
      rewrite (IH _ _ H Hrest).
      apply dict_get_set_other.
      intro E. apply (Hother f p d (or_introl eq_refl) Hdn). now symmetry.
    + apply (IH _ _ H Hrest).
Qed.

(** X23.  When several profiles have the same display name up to case, a
    query equal to that name up to case reaches the last of them in
    listing order: [find_profiles_by_name] returns the profile after which
    no listed profile has that name. *)
Theorem shared_name_reaches_last (fs : node) (user_data_dir : path)
    (before after : list (string * path)) (folder : string) (p : path)
    (profile_names : list (string * json)) (d q : string)
    (matched : list (string * path))
    (Hdirs : get_profile_dirs fs user_data_dir
             = Ok (before ++ (folder, p) :: after)%list)
    (Hnames : load_profile_names_from_local_state fs user_data_dir
              = Ok profile_names)
    (Hname : display_name_of fs profile_names folder
               (Path.join p "Preferences") = Ok (JStr d))
    (Hd : d <> "")
    (Hq : PyStr.lower q = PyStr.lower d)
    (Hlast : forall f' p' d', In (f', p') after ->
       display_name_of fs profile_names f' (Path.join p' "Preferences")
       = Ok (JStr d') -> PyStr.lower d' <> PyStr.lower d)
    (Hfind : find_profiles_by_name fs user_data_dir [q] = Ok matched) :
  matched = [(folder, p)].
Proof.
  unfold find_profiles_by_name in Hfind. rewrite Hdirs, Hnames in Hfind.
  cbn [bind] in Hfind. rewrite build_app in Hfind.
  apply bind_ok in Hfind. destruct Hfind as (tbl & Htbl & Hfind).
  apply bind_ok in Htbl. destruct Htbl as (t1 & _ & Htbl).
  cbn [build_name_to_profile] in Htbl. rewrite Hname in Htbl.
  cbn [bind truthy] in Htbl.
  destruct d as [| c d]; [contradiction |].
  cbn [truthy negb String.eqb py_lower bind] in Htbl.
  replace (negb (String (c) d =? "")%string) with true in Htbl
    by reflexivity.
  cbn [py_lower bind] in Htbl.
  pose proof (build_keeps _ _ _ _ _ _ Htbl Hlast) as Hget.
  rewrite dict_get_set_same in Hget.
  inversion Hfind; subst matched. cbn [flat_map]. rewrite app_nil_r.
  unfold match_query. rewrite Hq, Hget. reflexivity.
Qed.

Lemma shared_name_reaches_last_witness :
  get_profile_dirs twin_fs data_dir
    = Ok [("Default", ["data"; "Default"]);
          ("Profile 1", ["data"; "Profile 1"])] /\
  display_name_of twin_fs [] "Default" ["data"; "Default"; "Preferences"]
    = Ok (JStr "Work") /\
  display_name_of twin_fs [] "Profile 1" ["data"; "Profile 1"; "Preferences"]
    = Ok (JStr "work") /\
  find_profiles_by_name twin_fs data_dir ["WORK"]
    = Ok [("Profile 1", ["data"; "Profile 1"])] /\
  [("Profile 1", ["data"; "Profile 1"])] = [("Profile 1", ["data"; "Profile 1"])].
Proof.
  split; [reflexivity |]. split; [reflexivity |]. split; [reflexivity |].
  split; [reflexivity |].
  apply (shared_name_reaches_last twin_fs data_dir
           [("Default", ["data"; "Default"])] [] "Profile 1"
           ["data"; "Profile 1"] [] "work" "WORK"
           [("Profile 1", ["data"; "Profile 1"])]);
    try reflexivity; [discriminate | intros f' p' d' []].
Defined.

(** ** Selection by folder name *)

Lemma existsb_eqb_in (n : string) (l : list string) :
  existsb (String.eqb n) l = true <-> In n l.
Proof.
  rewrite existsb_exists. split.
  - intros (x & Hin & E). apply String.eqb_eq in E. now subst.
  - intro Hin. exists n. split; [exact Hin | apply String.eqb_refl].
Qed.

(** X24.  The selection by folder name in [main] keeps the listed
    profiles whose folder is requested, in listing order: what is selected
    from a listing is what is selected from its front followed by what is
    selected from its rest, and from one profile it is that profile or
    nothing.  The order of the request and a folder requested twice make no
    difference, and no profile is selected twice when none is listed
    twice.  The folders it reports as missing are the requested folders
    that are not listed, each once. *)
Theorem folder_selection (all_profiles : list (string * path))
    (requested : list string) :
  let selection := select_by_folder all_profiles requested in
  (forall item, In item (fst selection) <->
                In item all_profiles /\ In (fst item) requested) /\
  (forall front rest, all_profiles = (front ++ rest)%list ->
     fst selection = (fst (select_by_folder front requested)
                      ++ fst (select_by_folder rest requested))%list) /\
  (forall item,
     (In (fst item) requested ->
      fst (select_by_folder [item] requested) = [item]) /\
     (~ In (fst item) requested ->
      fst (select_by_folder [item] requested) = [])) /\
  (forall requested', (forall n, In n requested <-> In n requested') ->
     fst (select_by_folder all_profiles requested') = fst selection) /\
  (NoDup all_profiles -> NoDup (fst selection)) /\
  (forall n, In n (snd selection) <->
             In n requested /\ ~ In n (map fst all_profiles)) /\
  NoDup (snd selection).
Proof.
  cbv zeta. unfold select_by_folder. cbn [fst snd].
  split; [| split; [| split; [| split; [| split; [| split]]]]].
  - intro item. rewrite filter_In, existsb_eqb_in. reflexivity.
  - intros front rest ->. apply filter_app.
  - intro item. cbn [filter].
    destruct (existsb (String.eqb (fst item)) requested) eqn:E.
    + split; [reflexivity |]. intro Hn. exfalso. apply Hn.
      now apply existsb_eqb_in.
    + split; [| reflexivity]. intro Hin. apply existsb_eqb_in in Hin.
      congruence.
  - intros requested' Hsame. apply filter_ext. intro item.
    destruct (existsb (String.eqb (fst item)) requested) eqn:E.
    + apply existsb_eqb_in. apply Hsame. now apply existsb_eqb_in.
    + destruct (existsb (String.eqb (fst item)) requested') eqn:E';
        [| reflexivity].
      apply existsb_eqb_in, Hsame, existsb_eqb_in in E'. congruence.
  - apply NoDup_filter.
  - intro n. rewrite filter_In, nodup_In, negb_true_iff.
    split.
    + intros (Hin & Hno). split; [exact Hin |].
      intro Hall. apply in_map_iff in Hall.
      destruct Hall as ([f p] & Hf & Hitem). cbn [fst] in Hf. subst f.
      assert (Hsel : existsb (String.eqb n)
                (map fst (filter (fun item =>
                   existsb (String.eqb (fst item)) requested) all_profiles))
              = true).
      { apply existsb_eqb_in. apply in_map_iff. exists (n, p).
        split; [reflexivity |]. apply filter_In. split; [exact Hitem |].
        now apply existsb_eqb_in. }
      congruence.
    + intros (Hin & Hno). split; [exact Hin |].
      destruct (existsb (String.eqb n) _) eqn:E; [| reflexivity].
      exfalso. apply Hno. apply existsb_eqb_in in E.
      apply in_map_iff in E. destruct E as (item & Hf & Hitem).
      apply filter_In in Hitem. apply in_map_iff. exists item. tauto.
  - apply NoDup_filter, NoDup_nodup.
Qed.

Lemma folder_selection_witness :
  NoDup [("Default", ["data"; "Default"]); ("Zeta", ["data"; "Zeta"])] /\
  NoDup (fst (select_by_folder
                [("Default", ["data"; "Default"]); ("Zeta", ["data"; "Zeta"])]
                ["Zeta"; "Nobody"; "Zeta"])).
Proof.
  assert (H : NoDup [("Default", ["data"; "Default"]);
                     ("Zeta", ["data"; "Zeta"])]).
  { constructor; [intros [E | []]; discriminate E |].
    constructor; [intros [] | constructor]. }
  split; [exact H |].
  apply (proj1 (proj2 (proj2 (proj2 (proj2 (folder_selection
           [("Default", ["data"; "Default"]); ("Zeta", ["data"; "Zeta"])]
           ["Zeta"; "Nobody"; "Zeta"])))))).
  exact H.
Defined.

(** ** The list of backups *)

Lemma insert_desc_perm (x : string) (l : list string) :
  Permutation (insert_desc x l) (x :: l).
Proof.
  induction l as [| y l IH]; cbn [insert_desc]; [reflexivity |].
  destruct (str_ltb x y); [| reflexivity].
  rewrite IH. apply perm_swap.
Qed.

Lemma sorted_desc_perm (l : list string) : Permutation (sorted_desc l) l.
Proof.
  induction l as [| x l IH]; cbn [sorted_desc fold_right]; [reflexivity |].
  fold (sorted_desc l). rewrite insert_desc_perm. now constructor.
Qed.

Lemma insert_desc_sorted (x : string) (l : list string) :
  StronglySorted (fun a b => str_ltb a b = false) l ->
  StronglySorted (fun a b => str_ltb a b = false) (insert_desc x l).
Proof.
  induction l as [| y l IH]; intro H; cbn [insert_desc].
  - repeat constructor.
  - inversion H as [| ? ? Hl Hy]; subst.
    destruct (str_ltb x y) eqn:E.
    + constructor; [now apply IH |].
      eapply Permutation_Forall; [symmetry; apply insert_desc_perm |].
      constructor; [| exact Hy]. now apply str_ltb_asym.
    + constructor; [exact H |].
      constructor; [exact E |].
      eapply Forall_impl; [| exact Hy]. intros z Hz.
      eapply str_le_trans; [exact Hz | exact E].
Qed.

Lemma sorted_desc_sorted (l : list string) :
  StronglySorted (fun a b => str_ltb a b = false) (sorted_desc l).
Proof.
  induction l as [| x l IH]; cbn [sorted_desc fold_right]; [constructor |].
  now apply insert_desc_sorted.
Qed.

Lemma name_join (p : path) (c : string) : Path.name (Path.join p c) = c.
Proof. unfold Path.name, Path.join. apply last_last. Qed.

Lemma sorted_map {A B : Type} (f : A -> B) (R : A -> A -> Prop)
    (R' : B -> B -> Prop) (l : list A) :
  (forall a b, R a b -> R' (f a) (f b)) ->
  StronglySorted R l -> StronglySorted R' (map f l).
Proof.
  intros HR H. induction H as [| a l Hl IH Ha]; cbn [map]; constructor.
  - exact IH.
  - apply Forall_map. eapply Forall_impl; [| exact Ha]. intros b. apply HR.
Qed.

Lemma list_backups_in (fs : node) (user_data_dir : path) (label : string)
    (p : path) :
  In (label, p) (list_backups fs user_data_dir) <->
  exists es name,
    Path.lookup (get_backup_dir user_data_dir) fs = Some (Dir es) /\
    In name (map fst es) /\ PyFmt.is_json_name name = true /\
    label = PyFmt.stem name /\
    p = Path.join (get_backup_dir user_data_dir) name.
Proof.
  unfold list_backups, Path.exists_.
  destruct (Path.lookup (get_backup_dir user_data_dir) fs)
    as [[r w data | es] |]; cbn [negb].
  - split; [intros [] | intros (es & name & H & _)]. discriminate H.
  - rewrite in_map_iff. split.
    + intros (name & Hpair & Hin). inversion Hpair; subst label p.
      apply (Permutation_in _ (sorted_desc_perm _)) in Hin.
      apply filter_In in Hin. exists es, name. tauto.
    + intros (es' & name & Hes & Hin & Hjson & -> & ->).
      inversion Hes; subst es'. exists name. split; [reflexivity |].
      apply (Permutation_in _ (Permutation_sym (sorted_desc_perm _))).
      apply filter_In. tauto.
  - split; [intros [] | intros (es & name & H & _)]. discriminate H.
Qed.

(** X25.  [list_backups] returns nothing when the backup directory is
    missing or is not a directory.  Otherwise it lists exactly the entries
    of that directory whose name ends in [.json], each with its stem as
    label and its path, ordered by name from the greatest down. *)
Theorem listed_backups (fs : node) (user_data_dir : path) :
  let backup_dir := get_backup_dir user_data_dir in
  (Path.is_dir fs backup_dir = false -> list_backups fs user_data_dir = []) /\
  (forall label p,
     In (label, p) (list_backups fs user_data_dir) <->
     exists es name,
       Path.lookup backup_dir fs = Some (Dir es) /\ In name (map fst es) /\
       PyFmt.is_json_name name = true /\
       label = PyFmt.stem name /\ p = Path.join backup_dir name) /\
  StronglySorted
    (fun a b => str_ltb (Path.name (snd a)) (Path.name (snd b)) = false)
    (list_backups fs user_data_dir).
Proof.
  cbv zeta. split; [| split; [intros label p; apply list_backups_in |]].
  - unfold list_backups, Path.is_dir, Path.exists_.
    destruct (Path.lookup (get_backup_dir user_data_dir) fs)
      as [[r w data | es] |]; cbn [negb]; [reflexivity | discriminate |
                                             reflexivity].
  - unfold list_backups.
    destruct (negb (Path.exists_ fs (get_backup_dir user_data_dir)));
      [constructor |].
    eapply sorted_map; [| apply sorted_desc_sorted].
    intros a b H. cbn [snd]. now rewrite !name_join.
Qed.

Lemma listed_backups_witness :
  Path.is_dir work_fs (get_backup_dir data_dir) = false /\
  list_backups work_fs data_dir = [].
Proof.
  split; [reflexivity |].
  apply (proj1 (listed_backups work_fs data_dir)). reflexivity.
Defined.

Lemma lookup_join (q : path) (c : string) :
  forall n m, Path.lookup (Path.join q c) n = Some m ->
  exists es, Path.lookup q n = Some (Dir es) /\ Dict.get c es = Some m.
Proof.
  unfold Path.join.
  induction q as [| a q IH]; intros n m H; cbn [app Path.lookup] in *.
  - destruct n as [r w d | es]; [discriminate |].
    destruct (Dict.get c es) as [m' |] eqn:E; [| discriminate].
    cbn [Path.lookup] in H. inversion H; subst m'. eauto.
  - destruct n as [r w d | es]; [discriminate |].
    destruct (Dict.get a es) as [m' |]; [| discriminate].
    now apply IH.
Qed.

Lemma dict_get_key {V : Type} (k : string) (v : V) (d : list (string * V)) :
  Dict.get k d = Some v -> In k (map fst d).
Proof.
  induction d as [| [k0 v0] d IH]; cbn [Dict.get map fst In];
    [discriminate |].
  destruct (String.eqb_spec k k0) as [-> | Hne]; [now left |].
  intro H. right. now apply IH.
Qed.

Lemma str_app_assoc (a b c : string) : (a ++ b) ++ c = a ++ b ++ c.
Proof. induction a as [| x a IH]; cbn; [reflexivity | now rewrite IH]. Qed.

Lemma str_app_length (a b : string) :
  String.length (a ++ b) = (String.length a + String.length b)%nat.
Proof. induction a as [| x a IH]; cbn; [reflexivity | now rewrite IH]. Qed.

Lemma substring_tail (s t : string) :
  String.substring (String.length s) (String.length t) (s ++ t) = t.
Proof.
  induction s as [| x s IH]; cbn [String.length String.append String.substring].
  - induction t as [| y t IHt]; cbn [String.length String.substring];
      [reflexivity | now rewrite IHt].
  - exact IH.
Qed.

Lemma substring_head (s t : string) :
  String.substring 0 (String.length s) (s ++ t) = s.
Proof.
  induction s as [| x s IH]; cbn [String.length String.append String.substring].
  - destruct t; reflexivity.
  - now rewrite IH.
Qed.

Lemma json_name (s : string) : PyFmt.is_json_name (s ++ ".json") = true.
Proof.
  unfold PyFmt.is_json_name. rewrite str_app_length.
  cbn [String.length].
  replace (String.length s + 5 - 5)%nat with (String.length s) by lia.
  rewrite (substring_tail s ".json" : String.substring (String.length s) 5
                                        (s ++ ".json") = ".json").
  destruct (Nat.leb_spec 5 (String.length s + 5)); [reflexivity | lia].
Qed.

Lemma rfind_dot_json (s : string) :
  PyFmt.rfind_dot (s ++ ".json") = Some (String.length s).
Proof.
  induction s as [| x s IH]; [reflexivity |].
  cbn [String.append PyFmt.rfind_dot String.length]. now rewrite IH.
Qed.

Lemma stem_json (s : string) : s <> "" -> PyFmt.stem (s ++ ".json") = s.
Proof.
  intro Hs. unfold PyFmt.stem. rewrite rfind_dot_json, str_app_length.
  cbn [String.length].
  assert (0 < String.length s)%nat
    by (destruct s; [contradiction | cbn; lia]).
  destruct (Nat.ltb_spec 0 (String.length s)); [| lia].
  destruct (Nat.ltb_spec (String.length s) (String.length s + 5 - 1)); [| lia].
  cbn [andb]. apply substring_head.
Qed.

(** X26.  A backup that [backup_preferences] reports as made is listed by
    [list_backups] afterwards, under the label made of the profile folder,
    an underscore and the time stamp, with the path that was returned. *)
Theorem backup_is_listed (prefs_path user_data_dir : path) (w : world)
    (b : path)
    (Hsome : fst (backup_preferences prefs_path user_data_dir w)
             = Ok (Some b)) :
  In (Path.name (Path.parent prefs_path) ++ "_" ++ hd "" (clock w), b)
     (list_backups
        (root (snd (backup_preferences prefs_path user_data_dir w)))
        user_data_dir).
Proof.
  set (stem := Path.name (Path.parent prefs_path) ++ "_" ++ hd "" (clock w)).
  assert (Hb : backup_path_of prefs_path user_data_dir w
               = Path.join (get_backup_dir user_data_dir) (stem ++ ".json")).
  { unfold backup_path_of, stem. now rewrite !str_app_assoc. }
  assert (Hstem : stem <> "").
  { unfold stem. destruct (Path.name (Path.parent prefs_path)); discriminate. }
  destruct (backup_cases prefs_path user_data_dir w)
    as [[_ E] | [(n1 & Hm & E) | (n1 & n2 & t & wr & data & Hm & Ht & _ & Hr & Hs & E)]];
    rewrite E in Hsome |- *; cbn [fst snd root] in *; try discriminate.
  inversion Hsome; subst b. clear Hsome E.
  assert (Hex : exists m, Path.lookup
                  (backup_path_of prefs_path user_data_dir w) n2 = Some m).
  { apply store_mode in Hs. destruct Ht as [-> | ->]; [eauto |].
    apply lookup_join in Hs. destruct Hs as (es & Hl & _). eauto. }
  destruct Hex as (m & Hl). rewrite Hb in Hl |- *.
  apply lookup_join in Hl. destruct Hl as (es & Hdir & Hget).
  apply list_backups_in.
  exists es, (stem ++ ".json").
  split; [exact Hdir |]. split; [eapply dict_get_key; exact Hget |].
  split; [apply json_name |]. split; [| reflexivity].
  symmetry. now apply stem_json.
Qed.

Lemma backup_is_listed_witness :
  let w := world_of work_fs in
  let b := ["data"; ".color_backups"; "Default_20250101_120000.json"] in
  fst (backup_preferences (prefs_of "Default") data_dir w) = Ok (Some b) /\
  In ("Default_20250101_120000", b)
     (list_backups
        (root (snd (backup_preferences (prefs_of "Default") data_dir w)))
        data_dir).
Proof.
  cbv zeta. split; [reflexivity |].
  apply (backup_is_listed (prefs_of "Default") data_dir (world_of work_fs)).
  reflexivity.
Defined.

(** ** The colour on the command line *)

Lemma hex_to_signed_int_errors (x : string) (e : exn) :
  hex_to_signed_int x = Raise e -> e = ValueError.
Proof.
  unfold hex_to_signed_int.
  destruct (Nat.eqb (String.length (PyStr.lstrip "#" x)) 6); cbn [bind].
  - destruct (PyStr.int 16 ("FF" ++ PyStr.lstrip "#" x)) as [u | e'] eqn:E;
      cbn [bind].
    + destruct (u >=? Z.shiftl 1 31)%Z; discriminate.
    + intro H. inversion H; subst. eapply int_errors; exact E.
  - destruct (negb (Nat.eqb (String.length (PyStr.lstrip "#" x)) 8));
      cbn [bind]; [intro H; now inversion H |].
    destruct (PyStr.int 16 (PyStr.lstrip "#" x)) as [u | e'] eqn:E;
      cbn [bind].
    + destruct (u >=? Z.shiftl 1 31)%Z; discriminate.
    + intro H. inversion H; subst. eapply int_errors; exact E.
Qed.

Lemma color_swatch_errors (h : string) (width : Z) (e : exn) :
  color_swatch h width = Raise e -> e = ValueError.
Proof.
  unfold color_swatch, hex_to_rgb.
  destruct (PyStr.int 16 (String.substring 0 2 (PyStr.lstrip "#" h)))
    as [r |] eqn:Er; cbn [bind];
    [| intro H; inversion H; subst; eapply int_errors; exact Er].
  destruct (PyStr.int 16 (String.substring 2 2 (PyStr.lstrip "#" h)))
    as [g |] eqn:Eg; cbn [bind];
    [| intro H; inversion H; subst; eapply int_errors; exact Eg].
  destruct (PyStr.int 16 (String.substring 4 2 (PyStr.lstrip "#" h)))
    as [b |] eqn:Eb; cbn [bind];
    [discriminate | intro H; inversion H; subst; eapply int_errors; exact Eb].
Qed.

Lemma color_hex_valid (x : string) :
  valid_color x = true -> color_hex x = String "#" (upper (strip_hash x)).
Proof.
  intro Hvalid. unfold valid_color in Hvalid. apply andb_prop in Hvalid.
  destruct Hvalid as [Hlen _]. apply Nat.eqb_eq in Hlen.
  destruct x as [| c s]; [discriminate Hlen |].
  unfold color_hex, PyStr.startswith. cbn [strip_hash].
  destruct (Ascii.eqb_spec c "#") as [-> | Hne].
  - destruct s; reflexivity.
  - cbn [String.prefix]. destruct (ascii_dec "#" c) as [E | _];
      [symmetry in E; contradiction | reflexivity].
Qed.

(** X27.  In [main], a valid colour is accepted and its line is printed,
    showing the colour as [signed_int_to_hex] gives it back for the integer
    to be stored.  A text that [hex_to_signed_int] rejects ends the run with
    the error message.  The line can still fail for a text that
    [hex_to_signed_int] accepts: then [color_swatch] raises [ValueError]
    outside the [try], as it does for ["0x123456"]. *)
Theorem colour_line_after_validation :
  (forall x, valid_color x = true ->
     exists n text,
       validate_color x = Ok (Some (n, signed_int_to_hex n)) /\
       color_line x = Ok (Some text)) /\
  (forall x e, hex_to_signed_int x = Raise e ->
     validate_color x = Ok None /\ color_line x = Ok None) /\
  (forall x e, color_line x = Raise e ->
     e = ValueError /\ exists n, hex_to_signed_int x = Ok n) /\
  hex_to_signed_int "0x123456" = Ok 1193046%Z /\
  color_line "0x123456" = Raise ValueError.
Proof.
  split; [| split; [| split; [| split; reflexivity]]].
  - intros x Hvalid.
    pose proof (color_hex_valid x Hvalid) as Hhex.
    unfold valid_color in Hvalid. apply andb_prop in Hvalid.
    destruct Hvalid as [Hlen Hdigits]. apply Nat.eqb_eq in Hlen.
    assert (Hn : exists n, hex_to_signed_int x = Ok n /\
                           signed_int_to_hex n = color_hex x).
    { rewrite Hhex. destruct x as [| c s]; [discriminate Hlen |].
      cbn [strip_hash] in *.
      destruct (Ascii.eqb c "#") eqn:Hc.
      - apply Ascii.eqb_eq in Hc. subst c.
        destruct (codec_six_digits s Hlen Hdigits) as (n & _ & Hn & _ & Hb).
        eauto.
      - destruct (codec_six_digits (String c s) Hlen Hdigits)
          as (n & Hn & _ & _ & Hb).
        eauto. }
    destruct Hn as (n & Hn & Hback).
    assert (Hv : validate_color x = Ok (Some (n, signed_int_to_hex n))).
    { unfold validate_color. rewrite Hn. cbn [bind catch]. now rewrite Hback. }
    exists n. unfold color_line. rewrite Hv. cbn [bind].
    unfold color_swatch. rewrite rgb_of_stored. cbn [bind]. eauto.
  - intros x e Hraise.
    pose proof (hex_to_signed_int_errors x e Hraise) as ->.
    assert (Hv : validate_color x = Ok None).
    { unfold validate_color. rewrite Hraise. reflexivity. }
    split; [exact Hv |]. unfold color_line. rewrite Hv. reflexivity.
  - intros x e. unfold color_line, validate_color.
    destruct (hex_to_signed_int x) as [n | e'] eqn:En; cbn [bind catch].
    + destruct (color_swatch (color_hex x) 2) as [s | e'] eqn:Es;
        cbn [bind]; [discriminate |].
      intro H. inversion H; subst e'. split; [| eauto].
      eapply color_swatch_errors; exact Es.
    + rewrite (hex_to_signed_int_errors x e' En). cbn [is_value_error bind].
      discriminate.
Qed.

Lemma colour_line_after_validation_witness :
  valid_color "#ff5500" = true /\
  exists n text,
    validate_color "#ff5500" = Ok (Some (n, signed_int_to_hex n)) /\
    color_line "#ff5500" = Ok (Some text).
Proof.
  split; [reflexivity |].
  apply (proj1 colour_line_after_validation "#ff5500"). reflexivity.
Defined.

(** ** A whole run *)

Lemma prefs_not_backup (user_data_dir : path) (folder : string)
    (prefs_path : path) (w : world) :
  Path.join (Path.join user_data_dir folder) "Preferences"
  <> backup_path_of prefs_path user_data_dir w.
Proof.
  unfold backup_path_of, get_backup_dir, Path.join. intro E.
  apply app_inj_tail in E. destruct E as (_ & E).
  pose proof (json_name (Path.name (Path.parent prefs_path) ++ "_"
                         ++ hd "" (clock w))) as Hj.
  rewrite !str_app_assoc in Hj. rewrite <- E in Hj. discriminate Hj.
Qed.

Lemma prefs_not_in_backup (user_data_dir : path) (folder c : string)
    (prefs_path : path) (w : world) :
  Path.join (Path.join user_data_dir folder) "Preferences"
  <> Path.join (backup_path_of prefs_path user_data_dir w) c.
Proof.
  unfold backup_path_of, get_backup_dir, Path.join. intro E.
  apply (f_equal (@List.length string)) in E.
  rewrite !length_app in E. cbn [List.length] in E. lia.
Qed.

Lemma holds_colour_written (c : Z) (q : path) (n n' : node)
    (prefs doc : json) :
  holds_colour c q n -> mutate_prefs c prefs = Ok doc ->
  Path.store q (Json doc) None n = Ok n' -> holds_colour c q n'.
Proof.
  intros (wr & d0 & Hl & _) Hmut Hs.
  destruct (mutate_prefs_fields _ _ _ Hmut) as [Hid Hcolor].
  exists wr, doc. split; [| now split].
  eapply store_over; eauto.
Qed.

Lemma holds_colour_store (c : Z) (q q' : path) (n n' : node)
    (data : content) (mode : option bool) :
  holds_colour c q n -> q <> q' ->
  Path.store q' data mode n = Ok n' -> holds_colour c q n'.
Proof.
  intros (wr & d0 & Hl & Hf) Hne Hs. exists wr, d0. split; [| exact Hf].
  eapply store_frame; eauto.
Qed.

Lemma try_keeps (c : Z) (q q' user_data_dir : path) (backup : bool)
    (w : world) :
  holds_colour c q (root w) ->
  (forall w0, q <> backup_path_of q' user_data_dir w0) ->
  (forall w0, q <> Path.join (backup_path_of q' user_data_dir w0)
                             (Path.name q')) ->
  holds_colour c q
    (root (snd (set_theme_color_try q' c user_data_dir false backup w))).
Proof.
  intros Hq Hb1 Hb2. unfold set_theme_color_try.
  unfold bindM at 1, lift at 1.
  destruct (Path.read_json (root w) q') as [prefs | e]; [| exact Hq].
  unfold bindM at 1, lift at 1.
  destruct (mutate_prefs c prefs) as [doc | e] eqn:Hmut; [| exact Hq].
  cbn [negb]. unfold bindM at 1. unfold bindM at 1.
  assert (Hstep : forall w3, holds_colour c q (root w3) ->
            holds_colour c q
              (root (snd (let (r, w') := write_json q' doc w3 in
                          match r with
                          | Ok a => ret true w'
                          | Raise e => (Raise e, w')
                          end)))).
  { intros w3 H3. rewrite write_json_result.
    destruct (Path.store q' (Json doc) None (root w3)) as [n' | e] eqn:Es;
      cbn [ret snd root]; [| exact H3].
    destruct (list_eq_dec String.string_dec q q') as [<- | Hne].
    - eapply holds_colour_written; eauto.
    - eapply holds_colour_store; eauto. }
  destruct backup.
  - unfold bindM at 1.
    assert (H3 : holds_colour c q
              (root (snd (backup_preferences q' user_data_dir w)))).
    { destruct Hq as (wr & d0 & Hl & Hf). exists wr, d0.
      split; [| exact Hf].
      apply backup_frame_at; [exact Hl | apply Hb1 | apply Hb2]. }
    destruct (backup_preferences q' user_data_dir w) as [[o | e] w3];
      cbn [snd] in H3.
    + cbn [ret]. apply Hstep. exact H3.
    + exact H3.
  - cbn [ret]. apply Hstep. exact Hq.
Qed.

Lemma set_theme_color_keeps (c : Z) (q q' user_data_dir : path)
    (backup : bool) (w : world) :
  holds_colour c q (root w) ->
  (forall w0, q <> backup_path_of q' user_data_dir w0) ->
  (forall w0, q <> Path.join (backup_path_of q' user_data_dir w0)
                             (Path.name q')) ->
  holds_colour c q
    (root (snd (set_theme_color q' c user_data_dir false backup w))).
Proof.
  intros Hq Hb1 Hb2.
  pose proof (try_keeps c q q' user_data_dir backup w Hq Hb1 Hb2) as H.
  unfold set_theme_color, catchM.
  destruct (set_theme_color_try q' c user_data_dir false backup w)
    as [[ok | e] w1]; cbn [snd] in H |- *; [exact H |].
  destruct (decode_or_io e); exact H.
Qed.

Lemma loop_keeps (c : Z) (user_data_dir : path) (folder : string)
    (profile_names : list (string * json)) (do_backup : bool)
    (profiles : list (string * path)) :
  forall (count : Z) (w : world),
  holds_colour c (Path.join (Path.join user_data_dir folder) "Preferences")
    (root w) ->
  holds_colour c (Path.join (Path.join user_data_dir folder) "Preferences")
    (root (snd (update_loop profile_names profiles c user_data_dir false
                  do_backup count w))).
Proof.
  induction profiles as [| [f p] rest IH]; intros count w Hq.
  - exact Hq.
  - cbn [update_loop]. unfold bindM at 1, lift at 1.
    destruct (display_name_of (root w) profile_names f
                (Path.join p "Preferences")); [| exact Hq].
    unfold bindM at 1, lift at 1.
    destruct (get_current_color (root w) (Path.join p "Preferences"));
      [| exact Hq].
    unfold bindM at 1.
    pose proof (set_theme_color_keeps c _ (Path.join p "Preferences")
                  user_data_dir do_backup w Hq
                  (prefs_not_backup user_data_dir folder _)
                  (prefs_not_in_backup user_data_dir folder _ _)) as H1.
    destruct (set_theme_color (Path.join p "Preferences") c user_data_dir
                false do_backup w) as [[ok | e] w1]; cbn [snd] in H1;
      [| exact H1].
    apply IH. exact H1.
Qed.

Lemma loop_bounds (profile_names : list (string * json))
    (color_int : Z) (user_data_dir : path) (dry_run do_backup : bool)
    (profiles : list (string * path)) :
  forall (count total : Z) (w : world),
  fst (update_loop profile_names profiles color_int user_data_dir dry_run
         do_backup count w) = Ok total ->
  (count <= total <= count + Z.of_nat (List.length profiles))%Z.
Proof.
  induction profiles as [| [f p] rest IH]; intros count total w H.
  - cbn in H. inversion H. cbn [List.length]. lia.
  - cbn [update_loop] in H. unfold bindM at 1, lift at 1 in H.
    destruct (display_name_of (root w) profile_names f
                (Path.join p "Preferences")); [| discriminate H].
    unfold bindM at 1, lift at 1 in H.
    destruct (get_current_color (root w) (Path.join p "Preferences"));
      [| discriminate H].
    unfold bindM at 1 in H.
    destruct (set_theme_color (Path.join p "Preferences") color_int
                user_data_dir dry_run do_backup w) as [[ok | e] w1];
      [| discriminate H].
    apply IH in H. destruct ok; cbn [List.length]; lia.
Qed.

Lemma holds_colour_read (c : Z) (q : path) (n : node) :
  holds_colour c q n ->
  get_theme_id n q = Ok (JStr "autogenerated_theme_id") /\
  get_current_color n q = Ok (Some (signed_int_to_hex c)).
Proof.
  intros (wr & doc & Hl & Hid & Hcolor).
  assert (Hread : Path.read_json n q = Ok doc)
    by (apply read_json_ok; eauto).
  split.
  - unfold get_theme_id. rewrite Hread. cbn [bind].
    now rewrite (field3_py_get _ _ _ _ _ (JStr "") Hid).
  - unfold get_current_color. rewrite Hread. cbn [bind].
    apply (field3_py_get _ _ _ _ _ JNull) in Hcolor.
    apply bind_ok in Hcolor. destruct Hcolor as (x & Hx & Hcolor).
    apply bind_ok in Hcolor. destruct Hcolor as (y & Hy & Hz).
    rewrite Hx. cbn [bind]. rewrite Hy. cbn [bind]. rewrite Hz.
    reflexivity.
Qed.

Lemma loop_all_set (c : Z) (user_data_dir : path)
    (profile_names : list (string * json)) (do_backup : bool)
    (profiles : list (string * path)) :
  forall (count : Z) (w w' : world),
  (forall f p, In (f, p) profiles -> p = Path.join user_data_dir f) ->
  update_loop profile_names profiles c user_data_dir false do_backup count w
  = (Ok (count + Z.of_nat (List.length profiles))%Z, w') ->
  forall f p, In (f, p) profiles ->
    holds_colour c (Path.join p "Preferences") (root w').
Proof.
  induction profiles as [| [f0 p0] rest IH]; intros count w w' Hpaths H f p Hin.
  - destruct Hin.
  - cbn [update_loop] in H. unfold bindM at 1, lift at 1 in H.
    destruct (display_name_of (root w) profile_names f0
                (Path.join p0 "Preferences")); [| discriminate H].
    unfold bindM at 1, lift at 1 in H.
    destruct (get_current_color (root w) (Path.join p0 "Preferences"));
      [| discriminate H].
    unfold bindM at 1 in H.
    destruct (set_theme_color (Path.join p0 "Preferences") c user_data_dir
                false do_backup w) as [[ok | e] w1] eqn:Eset;
      [| discriminate H].
    pose proof (f_equal fst H) as Hb. cbn [fst] in Hb.
    apply loop_bounds in Hb. cbn [List.length] in Hb.
    destruct ok; [| lia].
    cbn [List.length] in H.
    replace (count + Z.of_nat (S (List.length rest)))%Z
      with (count + 1 + Z.of_nat (List.length rest))%Z in H by lia.
    destruct Hin as [Hin | Hin].
    + inversion Hin; subst f0 p0.
      assert (H1 : holds_colour c (Path.join p "Preferences") (root w1)).
      { destruct (set_theme_color_success _ _ _ _ _ _ Eset)
          as (prefs & doc & wr & _ & Hmut & Hl & _).
        destruct (mutate_prefs_fields _ _ _ Hmut) as [Hid Hcolor].
        exists wr, doc. now repeat split. }
      rewrite (Hpaths f p (or_introl eq_refl)) in H1 |- *.
      pose proof (loop_keeps c user_data_dir f profile_names do_backup rest
                    (count + 1)%Z w1 H1) as Hk.
      rewrite H in Hk. exact Hk.
    + eapply IH; [| exact H | exact Hin].
      intros f' p' Hin'. apply Hpaths. now right.
Qed.

(** X28.  When a run that is not a dry run, over folders of the data
    directory, reports every selected profile as updated, every selected
    profile holds the colour afterwards, also a profile selected more than
    once and whatever backups were made in between: its preference file is
    read back with the custom theme and with the colour that was applied. *)
Theorem full_count_means_all_set (profiles : list (string * path))
    (color_int : Z) (user_data_dir : path) (no_backup : bool)
    (w w' : world)
    (Hpaths : forall f p, In (f, p) profiles -> p = Path.join user_data_dir f)
    (Hrun : update_profiles profiles color_int user_data_dir false no_backup w
            = (Ok (Z.of_nat (List.length profiles)), w')) :
  forall f p, In (f, p) profiles ->
    get_theme_id (root w') (Path.join p "Preferences")
      = Ok (JStr "autogenerated_theme_id") /\
    get_current_color (root w') (Path.join p "Preferences")
      = Ok (Some (signed_int_to_hex color_int)).
Proof.
  intros f p Hin. apply holds_colour_read.
  unfold update_profiles in Hrun. unfold bindM at 1, lift at 1 in Hrun.
  destruct (load_profile_names_from_local_state (root w) user_data_dir)
    as [names | e]; [| discriminate Hrun].
  eapply (loop_all_set _ _ _ _ _ 0%Z); [exact Hpaths | exact Hrun | exact Hin].
Qed.

Lemma full_count_means_all_set_witness :
  let target := ("Default", ["data"; "Default"]) in
  let out := update_profiles [target; target] 7 data_dir false false
               (world_of work_fs) in
  fst out = Ok 2%Z /\
  get_current_color (root (snd out)) ["data"; "Default"; "Preferences"]
    = Ok (Some (signed_int_to_hex 7)).
Proof.
  cbv zeta. split; [reflexivity |].
  apply (full_count_means_all_set
           [("Default", ["data"; "Default"]); ("Default", ["data"; "Default"])]
           7 data_dir false (world_of work_fs)
           (snd (update_profiles
                   [("Default", ["data"; "Default"]);
                    ("Default", ["data"; "Default"])]
                   7 data_dir false false (world_of work_fs)))
           ) with (f := "Default") (p := ["data"; "Default"]).
  - intros f p [H | [H | []]]; inversion H; reflexivity.
  - reflexivity.
  - left. reflexivity.
Defined.
